(** * Streaming chat client: decoder and conversation state

    Shallow embedding of [handleSendMessage] from the two
    [components/chat-interface.tsx] files of the repository:

    - the "Dev Ninja AI" component (model [ninja-ai]), which keeps a
      carry-over [buffer] between chunks and, on failure, replaces the
      last conversation entry by an error message (module [DevNinja]);
    - the "Ollama Chat" component (model [llama3.2]), which splits every
      chunk on its own and, on failure, appends an error message
      (module [OllamaChat]).

    JavaScript strings are sequences of UTF-16 code units; the platform
    functions the handler calls ([String.prototype.trim], [split],
    [TextDecoder.decode] in streaming mode, [JSON.parse], the coercions of
    [if (data.response)] and [+=]) are modelled first, then the React state
    and the handler itself. *)

From Stdlib Require Import NArith ZArith Bool Ascii String Strings.Byte Lia.
From Stdlib Require Import DecimalN FinFun Sorting.Sorted List.
From Stdlib Require Import Floats.SpecFloat.
Import ListNotations.

Set Implicit Arguments.
Set Warnings "-register-all".
Local Open Scope list_scope.

(** ** JavaScript strings *)

Module JS.

(** A string value: its UTF-16 code units, each below [2^16]. *)
Definition jsstring := list N.

(** An ASCII literal of this file as a JavaScript string. *)
Definition lit (s : string) : jsstring :=
  List.map N_of_ascii (list_ascii_of_string s).

(** Strict equality [===] of two strings. *)
Fixpoint eqb (a b : jsstring) : bool :=
  match a, b with
  | [], [] => true
  | x :: a', y :: b' => N.eqb x y && eqb a' b'
  | _, _ => false
  end.

(** [WhiteSpace] and [LineTerminator] code points, the ones [trim] strips. *)
Definition isWhiteSpace (c : N) : bool :=
  ((9 <=? c) && (c <=? 13) || (c =? 32) || (c =? 160) || (c =? 5760)
   || (8192 <=? c) && (c <=? 8202) || (c =? 8232) || (c =? 8233)
   || (c =? 8239) || (c =? 8287) || (c =? 12288) || (c =? 65279))%N.

Fixpoint trimStart (s : jsstring) : jsstring :=
  match s with
  | c :: t => if isWhiteSpace c then trimStart t else s
  | [] => []
  end.

Definition trimEnd (s : jsstring) : jsstring := rev (trimStart (rev s)).

(** [String.prototype.trim]. *)
Definition trim (s : jsstring) : jsstring := trimEnd (trimStart s).

(** [ToBoolean] of a string: the empty string is the only falsy one. *)
Definition truthy (s : jsstring) : bool :=
  match s with [] => false | _ :: _ => true end.

(** The line feed, separator of [split("\n")]. *)
Definition LF : N := 10.

(** [s.split("\n")]: the pieces between line feeds; never empty. *)
Fixpoint split_LF (s : jsstring) : list jsstring :=
  match s with
  | [] => [[]]
  | c :: t =>
      if (c =? LF)%N then [] :: split_LF t
      else match split_LF t with
           | l :: ls => (c :: l) :: ls
           | [] => [[c]]
           end
  end.

(** [Number.prototype.toString] of a non-negative integer (a timestamp):
    its decimal digits. *)
Fixpoint digits_of_uint (d : Decimal.uint) : jsstring :=
  match d with
  | Decimal.Nil => []
  | Decimal.D0 d => 48%N :: digits_of_uint d
  | Decimal.D1 d => 49%N :: digits_of_uint d
  | Decimal.D2 d => 50%N :: digits_of_uint d
  | Decimal.D3 d => 51%N :: digits_of_uint d
  | Decimal.D4 d => 52%N :: digits_of_uint d
  | Decimal.D5 d => 53%N :: digits_of_uint d
  | Decimal.D6 d => 54%N :: digits_of_uint d
  | Decimal.D7 d => 55%N :: digits_of_uint d
  | Decimal.D8 d => 56%N :: digits_of_uint d
  | Decimal.D9 d => 57%N :: digits_of_uint d
  end.

Definition toString (n : N) : jsstring := digits_of_uint (N.to_uint n).

End JS.

Abbreviation jsstring := JS.jsstring.

(** ** [TextDecoder] for UTF-8, streaming

    [new TextDecoder()] decodes UTF-8, replaces malformed input by U+FFFD
    and strips one leading byte-order mark.  Every call of the source is
    [decoder.decode(value, { stream: true })]: the bytes of an unfinished
    sequence stay in the decoder for the next call and are never flushed. *)

Module TextDecoder.

(** A chunk as [reader.read()] delivers it: the bytes of a [Uint8Array]. *)
Definition chunk := list byte.

(** The variables of the UTF-8 decoder. *)
Record utf8 := mkUtf8 {
  code_point : N;
  bytes_seen : N;
  bytes_needed : N;
  lower_boundary : N;
  upper_boundary : N }.

(** The decoder object: the UTF-8 variables and the [BOM seen] flag. *)
Record t := mk { state : utf8; BOM_seen : bool }.

Definition utf8_init : utf8 := mkUtf8 0 0 0 128 191.

(** [new TextDecoder()]. *)
Definition create : t := mk utf8_init false.

Definition REPLACEMENT : N := 65533.

(** A byte read while no sequence is pending. *)
Definition lead (b : N) : utf8 * list N :=
  (if b <=? 127 then (utf8_init, [b])
   else if (194 <=? b) && (b <=? 223) then
     (mkUtf8 (N.land b 31) 0 1 128 191, [])
   else if (224 <=? b) && (b <=? 239) then
     (mkUtf8 (N.land b 15) 0 2
        (if b =? 224 then 160 else 128) (if b =? 237 then 159 else 191), [])
   else if (240 <=? b) && (b <=? 244) then
     (mkUtf8 (N.land b 7) 0 3
        (if b =? 240 then 144 else 128) (if b =? 244 then 143 else 191), [])
   else (utf8_init, [REPLACEMENT]))%N.

(** The handler of the UTF-8 decoder for one byte: the new variables and
    the scalar values emitted.  A byte outside the boundaries ends the
    pending sequence with an error and is then read again as a lead. *)
Definition handler (u : utf8) (b : N) : utf8 * list N :=
  (if bytes_needed u =? 0 then lead b
   else if negb ((lower_boundary u <=? b) && (b <=? upper_boundary u)) then
     let (u', out) := lead b in (u', REPLACEMENT :: out)
   else
     let cp := N.lor (N.shiftl (code_point u) 6) (N.land b 63) in
     let seen := bytes_seen u + 1 in
     if seen =? bytes_needed u then (utf8_init, [cp])
     else (mkUtf8 cp seen (bytes_needed u) 128 191, []))%N.

Fixpoint run (u : utf8) (bs : chunk) : utf8 * list N :=
  match bs with
  | [] => (u, [])
  | b :: bs' =>
      let (u1, o1) := handler u (Byte.to_N b) in
      let (u2, o2) := run u1 bs' in
      (u2, o1 ++ o2)
  end.

(** The UTF-16 code units of a scalar value. *)
Definition code_units (cp : N) : jsstring :=
  (if cp <? 65536 then [cp]
   else let c := cp - 65536 in
        [55296 + N.shiftr c 10; 56320 + N.land c 1023])%N.

(** Serialising the emitted scalar values: the first one sets [BOM seen]
    and is dropped when it is U+FEFF. *)
Fixpoint serialize (bom : bool) (items : list N) : bool * jsstring :=
  match items with
  | [] => (bom, [])
  | item :: rest =>
      let (bom', out) := serialize true rest in
      (bom', (if negb bom && (item =? 65279)%N then [] else code_units item)
             ++ out)
  end.

(** [decoder.decode(value, { stream: true })]. *)
Definition decode (d : t) (value : chunk) : t * jsstring :=
  let (u, items) := run (state d) value in
  let (bom, text) := serialize (BOM_seen d) items in
  (mk u bom, text).

End TextDecoder.

(** ** Number values

    A JavaScript Number is an IEEE 754 binary64 value.  [JSON.parse] rounds
    the decimal literal to the nearest one, ties to even, and
    [Number::toString] prints the shortest decimal that rounds back. *)

Module Number.

Definition t := spec_float.

Definition prec : Z := 53.
Definition emax : Z := 1024.

Definition eqb (x y : t) : bool :=
  match x, y with
  | S754_zero a, S754_zero b => Bool.eqb a b
  | S754_infinity a, S754_infinity b => Bool.eqb a b
  | S754_nan, S754_nan => true
  | S754_finite a m e, S754_finite b m' e' =>
      Bool.eqb a b && Pos.eqb m m' && Z.eqb e e'
  | _, _ => false
  end.

(** The Number nearest to [m * 10^e], negated when [neg] is set. *)
Definition of_decimal (neg : bool) (m : N) (e : Z) : t :=
  match m with
  | N0 => S754_zero neg
  | Npos p =>
      if (310 <? e)%Z then S754_infinity neg
      else if (e + Z.log2 (Zpos p) + 1 <? -330)%Z then S754_zero neg
      else if (0 <=? e)%Z then
        match (Zpos p * 10 ^ e)%Z with
        | Zpos q => binary_round prec emax neg q 0
        | _ => S754_nan
        end
      else
        let den := (10 ^ (- e))%Z in
        let s := Z.max 0 (Z.log2 den + 56 - Z.log2 (Zpos p)) in
        let num := (Zpos p * 2 ^ s)%Z in
        let q := (num / den)%Z in
        let r := (num mod den)%Z in
        let loc := if (r =? 0)%Z then loc_Exact
                   else loc_Inexact (2 * r ?= den)%Z in
        binary_round_aux prec emax neg q (- s) loc
  end.

(** [ToBoolean] of a Number: the zeros and NaN are falsy. *)
Definition truthy (x : t) : bool :=
  match x with
  | S754_zero _ | S754_nan => false
  | _ => true
  end.

(** The position [n] of the decimal point of [num / den > 0]:
    [10^(n-1) <= num / den < 10^n]. *)
Fixpoint below_one (fuel : nat) (num den : Z) (j : Z) : Z :=
  match fuel with
  | O => j
  | S f => if (den <=? num * 10 ^ j)%Z then j
           else below_one f num den (j + 1)
  end.

Definition point (num den : Z) : Z :=
  if (den <=? num)%Z
  then Z.of_nat (Decimal.nb_digits (N.to_uint (Z.to_N (num / den))))
  else 1 - below_one 400 num den 1.

(** The [k]-digit decimals next to [num / den]: the one that rounds back
    to [x], the nearer when both do, the even one on a tie. *)
Definition candidate (x : t) (num den n k : Z) : option (Z * Z) :=
  let j := (k - n)%Z in
  let a := (if 0 <=? j then num * 10 ^ j else num)%Z in
  let b := (if 0 <=? j then den else den * 10 ^ (- j))%Z in
  let lo := (a / b)%Z in
  let r := (a mod b)%Z in
  let hi := (lo + 1)%Z in
  let ok_lo := eqb (of_decimal false (Z.to_N lo) (n - k)) x in
  let ok_hi := eqb (of_decimal false (Z.to_N hi) (n - k)) x in
  let lo_nearer := match (2 * r ?= b)%Z with
                   | Lt => true
                   | Gt => false
                   | Eq => Z.even lo
                   end in
  if ok_lo && (negb ok_hi || lo_nearer) then Some (lo, n)
  else if ok_hi then
    (if (hi =? 10 ^ k)%Z then Some (1, n + 1) else Some (hi, n))%Z
  else None.

Fixpoint shortest (fuel : nat) (x : t) (num den n k : Z) : Z * Z :=
  match fuel with
  | O => (0, n)%Z
  | S f => match candidate x num den n k with
           | Some sn => sn
           | None => shortest f x num den n (k + 1)
           end
  end.

(** The digits [ds] with the decimal point after the first [n]. *)
Definition render (ds : jsstring) (n : Z) : jsstring :=
  let k := Z.of_nat (List.length ds) in
  if ((k <=? n) && (n <=? 21))%Z then ds ++ repeat 48%N (Z.to_nat (n - k))
  else if ((0 <? n) && (n <=? 21))%Z then
    firstn (Z.to_nat n) ds ++ 46%N :: skipn (Z.to_nat n) ds
  else if ((-6 <? n) && (n <=? 0))%Z then
    48%N :: 46%N :: repeat 48%N (Z.to_nat (- n)) ++ ds
  else
    let e := (n - 1)%Z in
    let es := (if (e <? 0)%Z then 45%N else 43%N)
              :: JS.toString (Z.to_N (Z.abs e)) in
    match ds with
    | [] => []
    | [d] => d :: 101%N :: es
    | d :: rest => d :: 46%N :: rest ++ 101%N :: es
    end.

(** [Number::toString(x)], radix 10. *)
Definition toString (x : t) : jsstring :=
  match x with
  | S754_nan => JS.lit "NaN"
  | S754_zero _ => JS.lit "0"
  | S754_infinity neg =>
      (if neg then [45%N] else []) ++ JS.lit "Infinity"
  | S754_finite neg m e =>
      let num := (if 0 <=? e then Zpos m * 2 ^ e else Zpos m)%Z in
      let den := (if 0 <=? e then 1 else 2 ^ (- e))%Z in
      let (s, n) := shortest 17 (S754_finite false m e) num den
                             (point num den) 1 in
      (if neg then [45%N] else []) ++ render (JS.toString (Z.to_N s)) n
  end.

End Number.

(** ** [JSON.parse] *)

Module JSON.

(** The values [JSON.parse] builds.  The members of an object are kept in
    the order of the text; a later member of the same name overrides an
    earlier one when the property is read. *)
Inductive value :=
| Null
| Bool (b : bool)
| Num (x : Number.t)
| Str (s : jsstring)
| Arr (elements : list value)
| Obj (members : list (jsstring * value)).

(** Result of a parsing function: a value and the rest of the text, a
    [SyntaxError], or no result because the recursion bound was reached. *)
Inductive parsed (A : Type) :=
| Ok (a : A) (rest : jsstring)
| SyntaxError
| Fuel.
Arguments SyntaxError {A}.
Arguments Fuel {A}.

Definition ws (c : N) : bool :=
  ((c =? 32) || (c =? 9) || (c =? 10) || (c =? 13))%N.

Fixpoint skip_ws (s : jsstring) : jsstring :=
  match s with
  | c :: t => if ws c then skip_ws t else s
  | [] => []
  end.

Definition digit (c : N) : bool := ((48 <=? c) && (c <=? 57))%N.

Definition hex (c : N) : option N :=
  (if digit c then Some (c - 48)
   else if (97 <=? c) && (c <=? 102) then Some (c - 87)
   else if (65 <=? c) && (c <=? 70) then Some (c - 55)
   else None)%N.

Definition hex4 (a b c d : N) : option N :=
  match hex a, hex b, hex c, hex d with
  | Some x, Some y, Some z, Some w => Some (((x * 16 + y) * 16 + z) * 16 + w)%N
  | _, _, _, _ => None
  end.

(** The single-character escapes of a string. *)
Definition escape (e : N) : option N :=
  (if e =? 34 then Some 34 else if e =? 92 then Some 92
   else if e =? 47 then Some 47 else if e =? 98 then Some 8
   else if e =? 102 then Some 12 else if e =? 110 then Some 10
   else if e =? 114 then Some 13 else if e =? 116 then Some 9
   else None)%N.

(** The characters of a string after its opening quote, up to the closing
    one; [acc] holds the code units read so far, last first. *)
Fixpoint string_body (s acc : jsstring) : option (jsstring * jsstring) :=
  match s with
  | [] => None
  | c :: r =>
      if (c =? 34)%N then Some (rev acc, r)
      else if (c =? 92)%N then
        match r with
        | [] => None
        | e :: r' =>
            if (e =? 117)%N then
              match r' with
              | h1 :: h2 :: h3 :: h4 :: r'' =>
                  match hex4 h1 h2 h3 h4 with
                  | Some u => string_body r'' (u :: acc)
                  | None => None
                  end
              | _ => None
              end
            else match escape e with
                 | Some u => string_body r' (u :: acc)
                 | None => None
                 end
        end
      else if (c <? 32)%N then None
      else string_body r (c :: acc)
  end.

(** A run of decimal digits: the number they extend [acc] to, how many
    there are, and the rest. *)
Fixpoint digits (s : jsstring) (acc : N) (count : Z) : N * Z * jsstring :=
  match s with
  | c :: r => if digit c then digits r (acc * 10 + (c - 48))%N (count + 1)%Z
              else (acc, count, s)
  | [] => (acc, count, s)
  end.

(** The optional exponent part: its value and the rest. *)
Definition exponent (s : jsstring) : option (Z * jsstring) :=
  match s with
  | c :: r =>
      if ((c =? 101) || (c =? 69))%N then
        let '(neg, r1) :=
          match r with
          | sg :: r' => if (sg =? 45)%N then (true, r')
                        else if (sg =? 43)%N then (false, r')
                        else (false, r)
          | [] => (false, r)
          end in
        match digits r1 0 0 with
        | (_, 0%Z, _) => None
        | (e, _, r2) => Some (if neg then (- Z.of_N e)%Z else Z.of_N e, r2)
        end
      else Some (0%Z, s)
  | [] => Some (0%Z, s)
  end.

(** The optional fraction part after the integer [m]: the digits appended
    to [m], their count, and the rest. *)
Definition fraction (m : N) (s : jsstring) : option (N * Z * jsstring) :=
  match s with
  | c :: r =>
      if (c =? 46)%N then
        match digits r m 0 with
        | (_, 0%Z, _) => None
        | res => Some res
        end
      else Some (m, 0%Z, s)
  | [] => Some (m, 0%Z, s)
  end.

(** The integer part of a number literal: a zero, or digits that do not
    start with a zero. *)
Definition integer (s : jsstring) : option (N * jsstring) :=
  match s with
  | [] => None
  | d :: r =>
      if (d =? 48)%N then Some (0%N, r)
      else if digit d then let '(m, _, r') := digits s 0 0 in Some (m, r')
      else None
  end.

(** A number literal after its sign. *)
Definition unsigned (neg : bool) (s : jsstring) : parsed value :=
  match integer s with
  | None => SyntaxError
  | Some (m, r1) =>
      match fraction m r1 with
      | None => SyntaxError
      | Some (m', count, r2) =>
          match exponent r2 with
          | None => SyntaxError
          | Some (e, r3) => Ok (Num (Number.of_decimal neg m' (e - count))) r3
          end
      end
  end.

(** A number literal. *)
Definition number (s : jsstring) : parsed value :=
  match s with
  | c :: r => if (c =? 45)%N then unsigned true r else unsigned false s
  | [] => SyntaxError
  end.

(** One of the words [true], [false], [null]. *)
Fixpoint word (w s : jsstring) : option jsstring :=
  match w, s with
  | [], _ => Some s
  | x :: w', c :: s' => if (x =? c)%N then word w' s' else None
  | _ :: _, [] => None
  end.

Definition keyword (w : string) (v : value) (s : jsstring) : parsed value :=
  match word (JS.lit w) s with
  | Some r => Ok v r
  | None => SyntaxError
  end.

(** A value, the members of an object after its first brace, and the
    elements of an array after its first bracket. *)
Fixpoint value_ (fuel : nat) (s : jsstring) {struct fuel} : parsed value :=
  match fuel with
  | O => Fuel
  | S f =>
      match skip_ws s with
      | [] => SyntaxError
      | c :: r =>
          if (c =? 123)%N then
            match skip_ws r with
            | [] => SyntaxError
            | c' :: r' => if (c' =? 125)%N then Ok (Obj []) r'
                          else members f (c' :: r') []
            end
          else if (c =? 91)%N then
            match skip_ws r with
            | [] => SyntaxError
            | c' :: r' => if (c' =? 93)%N then Ok (Arr []) r'
                          else elements f (c' :: r') []
            end
          else if (c =? 34)%N then
            match string_body r [] with
            | Some (str, r') => Ok (Str str) r'
            | None => SyntaxError
            end
          else if (c =? 116)%N then keyword "true" (Bool true) (c :: r)
          else if (c =? 102)%N then keyword "false" (Bool false) (c :: r)
          else if (c =? 110)%N then keyword "null" Null (c :: r)
          else number (c :: r)
      end
  end
with members (fuel : nat) (s : jsstring) (acc : list (jsstring * value))
       {struct fuel} : parsed value :=
  match fuel with
  | O => Fuel
  | S f =>
      match skip_ws s with
      | [] => SyntaxError
      | q :: r =>
          if negb (q =? 34)%N then SyntaxError
          else match string_body r [] with
               | None => SyntaxError
               | Some (k, r1) =>
                   match skip_ws r1 with
                   | [] => SyntaxError
                   | colon :: r2 =>
                       if negb (colon =? 58)%N then SyntaxError
                       else match value_ f r2 with
                            | Ok v r3 =>
                                match skip_ws r3 with
                                | [] => SyntaxError
                                | sep :: r4 =>
                                    if (sep =? 44)%N
                                    then members f r4 (acc ++ [(k, v)])
                                    else if (sep =? 125)%N
                                    then Ok (Obj (acc ++ [(k, v)])) r4
                                    else SyntaxError
                                end
                            | SyntaxError => SyntaxError
                            | Fuel => Fuel
                            end
                   end
               end
      end
  end
with elements (fuel : nat) (s : jsstring) (acc : list value)
       {struct fuel} : parsed value :=
  match fuel with
  | O => Fuel
  | S f =>
      match value_ f s with
      | Ok v r1 =>
          match skip_ws r1 with
          | [] => SyntaxError
          | sep :: r2 =>
              if (sep =? 44)%N then elements f r2 (acc ++ [v])
              else if (sep =? 93)%N then Ok (Arr (acc ++ [v])) r2
              else SyntaxError
          end
      | SyntaxError => SyntaxError
      | Fuel => Fuel
      end
  end.

(** [JSON.parse(text)]: [None] when it throws a [SyntaxError].  The bound
    of twice the length of the text is never reached ([parse_bound]). *)
Definition parse (text : jsstring) : option value :=
  match value_ (S (2 * List.length text)) text with
  | Ok v rest => match skip_ws rest with
                 | [] => Some v
                 | _ :: _ => None
                 end
  | SyntaxError | Fuel => None
  end.

(** Completion of an expression that may throw a [TypeError]. *)
Inductive completion (A : Type) :=
| Normal (a : A)
| Throw.
Arguments Throw {A}.

(** The own property [k] of an object with the members [ms]. *)
Fixpoint lookup (k : jsstring) (ms : list (jsstring * value)) : option value :=
  match ms with
  | [] => None
  | (k', v) :: rest =>
      match lookup k rest with
      | Some v' => Some v'
      | None => if JS.eqb k k' then Some v else None
      end
  end.

(** [data.response]: a [TypeError] on [null], [undefined] ([None]) on an
    object without the member and on any other parsed value. *)
Definition response (data : value) : completion (option value) :=
  match data with
  | Null => Throw
  | Obj ms => Normal (lookup (JS.lit "response") ms)
  | Bool _ | Num _ | Str _ | Arr _ => Normal None
  end.

(** [ToBoolean], as [if (data.response)] applies it. *)
Definition ToBoolean (v : option value) : bool :=
  match v with
  | None | Some Null => false
  | Some (Bool b) => b
  | Some (Num x) => Number.truthy x
  | Some (Str s) => JS.truthy s
  | Some (Arr _) | Some (Obj _) => true
  end.

(** The text that [fullResponse += v] appends.  An array is joined with
    commas, [null] elements giving the empty string; an object prints as
    [[object Object]], unless a member named [toString] hides the method
    and the conversion throws. *)
Fixpoint ToString (v : value) : completion jsstring :=
  match v with
  | Null => Normal (JS.lit "null")
  | Bool b => Normal (JS.lit (if b then "true" else "false"))
  | Num x => Normal (Number.toString x)
  | Str s => Normal s
  | Obj ms =>
      if existsb (fun m => JS.eqb (JS.lit "toString") (fst m)) ms
      then Throw else Normal (JS.lit "[object Object]")
  | Arr es =>
      (fix join (l : list value) : completion jsstring :=
         match l with
         | [] => Normal []
         | e :: l' =>
             match match e with Null => Normal [] | _ => ToString e end,
                   join l' with
             | Normal a, Normal b =>
                 Normal (a ++ match l' with [] => b | _ :: _ => 44%N :: b end)
             | _, _ => Throw
             end
         end) es
  end.

End JSON.

(** ** Conversation state *)

Inductive Role := user | assistant.

(** [interface Message]. *)
Record Message := {
  id : jsstring;
  role : Role;
  content : jsstring }.

(** The three [useState] cells of [ChatInterface].  The handler is taken
    to read the current cells: React renders again, and so rebinds the
    handler to the new values, before it delivers the next event. *)
Record State := {
  messages : list Message;
  input : jsstring;
  isLoading : bool }.

(** ** What the handler receives from outside *)

(** A thrown value: [error instanceof Error] with its [message], or not. *)
Inductive Thrown :=
| ErrorObject (message : jsstring)
| OtherValue.

(** How [reader.read()] ends the stream: [{ done: true }], or a rejection. *)
Inductive StreamEnd :=
| Done
| ReadRejects (e : Thrown).

(** The chunks [reader.read()] resolves to, in order, and the end. *)
Record Body := {
  chunks : list TextDecoder.chunk;
  ending : StreamEnd }.

(** [await fetch(...)]: a rejection, or a response with [ok],
    [statusText] and [body] ([None] for a [null] body). *)
Inductive Fetch :=
| FetchRejects (e : Thrown)
| Response (ok : bool) (statusText : jsstring) (body : option Body).

(** One call of the handler: the values of its [Date.now()] reads (for the
    user message, for the placeholder, and in the [catch] block) and the
    outcome of [fetch].  Time values are integers below [2^53], printed by
    [toString] as their decimal digits. *)
Record Env := {
  now_user : N;
  now_assistant : N;
  fetch : Fetch;
  now_error : N }.

(** How a call ended: the guard returned, the [try] block completed, or
    the [catch] block ran. *)
Inductive Outcome := Rejected | Completed | Errored.

(** Result of a call: the state when it returns, how it ended, the state
    at each [await] in order (the states in which another event can be
    delivered while the call is in flight), and the messages it
    appended. *)
Record Run := {
  final : State;
  outcome : Outcome;
  awaits : list State;
  created : list Message }.

(** ** The part both components share *)

(** [!input.trim() || isLoading], the guard of the first line. *)
Definition guard (st : State) : bool :=
  negb (JS.truthy (JS.trim (input st))) || isLoading st.

(** [!line.trim()], the test for a blank line. *)
Definition blank (line : jsstring) : bool := negb (JS.truthy (JS.trim line)).

(** The text one line adds to [fullResponse] in the inner [try] block,
    [None] when the line has no effect: [JSON.parse] or a conversion threw
    and the [catch] logged it, or [data.response] is falsy. *)
Definition delta (line : jsstring) : option jsstring :=
  match JSON.parse line with
  | None => None
  | Some data =>
      match JSON.response data with
      | JSON.Throw => None
      | JSON.Normal r =>
          if JSON.ToBoolean r then
            match r with
            | Some v => match JSON.ToString v with
                        | JSON.Normal t => Some t
                        | JSON.Throw => None
                        end
            | None => None
            end
          else None
      end
  end.

(** The updater of the streaming [setMessages]:
    [prev.map(msg => msg.id === assistantMessageId
                     ? { ...msg, content: fullResponse } : msg)]. *)
Definition setContent (assistantMessageId fullResponse : jsstring)
    (prev : list Message) : list Message :=
  List.map (fun msg =>
              if JS.eqb (id msg) assistantMessageId
              then {| id := id msg; role := role msg;
                      content := fullResponse |}
              else msg) prev.

(** What the line loop changes: [fullResponse] and the conversation. *)
Record Reply := {
  fullResponse : jsstring;
  shown : list Message }.

(** The inner [try] block for one line. *)
Definition onLine (assistantMessageId : jsstring) (r : Reply)
    (line : jsstring) : Reply :=
  match delta line with
  | None => r
  | Some t =>
      let full := fullResponse r ++ t in
      {| fullResponse := full;
         shown := setContent assistantMessageId full (shown r) |}
  end.

(** The values of a loop variable after each element of [xs], in order. *)
Fixpoint scan {A B : Type} (f : A -> B -> A) (a : A) (xs : list B) : list A :=
  match xs with
  | [] => []
  | x :: xs' => f a x :: scan f (f a x) xs'
  end.

(** The user message of lines 39-43 (287-291). *)
Definition userMessage (env : Env) (st : State) : Message :=
  {| id := JS.toString (now_user env); role := user; content := input st |}.

(** [(Date.now() + 1).toString()]. *)
Definition assistantMessageId (env : Env) : jsstring :=
  JS.toString (now_assistant env + 1).

(** The placeholder of lines 51-55 (300-304). *)
Definition assistantMessage (env : Env) : Message :=
  {| id := assistantMessageId env; role := assistant; content := [] |}.

(** The state at an [await] of the [try] block, where the conversation is
    [msgs]: the input has been emptied and [setIsLoading(true)] has run,
    the [finally] block has not. *)
Definition inFlight (msgs : list Message) : State :=
  {| messages := msgs; input := []; isLoading := true |}.

(** The conversation after the two appending [setMessages] calls. *)
Definition opened (env : Env) (st : State) : list Message :=
  (messages st ++ [userMessage env st]) ++ [assistantMessage env].

(** [error instanceof Error ? error.message : "Failed to get response"]. *)
Definition describe (e : Thrown) : jsstring :=
  match e with
  | ErrorObject m => m
  | OtherValue => JS.lit "Failed to get response"
  end.

(** The [try] block from [fetch] on, for a read loop with variables of
    type [L]: [start] gives them their initial values around the
    conversation, [onChunk] is one iteration, [reply] reads the
    conversation back.  The result is the conversation at each [await],
    the conversation when the block ends, and the value thrown if it ends
    by a throw. *)
Definition attempt {L : Type} (start : list Message -> L)
    (onChunk : L -> TextDecoder.chunk -> L) (reply : L -> Reply)
    (f : Fetch) (prev : list Message)
    : list (list Message) * list Message * option Thrown :=
  match f with
  | FetchRejects e => ([prev], prev, Some e)
  | Response false statusText _ =>
      ([prev], prev, Some (ErrorObject (JS.lit "API error: " ++ statusText)))
  | Response true _ None => ([prev], prev, None)
  | Response true _ (Some body) =>
      let seen := List.map (fun l => shown (reply l))
                           (scan onChunk (start prev) (chunks body)) in
      (prev :: prev :: seen, last seen prev,
       match ending body with
       | Done => None
       | ReadRejects e => Some e
       end)
  end.

(** ** The "Dev Ninja AI" component *)

Module DevNinja.

(** The variables of the read loop. *)
Record Loop := {
  decoder : TextDecoder.t;
  buffer : jsstring;
  reply : Reply }.

(** [for (const line of lines)]: blank lines are skipped. *)
Definition forLines (assistantMessageId : jsstring) (r : Reply)
    (lines : list jsstring) : Reply :=
  fold_left (fun acc line =>
               if blank line then acc
               else onLine assistantMessageId acc line) lines r.

(** One iteration of [while (true)] after [if (done) break]: the chunk is
    decoded and appended to [buffer], the text is split at line feeds, the
    last piece goes back to [buffer] ([lines.pop()]), the others are
    handled. *)
Definition onChunk (assistantMessageId : jsstring) (l : Loop)
    (value : TextDecoder.chunk) : Loop :=
  let (d, chunk) := TextDecoder.decode (decoder l) value in
  let buffer := buffer l ++ chunk in
  let lines := JS.split_LF buffer in
  {| decoder := d;
     buffer := last lines [];
     reply := forLines assistantMessageId (reply l) (removelast lines) |}.

(** [new TextDecoder()], [let fullResponse], [let buffer], each empty. *)
Definition start (prev : list Message) : Loop :=
  {| decoder := TextDecoder.create; buffer := [];
     reply := {| fullResponse := []; shown := prev |} |}.

(** The message of the [catch] block. *)
Definition errorMessage (now : N) (e : Thrown) : Message :=
  {| id := JS.toString now; role := assistant;
     content := [226; 338; 32]%N ++ JS.lit "Error: " ++ describe e |}.

(** [handleSendMessage], lines 36-126: the guard; the user message and the
    placeholder are appended, the input is emptied, [isLoading] is set; the
    [try] block; on a throw the [catch] block puts the error message in the
    place of the last message; [finally] resets [isLoading]. *)
Definition handleSendMessage (env : Env) (st : State) : Run :=
  if guard st then
    {| final := st; outcome := Rejected; awaits := []; created := [] |}
  else
    match attempt start (onChunk (assistantMessageId env)) reply
                  (fetch env) (opened env st) with
    | (seen, msgs, None) =>
        {| final := {| messages := msgs; input := []; isLoading := false |};
           outcome := Completed;
           awaits := List.map inFlight seen;
           created := [userMessage env st; assistantMessage env] |}
    | (seen, msgs, Some error) =>
        let err := errorMessage (now_error env) error in
        {| final := {| messages := removelast msgs ++ [err];
                       input := []; isLoading := false |};
           outcome := Errored;
           awaits := List.map inFlight seen;
           created := [userMessage env st; assistantMessage env; err] |}
    end.

End DevNinja.

(** ** The "Ollama Chat" component *)

Module OllamaChat.

(** The variables of the read loop. *)
Record Loop := {
  decoder : TextDecoder.t;
  reply : Reply }.

(** One iteration of [while (true)] after [if (done) break]: the chunk is
    decoded, split at line feeds, blank pieces are filtered out and every
    other piece is handled; nothing is kept for the next chunk. *)
Definition onChunk (assistantMessageId : jsstring) (l : Loop)
    (value : TextDecoder.chunk) : Loop :=
  let (d, chunk) := TextDecoder.decode (decoder l) value in
  let lines := filter (fun line => JS.truthy (JS.trim line))
                      (JS.split_LF chunk) in
  {| decoder := d;
     reply := fold_left (onLine assistantMessageId) lines (reply l) |}.

(** [new TextDecoder()] and [let fullResponse], empty. *)
Definition start (prev : list Message) : Loop :=
  {| decoder := TextDecoder.create;
     reply := {| fullResponse := []; shown := prev |} |}.

(** The message of the [catch] block. *)
Definition errorMessage (now : N) (e : Thrown) : Message :=
  {| id := JS.toString (now + 2); role := assistant;
     content := JS.lit "Error: " ++ describe e |}.

(** [handleSendMessage], lines 282-367 ([e.preventDefault()] touches only
    the event): the guard; the user message and the placeholder are
    appended, the input is emptied, [isLoading] is set; the [try] block; on
    a throw the [catch] block appends the error message; [finally] resets
    [isLoading]. *)
Definition handleSendMessage (env : Env) (st : State) : Run :=
  if guard st then
    {| final := st; outcome := Rejected; awaits := []; created := [] |}
  else
    match attempt start (onChunk (assistantMessageId env)) reply
                  (fetch env) (opened env st) with
    | (seen, msgs, None) =>
        {| final := {| messages := msgs; input := []; isLoading := false |};
           outcome := Completed;
           awaits := List.map inFlight seen;
           created := [userMessage env st; assistantMessage env] |}
    | (seen, msgs, Some error) =>
        let err := errorMessage (now_error env) error in
        {| final := {| messages := msgs ++ [err];
                       input := []; isLoading := false |};
           outcome := Errored;
           awaits := List.map inFlight seen;
           created := [userMessage env st; assistantMessage env; err] |}
    end.

End OllamaChat.

(** ** Streams, sessions and what the statements below read off a run *)

(** A text of this file with every apostrophe read as a double quote: the
    JSON texts of the examples are written with apostrophes. *)
Fixpoint quoted (s : string) : string :=
  match s with
  | EmptyString => EmptyString
  | String c r =>
      String (if Ascii.eqb c "'"%char then ascii_of_nat 34 else c) (quoted r)
  end.

(** A text of this file as the bytes of a chunk (ASCII). *)
Definition bytes (s : string) : TextDecoder.chunk := list_byte_of_string s.

(** The line feed inside a text of this file. *)
Definition LF : string := String (ascii_of_nat 10) EmptyString.

(** A response with status 200 whose body delivers [cs] and then ends
    as [e] says. *)
Definition streams (cs : list TextDecoder.chunk) (e : StreamEnd) : Fetch :=
  Response true (JS.lit "OK") (Some {| chunks := cs; ending := e |}).

(** The text a fresh decoder makes of all the bytes of [cs]. *)
Definition decoded (cs : list TextDecoder.chunk) : jsstring :=
  snd (TextDecoder.decode TextDecoder.create (concat cs)).

(** The text of each chunk of [cs], for a decoder in state [d]. *)
Fixpoint texts (d : TextDecoder.t) (cs : list TextDecoder.chunk)
    : list jsstring :=
  match cs with
  | [] => []
  | c :: cs' => let (d', t) := TextDecoder.decode d c in t :: texts d' cs'
  end.

(** The lines of a list, each followed by a line feed. *)
Definition unlines (ls : list jsstring) : jsstring :=
  concat (List.map (fun l => l ++ [JS.LF]) ls).

(** What the lines [ls] add to [fullResponse] in the inner [try] block,
    in order. *)
Definition deltas (ls : list jsstring) : jsstring :=
  concat (List.map (fun l => match delta l with
                             | Some t => t
                             | None => []
                             end) ls).

(** The lines that have reached the inner [try] block of the
    "Dev Ninja AI" loop when the stream [cs] has ended: the pieces of the
    whole text that a line feed ends and that are not blank.  The piece
    after the last line feed stays in [buffer]. *)
Definition handledByDevNinja (cs : list TextDecoder.chunk) : list jsstring :=
  filter (fun line => JS.truthy (JS.trim line))
         (removelast (JS.split_LF (decoded cs))).

(** The lines that have reached the inner [try] block of the
    "Ollama Chat" loop when the stream [cs] has ended: the pieces of each
    chunk that are not blank. *)
Definition handledByOllamaChat (cs : list TextDecoder.chunk)
    : list jsstring :=
  concat (List.map (fun t => filter (fun line => JS.truthy (JS.trim line))
                                    (JS.split_LF t))
                   (texts TextDecoder.create cs)).

(** What the streaming updater does to one message. *)
Definition updated (aid full : jsstring) (m m' : Message) : Prop :=
  id m' = id m /\ role m' = role m
  /\ content m' = if JS.eqb (id m) aid then full else content m.

(** The same call with another outcome of [fetch]. *)
Definition withFetch (env : Env) (f : Fetch) : Env :=
  {| now_user := now_user env; now_assistant := now_assistant env;
     fetch := f; now_error := now_error env |}.

(** A text ends where a line starts: it is empty or ends in a line feed. *)
Definition endsLine (t : jsstring) : bool :=
  match rev t with
  | [] => true
  | c :: _ => (c =? JS.LF)%N
  end.

(** The placeholder is the last message of the conversation and shows
    [fullResponse]. *)
Definition showsReply (aid : jsstring) (r : Reply) : Prop :=
  exists before,
    shown r = before ++ [{| id := aid; role := assistant;
                            content := fullResponse r |}].

(** What a streaming update may do to a message: identifier and role
    stay, and the content stays unless the identifier is [aid]. *)
Definition framed (aid : jsstring) (m m' : Message) : Prop :=
  id m' = id m /\ role m' = role m /\ (id m <> aid -> content m' = content m).

(** The content of the last message of a conversation. *)
Definition lastContent (ms : list Message) : jsstring :=
  content (last ms {| id := []; role := assistant; content := [] |}).

(** One exchange of a session: the text typed into the input field
    ([setInput(e.target.value)]) and what the handler then receives. *)
Record Exchange := {
  typed : jsstring;
  env : Env }.

(** Submitting the exchanges one after the other, each when the previous
    call has returned: the last state and the messages appended, in the
    order of their creation. *)
Fixpoint session (handle : Env -> State -> Run) (st : State)
    (xs : list Exchange) : State * list Message :=
  match xs with
  | [] => (st, [])
  | x :: xs' =>
      let r := handle (env x) {| messages := messages st; input := typed x;
                                 isLoading := isLoading st |} in
      let (st', log) := session handle (final r) xs' in
      (st', created r ++ log)
  end.

(** The value the [try] block throws for an outcome of [fetch], if any. *)
Definition thrown (f : Fetch) : option Thrown :=
  match f with
  | FetchRejects e => Some e
  | Response false statusText _ =>
      Some (ErrorObject (JS.lit "API error: " ++ statusText))
  | Response true _ None => None
  | Response true _ (Some body) =>
      match ending body with
      | Done => None
      | ReadRejects e => Some e
      end
  end.

(** A call with the message of its [catch] block left out of the log of
    appended messages: the log keeps the user message and the placeholder,
    the first two messages a call appends. *)
Definition withoutCatch (handle : Env -> State -> Run) (e : Env)
    (st : State) : Run :=
  let r := handle e st in
  {| final := final r; outcome := outcome r; awaits := awaits r;
     created := firstn 2 (created r) |}.

(** The clock readings of a session are spaced for the identifiers made
    of them, from [floor] on.  A submission of a blank text reads no clock.
    In every other call the clock has not run backwards between the user
    message and the placeholder, and the call starts at a reading above the
    last identifier made before it, which is the [Date.now() + 1] of the
    placeholder of the call before.  With [catch] set the identifier
    [Date.now() + 2] of a [catch] block counts as well: the clock has not
    run backwards between the placeholder and the [catch] block, and the
    next call starts above that identifier. *)
Fixpoint spaced (catch : bool) (floor : N) (xs : list Exchange) : Prop :=
  match xs with
  | [] => True
  | x :: xs' =>
      if blank (typed x) then spaced catch floor xs'
      else
        (floor <= now_user (env x))%N
        /\ (now_user (env x) <= now_assistant (env x))%N
        /\ match thrown (fetch (env x)) with
           | Some _ =>
               if catch
               then (now_assistant (env x) <= now_error (env x))%N
                    /\ spaced catch (now_error (env x) + 3) xs'
               else spaced catch (now_assistant (env x) + 2) xs'
           | None => spaced catch (now_assistant (env x) + 2) xs'
           end
  end.

(** ** The rest of the components: key presses, the view, the bubbles *)

(** The lines that reach the inner [try] block for an outcome of [fetch]:
    those of the chunks when the response is read, none when [fetch]
    rejects, the status is not [ok] or the body is [null]. *)
Definition handledOf (handled : list TextDecoder.chunk -> list jsstring)
    (f : Fetch) : list jsstring :=
  match f with
  | Response true _ (Some body) => handled (chunks body)
  | FetchRejects _ | Response false _ _ | Response true _ None => []
  end.

(** [b] starts with [a]. *)
Definition startsWith (a b : jsstring) : Prop := exists t, b = a ++ t.

(** Turns of a user and of the assistant, one after the other. *)
Fixpoint alternating (rs : list Role) : bool :=
  match rs with
  | [] => true
  | user :: assistant :: rs' => alternating rs'
  | _ => false
  end.

(** What a bubble shows: the words [Thinking...], the content in a
    paragraph, or the content handed to [ReactMarkdown]. *)
Inductive Shown :=
| Thinking
| Paragraph (text : jsstring)
| Markdown (text : jsstring).

(** A [ChatMessage] element: on which side it sits and what it shows. *)
Record Bubble := {
  isUser : bool;
  body : Shown }.

(** What [ChatInterface] returns, as far as it depends on the state:
    whether the start screen replaces the list, the bubbles with their
    [key], the loading indicator, the input field and the send button. *)
Record View := {
  startScreen : bool;
  bubbles : list (jsstring * Bubble);
  loader : bool;
  inputValue : jsstring;
  inputDisabled : bool;
  sendDisabled : bool }.

(** [message.role === "user"]. *)
Definition isUserRole (r : Role) : bool :=
  match r with user => true | assistant => false end.

(** [e.key] and [e.shiftKey] of a [React.KeyboardEvent]. *)
Record KeyboardEvent := {
  key : jsstring;
  shiftKey : bool }.

Module DevNinjaView.

(** [ChatMessage] of the "Dev Ninja AI" component: an empty content shows
    [Thinking...]; otherwise a user message is a paragraph and an
    assistant message is rendered as Markdown. *)
Definition ChatMessage (message : Message) : Bubble :=
  let isUser := isUserRole (role message) in
  {| isUser := isUser;
     body := if JS.truthy (content message)
             then (if isUser then Paragraph (content message)
                   else Markdown (content message))
             else Thinking |}.

(** The [return] of [ChatInterface], lines 135-250: the start screen when
    there is no message, else the bubbles, followed by the bouncing dots
    while [isLoading]. *)
Definition render (st : State) : View :=
  let empty := (List.length (messages st) =? 0)%nat in
  {| startScreen := empty;
     bubbles := if empty then []
                else List.map (fun m => (id m, ChatMessage m)) (messages st);
     loader := if empty then false else isLoading st;
     inputValue := input st;
     inputDisabled := isLoading st;
     sendDisabled := isLoading st || negb (JS.truthy (JS.trim (input st))) |}.

(** [handleKeyPress], lines 128-133: whether [e.preventDefault()] ran, and
    the call of [handleSendMessage] if one was made. *)
Definition handleKeyPress (e : KeyboardEvent) (env : Env) (st : State)
    : bool * option Run :=
  if JS.eqb (key e) (JS.lit "Enter") && negb (shiftKey e)
  then (true, Some (DevNinja.handleSendMessage env st))
  else (false, None).

End DevNinjaView.

Module OllamaChatView.

(** [ChatMessage] of the "Ollama Chat" component: the content in a
    paragraph, whatever it is. *)
Definition ChatMessage (message : Message) : Bubble :=
  {| isUser := isUserRole (role message);
     body := Paragraph (content message) |}.

(** The [return] of [ChatInterface], lines 369-413: the start text when
    there is no message, else the bubbles; the spinner while [isLoading],
    in both cases. *)
Definition render (st : State) : View :=
  let empty := (List.length (messages st) =? 0)%nat in
  {| startScreen := empty;
     bubbles := if empty then []
                else List.map (fun m => (id m, ChatMessage m)) (messages st);
     loader := isLoading st;
     inputValue := input st;
     inputDisabled := isLoading st;
     sendDisabled := isLoading st || negb (JS.truthy (JS.trim (input st))) |}.

End OllamaChatView.

(** ** Strings and the decoder: basic facts *)

Lemma eqb_eq (a b : jsstring) : JS.eqb a b = true <-> a = b.
Proof.
  revert b; induction a as [|x a IH]; intros [|y b]; simpl;
    try (split; [discriminate | discriminate]); try tauto.
  rewrite andb_true_iff, N.eqb_eq, IH.
  split; [intros [-> ->]; reflexivity | intros H; inversion H; auto].
Qed.

Lemma eqb_refl (a : jsstring) : JS.eqb a a = true.
Proof. apply eqb_eq; reflexivity. Qed.

Lemma trimStart_white (s : jsstring) :
  forallb JS.isWhiteSpace (JS.trimStart s) = forallb JS.isWhiteSpace s.
Proof.
  induction s as [|c s IH]; simpl; [reflexivity|].
  destruct (JS.isWhiteSpace c) eqn:Hc; simpl; [exact IH | now rewrite Hc].
Qed.

Lemma trimStart_nil (s : jsstring) :
  JS.trimStart s = [] <-> forallb JS.isWhiteSpace s = true.
Proof.
  induction s as [|c s IH]; simpl; [tauto|].
  destruct (JS.isWhiteSpace c); simpl; [exact IH | split; discriminate].
Qed.

Lemma forallb_rev {A : Type} (f : A -> bool) (l : list A) :
  forallb f (rev l) = forallb f l.
Proof.
  induction l as [|x l IH]; simpl; [reflexivity|].
  rewrite forallb_app, IH; simpl. rewrite andb_true_r. apply andb_comm.
Qed.

(** A string is blank for [trim] exactly when all its code units are
    white space. *)
Lemma blank_iff (s : jsstring) :
  blank s = true <-> forallb JS.isWhiteSpace s = true.
Proof.
  unfold blank, JS.trim, JS.trimEnd.
  rewrite <- trimStart_white, <- (forallb_rev _ (JS.trimStart s)).
  rewrite <- trimStart_nil.
  destruct (JS.trimStart (rev (JS.trimStart s))) as [|c t] eqn:E; simpl.
  - tauto.
  - destruct (rev t ++ [c]) eqn:E'; [destruct (rev t); discriminate|].
    simpl; split; discriminate.
Qed.

Lemma guard_iff (st : State) :
  guard st = true <->
  forallb JS.isWhiteSpace (input st) = true \/ isLoading st = true.
Proof.
  unfold guard. rewrite orb_true_iff. fold (blank (input st)).
  now rewrite blank_iff.
Qed.

Lemma split_LF_cons (s : jsstring) :
  exists l ls, JS.split_LF s = l :: ls.
Proof.
  destruct s as [|c s]; simpl; [now eexists; eexists|].
  destruct (c =? JS.LF)%N; [now eexists; eexists|].
  destruct (JS.split_LF s); now eexists; eexists.
Qed.

(** Splitting a text that grows: the complete lines stay, the last piece
    is continued. *)
Lemma split_LF_app (a c : jsstring) :
  JS.split_LF (a ++ c) =
  removelast (JS.split_LF a) ++ JS.split_LF (last (JS.split_LF a) [] ++ c).
Proof.
  induction a as [|x a IH]; [reflexivity|].
  cbn [app JS.split_LF].
  destruct (split_LF_cons a) as (l & ls & Ea).
  destruct (x =? JS.LF)%N eqn:Hx.
  - rewrite IH, Ea. reflexivity.
  - rewrite IH, Ea. destruct ls as [|l2 ls].
    + cbn [removelast last app JS.split_LF]. rewrite Hx. reflexivity.
    + destruct (split_LF_cons (last (l2 :: ls) [] ++ c)) as (k & ks & Ek).
      cbn [removelast last app]. cbn [removelast last app] in Ek.
      reflexivity.
Qed.

Lemma last_app_cons {A : Type} (l : list A) (x : A) (l' : list A) (d : A) :
  last (l ++ x :: l') d = last (x :: l') d.
Proof.
  induction l as [|y l IH]; [reflexivity|].
  cbn [app]. rewrite <- IH. cbn [last].
  destruct (l ++ x :: l') eqn:E; [destruct l; discriminate | reflexivity].
Qed.

Lemma removelast_split_LF_app (a c : jsstring) :
  removelast (JS.split_LF (a ++ c)) =
  removelast (JS.split_LF a)
  ++ removelast (JS.split_LF (last (JS.split_LF a) [] ++ c)).
Proof.
  rewrite split_LF_app.
  destruct (split_LF_cons (last (JS.split_LF a) [] ++ c)) as (k & ks & ->).
  apply removelast_app. discriminate.
Qed.

Lemma last_split_LF_app (a c : jsstring) :
  last (JS.split_LF (a ++ c)) [] =
  last (JS.split_LF (last (JS.split_LF a) [] ++ c)) [].
Proof.
  rewrite split_LF_app.
  destruct (split_LF_cons (last (JS.split_LF a) [] ++ c)) as (k & ks & ->).
  apply last_app_cons.
Qed.

(** The piece kept in [buffer] holds no line feed, so splitting it again
    gives it back. *)
Lemma split_LF_last (a : jsstring) :
  JS.split_LF (last (JS.split_LF a) []) = [last (JS.split_LF a) []].
Proof.
  induction a as [|x a IH]; [reflexivity|].
  cbn [JS.split_LF].
  destruct (split_LF_cons a) as (l & ls & Ea). rewrite Ea in *.
  destruct (x =? JS.LF)%N eqn:Hx.
  - exact IH.
  - destruct ls as [|l2 ls].
    + cbn [last] in *. cbn [JS.split_LF]. rewrite Hx, IH. reflexivity.
    + exact IH.
Qed.

(** A line without line feed, followed by one, is split off whole. *)
Lemma split_LF_line (l rest : jsstring) :
  ~ In JS.LF l ->
  JS.split_LF (l ++ JS.LF :: rest) = l :: JS.split_LF rest.
Proof.
  induction l as [|x l IH]; intros Hl; [reflexivity|].
  cbn [app JS.split_LF].
  destruct (x =? JS.LF)%N eqn:Hx.
  - apply N.eqb_eq in Hx. exfalso. apply Hl. now left.
  - rewrite IH; [reflexivity|]. intros H. apply Hl. now right.
Qed.

Lemma split_LF_unlines (ls : list jsstring) (rest : jsstring) :
  Forall (fun l => ~ In JS.LF l) ls ->
  JS.split_LF (unlines ls ++ rest) = ls ++ JS.split_LF rest.
Proof.
  induction 1 as [|l ls Hl _ IH]; [reflexivity|].
  unfold unlines in *. cbn [List.map concat].
  rewrite <- !app_assoc. cbn [app].
  rewrite split_LF_line by exact Hl. now rewrite IH.
Qed.

Lemma run_app (u : TextDecoder.utf8) (a b : TextDecoder.chunk) :
  TextDecoder.run u (a ++ b) =
  let (u1, o1) := TextDecoder.run u a in
  let (u2, o2) := TextDecoder.run u1 b in
  (u2, o1 ++ o2).
Proof.
  revert u; induction a as [|x a IH]; intros u; cbn [app TextDecoder.run].
  - now destruct (TextDecoder.run u b).
  - destruct (TextDecoder.handler u (to_N x)) as [u1 o1].
    rewrite IH.
    destruct (TextDecoder.run u1 a) as [u2 o2].
    destruct (TextDecoder.run u2 b) as [u3 o3].
    now rewrite app_assoc.
Qed.

Lemma serialize_app (bom : bool) (x y : list N) :
  TextDecoder.serialize bom (x ++ y) =
  let (b1, t1) := TextDecoder.serialize bom x in
  let (b2, t2) := TextDecoder.serialize b1 y in
  (b2, t1 ++ t2).
Proof.
  revert bom; induction x as [|i x IH]; intros bom;
    cbn [app TextDecoder.serialize].
  - now destruct (TextDecoder.serialize bom y).
  - rewrite IH.
    destruct (TextDecoder.serialize true x) as [b1 t1].
    destruct (TextDecoder.serialize b1 y) as [b2 t2].
    now rewrite app_assoc.
Qed.

(** Decoding in streaming mode does not depend on where the bytes are
    cut: two calls give the state and the text of one call on all bytes. *)
Lemma decode_app (d : TextDecoder.t) (a b : TextDecoder.chunk) :
  TextDecoder.decode d (a ++ b) =
  let (d1, t1) := TextDecoder.decode d a in
  let (d2, t2) := TextDecoder.decode d1 b in
  (d2, t1 ++ t2).
Proof.
  unfold TextDecoder.decode. rewrite run_app.
  destruct (TextDecoder.run (TextDecoder.state d) a) as [u1 o1].
  destruct (TextDecoder.serialize (TextDecoder.BOM_seen d) o1)
    as [b1 t1] eqn:E1.
  cbn [TextDecoder.state TextDecoder.BOM_seen].
  destruct (TextDecoder.run u1 b) as [u2 o2].
  rewrite serialize_app, E1.
  now destruct (TextDecoder.serialize b1 o2).
Qed.

Lemma decode_nil (d : TextDecoder.t) : TextDecoder.decode d [] = (d, []).
Proof. now destruct d. Qed.

(** ** [JSON.parse] never reaches its recursion bound *)

Lemma skip_ws_length (s : jsstring) :
  List.length (JSON.skip_ws s) <= List.length s.
Proof.
  induction s as [|c s IH]; cbn [JSON.skip_ws]; [lia|].
  destruct (JSON.ws c); cbn [List.length] in *; lia.
Qed.

Lemma skip_ws_cons (s : jsstring) (c : N) (r : jsstring) :
  JSON.skip_ws s = c :: r -> List.length r < List.length s.
Proof.
  intros H. pose proof (skip_ws_length s) as L. rewrite H in L.
  cbn [List.length] in L. lia.
Qed.

Lemma string_body_length (n : nat) :
  forall s acc x r,
    List.length s <= n -> JSON.string_body s acc = Some (x, r) ->
    List.length r < List.length s.
Proof.
  induction n as [|n IH]; intros s acc x r Hn H.
  - destruct s; [discriminate | cbn [List.length] in Hn; lia].
  - destruct s as [|c s]; [discriminate|].
    cbn [JSON.string_body List.length] in *.
    destruct (c =? 34)%N; [injection H as _ <-; lia|].
    destruct (c =? 92)%N.
    + destruct s as [|e s]; [discriminate|].
      destruct (e =? 117)%N.
      * destruct s as [|h1 [|h2 [|h3 [|h4 s]]]]; try discriminate.
        destruct (JSON.hex4 h1 h2 h3 h4); [|discriminate].
        apply IH in H; cbn [List.length] in *; lia.
      * destruct (JSON.escape e); [|discriminate].
        apply IH in H; cbn [List.length] in *; lia.
    + destruct (c <? 32)%N; [discriminate|].
      apply IH in H; lia.
Qed.

Lemma digits_length (s : jsstring) :
  forall acc count m count' r,
    JSON.digits s acc count = (m, count', r) ->
    List.length r <= List.length s.
Proof.
  induction s as [|c s IH]; intros acc count m count' r H;
    cbn [JSON.digits] in H.
  - injection H as _ _ <-. lia.
  - destruct (JSON.digit c).
    + apply IH in H. cbn [List.length]. lia.
    + injection H as _ _ <-. lia.
Qed.

Lemma fraction_length (m : N) (s : jsstring) (m' : N) (count : Z)
    (r : jsstring) :
  JSON.fraction m s = Some (m', count, r) -> List.length r <= List.length s.
Proof.
  unfold JSON.fraction. destruct s as [|c s]; [intros [= _ _ <-]; lia|].
  destruct (c =? 46)%N; [|intros [= _ _ <-]; lia].
  destruct (JSON.digits s m 0) as [[m1 c1] r1] eqn:E.
  apply digits_length in E.
  destruct c1; intros [= _ _ <-]; cbn [List.length]; lia.
Qed.

Lemma exponent_length (s : jsstring) (e : Z) (r : jsstring) :
  JSON.exponent s = Some (e, r) -> List.length r <= List.length s.
Proof.
  unfold JSON.exponent. destruct s as [|c s]; [intros [= _ <-]; lia|].
  destruct ((c =? 101) || (c =? 69))%N; [|intros [= _ <-]; lia].
  assert (H : forall neg r1,
             List.length r1 <= List.length s ->
             match JSON.digits r1 0 0 with
             | (_, 0%Z, _) => None
             | (e0, _, r2) =>
                 Some (if neg : bool then (- Z.of_N e0)%Z else Z.of_N e0, r2)
             end = Some (e, r) ->
             List.length r <= List.length (c :: s)).
  { intros neg r1 L. destruct (JSON.digits r1 0 0) as [[m1 c1] r2] eqn:E.
    apply digits_length in E.
    destruct c1; intros [= _ <-]; cbn [List.length]; lia. }
  destruct s as [|sg s']; [apply (H false); cbn [List.length]; lia|].
  destruct (sg =? 45)%N; [apply (H true); cbn [List.length]; lia|].
  destruct (sg =? 43)%N; apply (H false); cbn [List.length]; lia.
Qed.

Lemma integer_length (s : jsstring) (m : N) (r : jsstring) :
  JSON.integer s = Some (m, r) -> List.length r < List.length s.
Proof.
  unfold JSON.integer. destruct s as [|d r0]; [discriminate|].
  destruct (d =? 48)%N; [intros [= _ <-]; cbn [List.length]; lia|].
  destruct (JSON.digit d) eqn:Hd; [|discriminate].
  cbn [JSON.digits]. rewrite Hd.
  destruct (JSON.digits r0 _ _) as [[m1 c1] r'] eqn:E.
  apply digits_length in E. intros [= _ <-]. cbn [List.length]. lia.
Qed.

Lemma unsigned_length (neg : bool) (s : jsstring) (v : JSON.value)
    (r : jsstring) :
  JSON.unsigned neg s = JSON.Ok v r -> List.length r < List.length s.
Proof.
  unfold JSON.unsigned.
  destruct (JSON.integer s) as [[m r1]|] eqn:Ei; [|discriminate].
  apply integer_length in Ei.
  destruct (JSON.fraction m r1) as [[[m' count] r2]|] eqn:Ef; [|discriminate].
  apply fraction_length in Ef.
  destruct (JSON.exponent r2) as [[e r3]|] eqn:Ee; [|discriminate].
  apply exponent_length in Ee. intros [= _ <-]. lia.
Qed.

Lemma unsigned_bound (neg : bool) (s : jsstring) :
  JSON.unsigned neg s <> JSON.Fuel.
Proof.
  unfold JSON.unsigned.
  destruct (JSON.integer s) as [[m r1]|]; [|discriminate].
  destruct (JSON.fraction m r1) as [[[m' count] r2]|]; [|discriminate].
  destruct (JSON.exponent r2) as [[e r3]|]; discriminate.
Qed.

Lemma number_length (s : jsstring) (v : JSON.value) (r : jsstring) :
  JSON.number s = JSON.Ok v r -> List.length r < List.length s.
Proof.
  unfold JSON.number. destruct s as [|c s']; [discriminate|].
  destruct (c =? 45)%N; intros H; apply unsigned_length in H;
    cbn [List.length] in *; lia.
Qed.

Lemma number_bound (s : jsstring) : JSON.number s <> JSON.Fuel.
Proof.
  unfold JSON.number. destruct s as [|c s']; [discriminate|].
  destruct (c =? 45)%N; apply unsigned_bound.
Qed.

Lemma word_length (w s r : jsstring) :
  JSON.word w s = Some r -> List.length r + List.length w = List.length s.
Proof.
  revert s; induction w as [|x w IH]; intros s H; cbn [JSON.word] in H.
  - injection H as <-. cbn [List.length]. lia.
  - destruct s as [|c s]; [discriminate|].
    destruct (x =? c)%N; [|discriminate].
    apply IH in H. cbn [List.length]. lia.
Qed.

Lemma keyword_length (w : string) (v v' : JSON.value) (s r : jsstring) :
  w <> EmptyString ->
  JSON.keyword w v s = JSON.Ok v' r -> List.length r < List.length s.
Proof.
  unfold JSON.keyword. intros Hw.
  destruct (JSON.word (JS.lit w) s) as [r0|] eqn:E; [|discriminate].
  intros [= _ <-]. apply word_length in E.
  destruct w; [contradiction|]. cbn [JS.lit list_ascii_of_string List.map
                                       List.length] in E. lia.
Qed.

(** Closes the goal about a result that is a [SyntaxError]. *)
Ltac no_result := split; [discriminate | intros; discriminate].

(** With fuel above twice the length of the text, no parsing function
    runs out of fuel, and each one consumes a part of the text. *)
Lemma parsers_bound (fuel : nat) :
  (forall s, 2 * List.length s < fuel ->
     JSON.value_ fuel s <> JSON.Fuel
     /\ forall v r, JSON.value_ fuel s = JSON.Ok v r ->
                    List.length r < List.length s)
  /\ (forall s acc, 2 * List.length s + 1 < fuel ->
        JSON.members fuel s acc <> JSON.Fuel
        /\ forall v r, JSON.members fuel s acc = JSON.Ok v r ->
                       List.length r < List.length s)
  /\ (forall s acc, 2 * List.length s + 1 < fuel ->
        JSON.elements fuel s acc <> JSON.Fuel
        /\ forall v r, JSON.elements fuel s acc = JSON.Ok v r ->
                       List.length r < List.length s).
Proof.
  induction fuel as [|f (IHv & IHm & IHe)];
    [repeat split; intros; lia|].
  split; [|split].
  - intros s L. cbn [JSON.value_].
    destruct (JSON.skip_ws s) as [|c r] eqn:E;
      [no_result|].
    apply skip_ws_cons in E.
    destruct (c =? 123)%N.
    { destruct (JSON.skip_ws r) as [|c' r'] eqn:E';
        [no_result|].
      pose proof (skip_ws_length r) as L'. rewrite E' in L'.
      destruct (c' =? 125)%N.
      - split; [discriminate|]. intros v r0 [= _ <-].
        cbn [List.length] in L'. lia.
      - destruct (IHm (c' :: r') []) as [H1 H2]; [lia|].
        split; [exact H1|]. intros v r0 H. apply H2 in H. lia. }
    destruct (c =? 91)%N.
    { destruct (JSON.skip_ws r) as [|c' r'] eqn:E';
        [no_result|].
      pose proof (skip_ws_length r) as L'. rewrite E' in L'.
      destruct (c' =? 93)%N.
      - split; [discriminate|]. intros v r0 [= _ <-].
        cbn [List.length] in L'. lia.
      - destruct (IHe (c' :: r') []) as [H1 H2]; [lia|].
        split; [exact H1|]. intros v r0 H. apply H2 in H. lia. }
    destruct (c =? 34)%N.
    { destruct (JSON.string_body r []) as [[str r']|] eqn:Es;
        [|no_result].
      apply (string_body_length (n := List.length r)) in Es; [|lia].
      split; [discriminate|]. intros v r0 [= _ <-]. lia. }
    assert (K : forall w v0, w <> EmptyString ->
              JSON.keyword w v0 (c :: r) <> JSON.Fuel
              /\ forall v r0, JSON.keyword w v0 (c :: r) = JSON.Ok v r0 ->
                              List.length r0 < List.length s).
    { intros w v0 Hw. split.
      - unfold JSON.keyword. destruct (JSON.word _ _); discriminate.
      - intros v r0 H. apply keyword_length in H; [|exact Hw].
        cbn [List.length] in H. lia. }
    destruct (c =? 116)%N; [apply K; discriminate|].
    destruct (c =? 102)%N; [apply K; discriminate|].
    destruct (c =? 110)%N; [apply K; discriminate|].
    split; [apply number_bound|].
    intros v r0 H. apply number_length in H. cbn [List.length] in H. lia.
  - intros s acc L. cbn [JSON.members].
    destruct (JSON.skip_ws s) as [|q r] eqn:E;
      [no_result|].
    apply skip_ws_cons in E.
    destruct (negb (q =? 34)%N);
      [no_result|].
    destruct (JSON.string_body r []) as [[k r1]|] eqn:Es;
      [|no_result].
    apply (string_body_length (n := List.length r)) in Es; [|lia].
    destruct (JSON.skip_ws r1) as [|colon r2] eqn:E1;
      [no_result|].
    apply skip_ws_cons in E1.
    destruct (negb (colon =? 58)%N);
      [no_result|].
    destruct (IHv r2) as [H1 H2]; [lia|].
    destruct (JSON.value_ f r2) as [v r3| |] eqn:Ev;
      [|no_result | now elim H1].
    specialize (H2 v r3 eq_refl).
    destruct (JSON.skip_ws r3) as [|sep r4] eqn:E3;
      [no_result|].
    apply skip_ws_cons in E3.
    destruct (sep =? 44)%N.
    + destruct (IHm r4 (acc ++ [(k, v)])) as [H3 H4]; [lia|].
      split; [exact H3|]. intros v' r0 H. apply H4 in H. lia.
    + destruct (sep =? 125)%N;
        [|no_result].
      split; [discriminate|]. intros v' r0 [= _ <-]. lia.
  - intros s acc L. cbn [JSON.elements].
    destruct (IHv s) as [H1 H2]; [lia|].
    destruct (JSON.value_ f s) as [v r1| |] eqn:Ev;
      [|no_result | now elim H1].
    specialize (H2 v r1 eq_refl).
    destruct (JSON.skip_ws r1) as [|sep r2] eqn:E1;
      [no_result|].
    apply skip_ws_cons in E1.
    destruct (sep =? 44)%N.
    + destruct (IHe r2 (acc ++ [v])) as [H3 H4]; [lia|].
      split; [exact H3|]. intros v' r0 H. apply H4 in H. lia.
    + destruct (sep =? 93)%N;
        [|no_result].
      split; [discriminate|]. intros v' r0 [= _ <-]. lia.
Qed.

(** [JSON.parse] answers [None] only for a [SyntaxError]. *)
Lemma parse_bound (text : jsstring) :
  JSON.value_ (S (2 * List.length text)) text <> JSON.Fuel.
Proof. apply parsers_bound. lia. Qed.

(** ** The platform functions on examples *)

Example trim_example :
  JS.trim ([32; 9; 160]%N ++ JS.lit "a b" ++ [13; 10; 8233]%N) = JS.lit "a b"
  /\ blank [32; 9; 10; 12288; 65279]%N = true
  /\ blank (JS.lit " x ") = false.
Proof. vm_compute. repeat split. Qed.

Example split_LF_example :
  JS.split_LF (JS.lit "ab" ++ [JS.LF] ++ [JS.LF] ++ JS.lit "c") =
    [JS.lit "ab"; []; JS.lit "c"]
  /\ JS.split_LF (JS.lit "ab" ++ [JS.LF]) = [JS.lit "ab"; []]
  /\ JS.split_LF [] = [[]].
Proof. vm_compute. repeat split. Qed.

(** A byte-order mark is dropped, the euro sign cut between two calls is
    completed by the second, U+1F600 comes as a surrogate pair, and a
    sequence that a line feed interrupts gives U+FFFD before the line feed;
    so does a byte that cannot start a sequence. *)
Example decode_example :
  snd (TextDecoder.decode TextDecoder.create [xef; xbb; xbf; x61]) = [97%N]
  /\ (let (d, t1) := TextDecoder.decode TextDecoder.create [x61; xe2; x82] in
      (t1, snd (TextDecoder.decode d [xac; x62]))) = ([97%N], [8364; 98]%N)
  /\ snd (TextDecoder.decode TextDecoder.create [xf0; x9f; x98; x80]) =
     [55357; 56832]%N
  /\ snd (TextDecoder.decode TextDecoder.create [xe2; x82; x0a; xff; xc0]) =
     [65533; 10; 65533; 65533]%N.
Proof. vm_compute. repeat split. Qed.

Example Number_toString_example :
  List.map (fun me => Number.toString (Number.of_decimal false
                                         (Z.to_N (fst me)) (snd me)))
           [(1, -1); (3, -1); (1, 21); (123456789012345678901, 0);
            (5, -324); (25, -1); (1, -7); (100, 0); (9007199254740993, 0)]%Z
  = List.map JS.lit
      ["0.1"; "0.3"; "1e+21"; "123456789012345680000"; "5e-324"; "2.5";
       "1e-7"; "100"; "9007199254740992"]%string.
Proof. vm_compute. reflexivity. Qed.

Example parse_example :
  JSON.parse (JS.lit (quoted " {'response' : 'aA\n', 'done':false} ")) =
    Some (JSON.Obj [(JS.lit "response", JSON.Str [97; 65; 10]%N);
                    (JS.lit "done", JSON.Bool false)])
  /\ JSON.parse (JS.lit (quoted "{'response':'foo'")) = None
  /\ JSON.parse (JS.lit (quoted ",'done':false}")) = None
  /\ JSON.parse (JS.lit "[[[[[[[[[[]]]]]]]]]]") <> None
  /\ JSON.parse (JS.lit "[1,]") = None
  /\ JSON.parse (JS.lit "01") = None
  /\ JSON.parse [] = None.
Proof. vm_compute. repeat split; discriminate. Qed.

(** What a line adds to [fullResponse]: the string of [response]; nothing
    for an empty string, [0], [false], [null], a missing member, the text
    [null] (reading [null.response] throws) or an object that hides
    [toString]; the printed value for a number, [true], an array, an
    object.  Of two [response] members the second one counts. *)
Example delta_example :
  List.map (fun l => delta (JS.lit (quoted l)))
    ["{'response':'Hi'}"; "{'response':''}"; "{'response':0}";
     "{'response':false}"; "{'response':null}"; "{'done':true}"; "null";
     "{'response':{'toString':1}}"; "{'response':1.50}"; "{'response':true}";
     "{'response':[1,null,'a',[true,{}]]}"; "{'response':{'a':1}}";
     "{'response':'x','response':'y'}"; "'response'"]%string
  = [Some (JS.lit "Hi"); None; None; None; None; None; None; None;
     Some (JS.lit "1.5"); Some (JS.lit "true");
     Some (JS.lit "1,,a,true,[object Object]");
     Some (JS.lit "[object Object]"); Some (JS.lit "y"); None].
Proof. vm_compute. reflexivity. Qed.

(** ** The read loops *)

Lemma last_cons_default {A : Type} (y : A) (l : list A) (d : A) :
  last (y :: l) d = last l y.
Proof.
  revert y d; induction l as [|z l IH]; intros y d; [reflexivity|].
  change (last (y :: z :: l) d) with (last (z :: l) d).
  now rewrite (IH z d), (IH z y).
Qed.

(** The last conversation seen at an [await] is the one the loop ends
    with. *)
Lemma scan_last {A B C : Type} (f : A -> B -> A) (g : A -> C) (xs : list B)
    (a : A) (d : C) :
  d = g a -> last (List.map g (scan f a xs)) d = g (fold_left f xs a).
Proof.
  revert a d; induction xs as [|x xs IH]; intros a d ->; [reflexivity|].
  cbn [scan List.map fold_left]. rewrite last_cons_default. now apply IH.
Qed.

(** The "Dev Ninja AI" loop after the chunks [cs]: the decoder has read
    all their bytes, [buffer] holds what follows the last line feed, and
    the lines before it have been handled in order. *)
Lemma DevNinja_loop (aid : jsstring) (cs : list TextDecoder.chunk)
    (l : DevNinja.Loop) :
  JS.split_LF (DevNinja.buffer l) = [DevNinja.buffer l] ->
  fold_left (DevNinja.onChunk aid) cs l =
  let (d, t) := TextDecoder.decode (DevNinja.decoder l) (concat cs) in
  let lines := JS.split_LF (DevNinja.buffer l ++ t) in
  {| DevNinja.decoder := d;
     DevNinja.buffer := last lines [];
     DevNinja.reply := DevNinja.forLines aid (DevNinja.reply l)
                                         (removelast lines) |}.
Proof.
  revert l; induction cs as [|c cs IH]; intros [d b r] Hb;
    cbn [DevNinja.decoder DevNinja.buffer DevNinja.reply] in *.
  - cbn [concat fold_left]. rewrite decode_nil, app_nil_r, Hb. reflexivity.
  - cbn [concat fold_left]. rewrite decode_app.
    unfold DevNinja.onChunk at 2.
    cbn [DevNinja.decoder DevNinja.buffer DevNinja.reply].
    destruct (TextDecoder.decode d c) as [d1 t1].
    rewrite IH by (cbn [DevNinja.buffer]; apply split_LF_last).
    cbn [DevNinja.decoder DevNinja.buffer DevNinja.reply].
    destruct (TextDecoder.decode d1 (concat cs)) as [d2 t2].
    rewrite (app_assoc b t1 t2), (last_split_LF_app (b ++ t1) t2),
      (removelast_split_LF_app (b ++ t1) t2).
    unfold DevNinja.forLines. now rewrite fold_left_app.
Qed.

Lemma forLines_filter (aid : jsstring) (ls : list jsstring) (r : Reply) :
  DevNinja.forLines aid r ls =
  fold_left (onLine aid) (filter (fun line => JS.truthy (JS.trim line)) ls) r.
Proof.
  unfold DevNinja.forLines, blank.
  revert r; induction ls as [|l ls IH]; intros r; [reflexivity|].
  cbn [fold_left filter].
  destruct (JS.truthy (JS.trim l)); cbn [negb fold_left]; apply IH.
Qed.

Lemma DevNinja_reply (aid : jsstring) (cs : list TextDecoder.chunk)
    (prev : list Message) :
  DevNinja.reply (fold_left (DevNinja.onChunk aid) cs (DevNinja.start prev)) =
  fold_left (onLine aid) (handledByDevNinja cs)
            {| fullResponse := []; shown := prev |}.
Proof.
  rewrite DevNinja_loop by reflexivity.
  unfold handledByDevNinja, decoded, DevNinja.start.
  cbn [DevNinja.decoder DevNinja.buffer DevNinja.reply app].
  destruct (TextDecoder.decode TextDecoder.create (concat cs)).
  cbn [DevNinja.reply snd]. apply forLines_filter.
Qed.

(** The "Ollama Chat" loop after the chunks [cs]: the pieces of every
    chunk that are not blank have been handled in order. *)
Lemma OllamaChat_loop (aid : jsstring) (cs : list TextDecoder.chunk)
    (l : OllamaChat.Loop) :
  OllamaChat.reply (fold_left (OllamaChat.onChunk aid) cs l) =
  fold_left (onLine aid)
    (concat (List.map (fun t => filter (fun line => JS.truthy (JS.trim line))
                                       (JS.split_LF t))
                      (texts (OllamaChat.decoder l) cs)))
    (OllamaChat.reply l).
Proof.
  revert l; induction cs as [|c cs IH]; intros [d r]; [reflexivity|].
  cbn [fold_left texts OllamaChat.decoder OllamaChat.reply].
  unfold OllamaChat.onChunk at 2.
  cbn [OllamaChat.decoder OllamaChat.reply].
  destruct (TextDecoder.decode d c) as [d1 t1].
  rewrite IH. cbn [OllamaChat.decoder OllamaChat.reply List.map concat].
  now rewrite fold_left_app.
Qed.

Lemma OllamaChat_reply (aid : jsstring) (cs : list TextDecoder.chunk)
    (prev : list Message) :
  OllamaChat.reply
    (fold_left (OllamaChat.onChunk aid) cs (OllamaChat.start prev)) =
  fold_left (onLine aid) (handledByOllamaChat cs)
            {| fullResponse := []; shown := prev |}.
Proof. apply OllamaChat_loop. Qed.

(** ** Streaming updates *)

Lemma setContent_framed (aid full : jsstring) (prev : list Message) :
  Forall2 (framed aid) prev (setContent aid full prev).
Proof.
  induction prev as [|m prev IH]; [constructor|].
  cbn [setContent List.map]. constructor; [|exact IH].
  unfold framed. destruct (JS.eqb (id m) aid) eqn:E; cbn; repeat split.
  intros H. apply eqb_eq in E. contradiction.
Qed.

Lemma framed_refl (aid : jsstring) (ms : list Message) :
  Forall2 (framed aid) ms ms.
Proof. induction ms; constructor; [now repeat split | assumption]. Qed.

Lemma framed_trans (aid : jsstring) (a b c : list Message) :
  Forall2 (framed aid) a b -> Forall2 (framed aid) b c ->
  Forall2 (framed aid) a c.
Proof.
  intros Hab; revert c; induction Hab as [|x y a b Hxy _ IH]; intros c Hbc;
    inversion Hbc as [|y' z b' c' Hyz Hbc']; subst; constructor; [|now apply IH].
  destruct Hxy as (Hi & Hr & Hc), Hyz as (Hi' & Hr' & Hc').
  repeat split; [congruence | congruence |].
  intros H. rewrite Hc' by congruence. now apply Hc.
Qed.

Lemma onLine_framed (aid : jsstring) (r : Reply) (line : jsstring) :
  Forall2 (framed aid) (shown r) (shown (onLine aid r line)).
Proof.
  unfold onLine. destruct (delta line); cbn [shown];
    [apply setContent_framed | apply framed_refl].
Qed.

Lemma fold_framed {B : Type} (aid : jsstring) (f : Reply -> B -> Reply) :
  (forall r x, Forall2 (framed aid) (shown r) (shown (f r x))) ->
  forall xs r, Forall2 (framed aid) (shown r) (shown (fold_left f xs r)).
Proof.
  intros Hf xs; induction xs as [|x xs IH]; intros r; [apply framed_refl|].
  cbn [fold_left]. eapply framed_trans; [apply Hf | apply IH].
Qed.

Lemma forLines_framed (aid : jsstring) (ls : list jsstring) (r : Reply) :
  Forall2 (framed aid) (shown r) (shown (DevNinja.forLines aid r ls)).
Proof.
  apply fold_framed. intros r' x.
  destruct (blank x); [apply framed_refl | apply onLine_framed].
Qed.

Lemma onLine_full (aid : jsstring) (r : Reply) (line : jsstring) :
  fullResponse (onLine aid r line) =
  fullResponse r ++ match delta line with Some t => t | None => [] end.
Proof.
  unfold onLine. destruct (delta line); cbn [fullResponse];
    [reflexivity | now rewrite app_nil_r].
Qed.

Lemma fold_onLine_full (aid : jsstring) (ls : list jsstring) (r : Reply) :
  fullResponse (fold_left (onLine aid) ls r) = fullResponse r ++ deltas ls.
Proof.
  unfold deltas.
  revert r; induction ls as [|l ls IH]; intros r; cbn [fold_left List.map concat].
  - now rewrite app_nil_r.
  - now rewrite IH, onLine_full, app_assoc.
Qed.

Lemma onLine_shows (aid : jsstring) (r : Reply) (line : jsstring) :
  showsReply aid r -> showsReply aid (onLine aid r line).
Proof.
  intros (before & Hs). unfold onLine. destruct (delta line) as [t|];
    [|now exists before].
  exists (setContent aid (fullResponse r ++ t) before).
  cbn [shown fullResponse]. rewrite Hs. unfold setContent.
  rewrite map_app. cbn [List.map id role]. now rewrite eqb_refl.
Qed.

Lemma fold_onLine_shows (aid : jsstring) (ls : list jsstring) (r : Reply) :
  showsReply aid r -> showsReply aid (fold_left (onLine aid) ls r).
Proof.
  revert r; induction ls as [|l ls IH]; intros r H; [exact H|].
  cbn [fold_left]. apply IH. now apply onLine_shows.
Qed.

Lemma showsReply_last (aid : jsstring) (r : Reply) :
  showsReply aid r -> lastContent (shown r) = fullResponse r.
Proof.
  intros (before & ->). unfold lastContent. now rewrite last_last.
Qed.

Lemma opened_shows (env : Env) (st : State) :
  showsReply (assistantMessageId env)
             {| fullResponse := []; shown := opened env st |}.
Proof. now exists (messages st ++ [userMessage env st]). Qed.

(** ** Whole calls *)

Lemma attempt_streams {L : Type} (start : list Message -> L)
    (onChunk : L -> TextDecoder.chunk -> L) (reply : L -> Reply)
    (sT : jsstring) (cs : list TextDecoder.chunk) (e : StreamEnd)
    (prev : list Message) :
  shown (reply (start prev)) = prev ->
  snd (fst (attempt start onChunk reply
                    (Response true sT (Some {| chunks := cs; ending := e |}))
                    prev)) =
  shown (reply (fold_left onChunk cs (start prev)))
  /\ snd (attempt start onChunk reply
                  (Response true sT (Some {| chunks := cs; ending := e |}))
                  prev) =
     match e with Done => None | ReadRejects x => Some x end.
Proof.
  intros H. cbn [attempt chunks ending fst snd]. split; [|reflexivity].
  rewrite (scan_last onChunk (fun l => shown (reply l)));
    [reflexivity | now rewrite H].
Qed.

(** A call of the "Dev Ninja AI" handler that gets a readable body: the
    lines handled decide the conversation, the end of the stream decides
    between completion and the error message. *)
Lemma DevNinja_streamed (env : Env) (st : State) (sT : jsstring)
    (cs : list TextDecoder.chunk) (e : StreamEnd) :
  guard st = false ->
  fetch env = Response true sT (Some {| chunks := cs; ending := e |}) ->
  let r := fold_left (onLine (assistantMessageId env)) (handledByDevNinja cs)
                     {| fullResponse := []; shown := opened env st |} in
  final (DevNinja.handleSendMessage env st) =
    {| messages := match e with
                   | Done => shown r
                   | ReadRejects x =>
                       removelast (shown r)
                       ++ [DevNinja.errorMessage (now_error env) x]
                   end;
       input := []; isLoading := false |}
  /\ outcome (DevNinja.handleSendMessage env st) =
     match e with Done => Completed | ReadRejects _ => Errored end
  /\ created (DevNinja.handleSendMessage env st) =
     [userMessage env st; assistantMessage env]
     ++ match e with
        | Done => []
        | ReadRejects x => [DevNinja.errorMessage (now_error env) x]
        end.
Proof.
  intros Hg Hf r. unfold DevNinja.handleSendMessage. rewrite Hg, Hf.
  destruct (@attempt_streams _ DevNinja.start
              (DevNinja.onChunk (assistantMessageId env)) DevNinja.reply
              sT cs e (opened env st) eq_refl) as [H1 H2].
  destruct (attempt _ _ _ _ _) as [[seen msgs] thrown].
  cbn [fst snd] in H1, H2. subst msgs thrown.
  rewrite DevNinja_reply. fold r. now destruct e.
Qed.

(** The same for the "Ollama Chat" handler, whose [catch] block appends. *)
Lemma OllamaChat_streamed (env : Env) (st : State) (sT : jsstring)
    (cs : list TextDecoder.chunk) (e : StreamEnd) :
  guard st = false ->
  fetch env = Response true sT (Some {| chunks := cs; ending := e |}) ->
  let r := fold_left (onLine (assistantMessageId env))
                     (handledByOllamaChat cs)
                     {| fullResponse := []; shown := opened env st |} in
  final (OllamaChat.handleSendMessage env st) =
    {| messages := match e with
                   | Done => shown r
                   | ReadRejects x =>
                       shown r ++ [OllamaChat.errorMessage (now_error env) x]
                   end;
       input := []; isLoading := false |}
  /\ outcome (OllamaChat.handleSendMessage env st) =
     match e with Done => Completed | ReadRejects _ => Errored end
  /\ created (OllamaChat.handleSendMessage env st) =
     [userMessage env st; assistantMessage env]
     ++ match e with
        | Done => []
        | ReadRejects x => [OllamaChat.errorMessage (now_error env) x]
        end.
Proof.
  intros Hg Hf r. unfold OllamaChat.handleSendMessage. rewrite Hg, Hf.
  destruct (@attempt_streams _ OllamaChat.start
              (OllamaChat.onChunk (assistantMessageId env)) OllamaChat.reply
              sT cs e (opened env st) eq_refl) as [H1 H2].
  destruct (attempt _ _ _ _ _) as [[seen msgs] thrown].
  cbn [fst snd] in H1, H2. subst msgs thrown.
  rewrite OllamaChat_reply. fold r. now destruct e.
Qed.

(** ** The guard *)

(** While a call is in flight, [isLoading] is set: at every [await] of
    either handler the state is one in which the guard returns. *)
Lemma awaits_are_loading (env : Env) (st : State) (s : State) :
  In s (awaits (DevNinja.handleSendMessage env st))
  \/ In s (awaits (OllamaChat.handleSendMessage env st)) ->
  isLoading s = true.
Proof.
  unfold DevNinja.handleSendMessage, OllamaChat.handleSendMessage.
  destruct (guard st); [intros [[]|[]]|].
  destruct (attempt DevNinja.start _ _ _ _) as [[seenA msgsA] [eA|]];
    destruct (attempt OllamaChat.start _ _ _ _) as [[seenB msgsB] [eB|]];
    cbn [awaits]; rewrite !in_map_iff;
    intros [(m & <- & _)|(m & <- & _)]; reflexivity.
Qed.

(** C7. A call whose input is empty or made of white space only, or that
    comes while [isLoading] is set, as it is at every [await] of a call in
    flight ([awaits_are_loading]), returns at the guard: the conversation,
    the input and the loading flag are the ones it found, nothing is
    appended and no request is made, so the call in flight goes on from
    the state it left.  Both components. *)
Theorem rejected_send_is_noop (env : Env) (st : State) :
  forallb JS.isWhiteSpace (input st) = true \/ isLoading st = true ->
  DevNinja.handleSendMessage env st =
    {| final := st; outcome := Rejected; awaits := []; created := [] |}
  /\ OllamaChat.handleSendMessage env st =
    {| final := st; outcome := Rejected; awaits := []; created := [] |}.
Proof.
  intros H. apply guard_iff in H.
  unfold DevNinja.handleSendMessage, OllamaChat.handleSendMessage.
  rewrite H. split; reflexivity.
Qed.

Lemma rejected_send_is_noop_witness :
  let env := {| now_user := 1700000000000; now_assistant := 1700000000000;
                fetch := streams [bytes (quoted "{'response':'Hi','done':true}")]
                                 Done;
                now_error := 1700000000500 |} in
  let st := {| messages := [{| id := JS.lit "1699999990000"; role := user;
                               content := JS.lit "Hello" |};
                            {| id := JS.lit "1699999990001";
                               role := assistant; content := JS.lit "Hi" |}];
               input := [32; 9; 160; 32]%N; isLoading := false |} in
  (forallb JS.isWhiteSpace (input st) = true \/ isLoading st = true)
  /\ DevNinja.handleSendMessage env st =
       {| final := st; outcome := Rejected; awaits := []; created := [] |}
  /\ OllamaChat.handleSendMessage env st =
       {| final := st; outcome := Rejected; awaits := []; created := [] |}.
Proof.
  intros env st. split; [left; reflexivity|].
  apply (rejected_send_is_noop env st). left; reflexivity.
Defined.

(** ** End of the stream *)

Lemma stream_done_completes (aid : jsstring) (prev : list Message)
    (ls : list jsstring) :
  showsReply aid {| fullResponse := []; shown := prev |} ->
  let r := fold_left (onLine aid) ls {| fullResponse := []; shown := prev |} in
  Forall2 (framed aid) prev (shown r) /\ lastContent (shown r) = deltas ls.
Proof.
  intros H r. subst r. split.
  - apply (fold_framed (onLine aid) (onLine_framed aid) ls
             {| fullResponse := []; shown := prev |}).
  - rewrite (showsReply_last (fold_onLine_shows ls H)).
    apply (fold_onLine_full aid ls {| fullResponse := []; shown := prev |}).
Qed.

(** C8. When [reader.read()] reports the end of the stream, whether or
    not a frame with [done = true] was among the lines, the call completes:
    the [catch] block does not run, no error message is appended,
    [isLoading] is reset, the conversation keeps its messages with their
    identifiers and roles, and the placeholder, its last message, shows
    what the handled lines have added to [fullResponse].  Both
    components. *)
Theorem stream_end_completes (env : Env) (st : State) (sT : jsstring)
    (cs : list TextDecoder.chunk) :
  guard st = false ->
  fetch env = Response true sT (Some {| chunks := cs; ending := Done |}) ->
  (outcome (DevNinja.handleSendMessage env st) = Completed
   /\ isLoading (final (DevNinja.handleSendMessage env st)) = false
   /\ created (DevNinja.handleSendMessage env st) =
        [userMessage env st; assistantMessage env]
   /\ Forall2 (framed (assistantMessageId env)) (opened env st)
              (messages (final (DevNinja.handleSendMessage env st)))
   /\ lastContent (messages (final (DevNinja.handleSendMessage env st))) =
        deltas (handledByDevNinja cs))
  /\ (outcome (OllamaChat.handleSendMessage env st) = Completed
      /\ isLoading (final (OllamaChat.handleSendMessage env st)) = false
      /\ created (OllamaChat.handleSendMessage env st) =
           [userMessage env st; assistantMessage env]
      /\ Forall2 (framed (assistantMessageId env)) (opened env st)
                 (messages (final (OllamaChat.handleSendMessage env st)))
      /\ lastContent (messages (final (OllamaChat.handleSendMessage env st))) =
           deltas (handledByOllamaChat cs)).
Proof.
  intros Hg Hf. split.
  - destruct (@DevNinja_streamed env st sT cs Done Hg Hf) as (-> & -> & ->).
    destruct (@stream_done_completes _ _ (handledByDevNinja cs)
                (opened_shows env st)) as [H1 H2].
    cbn [messages isLoading]. auto.
  - destruct (@OllamaChat_streamed env st sT cs Done Hg Hf) as (-> & -> & ->).
    destruct (@stream_done_completes _ _ (handledByOllamaChat cs)
                (opened_shows env st)) as [H1 H2].
    cbn [messages isLoading]. auto.
Qed.

Lemma stream_end_completes_witness :
  let cs := [bytes (quoted "{'response':'Hi'}") ++ bytes LF
             ++ bytes (quoted "{'response':' there'}") ++ bytes LF;
             bytes (quoted "{'response':'!'}") ++ bytes LF] in
  let env := {| now_user := 1700000000000; now_assistant := 1700000000000;
                fetch := streams cs Done; now_error := 1700000000500 |} in
  let st := {| messages := []; input := JS.lit "Hello";
               isLoading := false |} in
  (guard st = false
   /\ fetch env = Response true (JS.lit "OK")
                           (Some {| chunks := cs; ending := Done |}))
  /\ outcome (DevNinja.handleSendMessage env st) = Completed
  /\ lastContent (messages (final (DevNinja.handleSendMessage env st))) =
       JS.lit "Hi there!"
  /\ outcome (OllamaChat.handleSendMessage env st) = Completed
  /\ lastContent (messages (final (OllamaChat.handleSendMessage env st))) =
       JS.lit "Hi there!".
Proof.
  intros cs env st.
  assert (Hg : guard st = false) by reflexivity.
  assert (Hf : fetch env = Response true (JS.lit "OK")
                             (Some {| chunks := cs; ending := Done |}))
    by reflexivity.
  destruct (@stream_end_completes env st (JS.lit "OK") cs Hg Hf)
    as [(H1 & _ & _ & _ & H2) (H3 & _ & _ & _ & H4)].
  split; [split; assumption|].
  split; [exact H1|]. split; [rewrite H2; vm_compute; reflexivity|].
  split; [exact H3|]. rewrite H4; vm_compute; reflexivity.
Defined.

(** ** The streaming update *)

(** C10. The updater of the streaming [setMessages] keeps the length of
    the conversation and, position by position, the identifier and the
    role of every message; it sets the content of the messages whose
    identifier is the placeholder's and leaves the content of every other
    message as it is.  Every update one line makes is this updater, and in
    both components one iteration of the read loop, whatever the chunk,
    changes nothing else. *)
Theorem streaming_update_touches_placeholder_only (aid : jsstring) :
  (forall full prev,
     List.length (setContent aid full prev) = List.length prev
     /\ Forall2 (updated aid full) prev (setContent aid full prev))
  /\ (forall r line,
        onLine aid r line = r
        \/ shown (onLine aid r line) =
           setContent aid (fullResponse (onLine aid r line)) (shown r))
  /\ (forall l value,
        Forall2 (framed aid) (shown (DevNinja.reply l))
                (shown (DevNinja.reply (DevNinja.onChunk aid l value))))
  /\ (forall l value,
        Forall2 (framed aid) (shown (OllamaChat.reply l))
                (shown (OllamaChat.reply (OllamaChat.onChunk aid l value)))).
Proof.
  repeat split.
  - unfold setContent. apply length_map.
  - induction prev as [|m prev IH]; cbn [setContent List.map]; constructor;
      [|exact IH].
    unfold updated. now destruct (JS.eqb (id m) aid).
  - intros r line. unfold onLine. destruct (delta line); [right|left];
      reflexivity.
  - intros [d b r] value. unfold DevNinja.onChunk.
    cbn [DevNinja.decoder DevNinja.buffer DevNinja.reply].
    destruct (TextDecoder.decode d value). cbn [DevNinja.reply].
    apply forLines_framed.
  - intros [d r] value. unfold OllamaChat.onChunk.
    cbn [OllamaChat.decoder OllamaChat.reply].
    destruct (TextDecoder.decode d value). cbn [OllamaChat.reply].
    apply (fold_framed (onLine aid) (onLine_framed aid)).
Qed.

(** ** Lines that are not valid JSON *)

Lemma split_LF_ends (t : jsstring) :
  exists l ls, JS.split_LF (t ++ [JS.LF]) = l :: ls ++ [[]].
Proof.
  induction t as [|x t (l & ls & IH)].
  - now exists [], [].
  - cbn [app JS.split_LF]. rewrite IH.
    destruct (x =? JS.LF)%N.
    + now exists [], (l :: ls).
    + now exists (x :: l), ls.
Qed.

Lemma endsLine_cases (t : jsstring) :
  endsLine t = true -> t = [] \/ exists t', t = t' ++ [JS.LF].
Proof.
  unfold endsLine. destruct (rev t) as [|c r] eqn:E; intros H.
  - left. apply (f_equal (@rev N)) in E. now rewrite rev_involutive in E.
  - right. exists (rev r). apply N.eqb_eq in H. subst c.
    apply (f_equal (@rev N)) in E. now rewrite rev_involutive in E.
Qed.

Lemma endsLine_last (t : jsstring) :
  endsLine t = true -> last (JS.split_LF t) [] = [].
Proof.
  intros H. destruct (endsLine_cases t H) as [-> | (t' & ->)]; [reflexivity|].
  destruct (split_LF_ends t') as (l & ls & ->).
  change (l :: ls ++ [[]]) with ((l :: ls) ++ [[]]). apply last_last.
Qed.

(** What follows the end of a line is split on its own. *)
Lemma split_LF_after_line (t x : jsstring) :
  endsLine t = true ->
  JS.split_LF (t ++ x) = removelast (JS.split_LF t) ++ JS.split_LF x.
Proof. intros H. now rewrite split_LF_app, (endsLine_last t H). Qed.

Lemma removelast_split_LF_cons (l x : jsstring) :
  removelast (l :: JS.split_LF x) = l :: removelast (JS.split_LF x).
Proof. now destruct (split_LF_cons x) as (k & ks & ->). Qed.

Lemma onLine_unparsed (aid : jsstring) (r : Reply) (bad : jsstring) :
  JSON.parse bad = None -> onLine aid r bad = r.
Proof. intros H. unfold onLine, delta. now rewrite H. Qed.

Lemma fold_onLine_skip (aid : jsstring) (f : jsstring -> bool)
    (a b : list jsstring) (bad : jsstring) (r : Reply) :
  JSON.parse bad = None ->
  fold_left (onLine aid) (a ++ filter f [bad] ++ b) r =
  fold_left (onLine aid) (a ++ b) r.
Proof.
  intros H. rewrite !fold_left_app. cbn [filter].
  destruct (f bad); cbn [fold_left]; [now rewrite onLine_unparsed|reflexivity].
Qed.

Lemma handledByDevNinja_inserted (cs cs' : list TextDecoder.chunk)
    (bad T1 T2 : jsstring) :
  ~ In JS.LF bad -> endsLine T1 = true ->
  decoded cs = T1 ++ T2 -> decoded cs' = T1 ++ bad ++ JS.LF :: T2 ->
  exists a b,
    handledByDevNinja cs = a ++ b
    /\ handledByDevNinja cs' =
       a ++ filter (fun line => JS.truthy (JS.trim line)) [bad] ++ b.
Proof.
  intros Hbad HT1 E E'. unfold handledByDevNinja. rewrite E, E'.
  rewrite !split_LF_after_line by exact HT1.
  rewrite split_LF_line by exact Hbad.
  destruct (split_LF_cons T2) as (k & ks & Ek).
  rewrite !removelast_app
    by (try rewrite Ek; discriminate).
  rewrite removelast_split_LF_cons, !filter_app.
  eexists; eexists; split; [reflexivity|].
  change (bad :: removelast (JS.split_LF T2))
    with ([bad] ++ removelast (JS.split_LF T2)).
  now rewrite filter_app.
Qed.

Lemma handledByOllamaChat_inserted (cs cs' : list TextDecoder.chunk)
    (bad t1 t2 : jsstring) (ts1 ts2 : list jsstring) :
  ~ In JS.LF bad -> endsLine t1 = true ->
  texts TextDecoder.create cs = ts1 ++ (t1 ++ t2) :: ts2 ->
  texts TextDecoder.create cs' = ts1 ++ (t1 ++ bad ++ JS.LF :: t2) :: ts2 ->
  exists a b,
    handledByOllamaChat cs = a ++ b
    /\ handledByOllamaChat cs' =
       a ++ filter (fun line => JS.truthy (JS.trim line)) [bad] ++ b.
Proof.
  intros Hbad Ht1 E E'. unfold handledByOllamaChat. rewrite E, E'.
  rewrite !map_app, !concat_app. cbn [List.map concat].
  rewrite !split_LF_after_line by exact Ht1.
  rewrite split_LF_line by exact Hbad.
  change (bad :: JS.split_LF t2) with ([bad] ++ JS.split_LF t2).
  rewrite !filter_app.
  set (f := fun line => JS.truthy (JS.trim line)).
  set (g := fun t => filter f (JS.split_LF t)).
  exists (concat (List.map g ts1) ++ filter f (removelast (JS.split_LF t1))),
         (filter f (JS.split_LF t2) ++ concat (List.map g ts2)).
  now rewrite <- !app_assoc.
Qed.

Lemma DevNinja_same_lines (env : Env) (st : State)
    (cs cs' : list TextDecoder.chunk) (e : StreamEnd) :
  (forall aid r, fold_left (onLine aid) (handledByDevNinja cs') r =
                 fold_left (onLine aid) (handledByDevNinja cs) r) ->
  let run := DevNinja.handleSendMessage (withFetch env (streams cs e)) st in
  let run' := DevNinja.handleSendMessage (withFetch env (streams cs' e)) st in
  final run' = final run /\ outcome run' = outcome run
  /\ created run' = created run.
Proof.
  intros H run run'. subst run run'.
  destruct (guard st) eqn:Hg.
  - unfold DevNinja.handleSendMessage. now rewrite Hg.
  - destruct (@DevNinja_streamed (withFetch env (streams cs e)) st
                (JS.lit "OK") cs e Hg eq_refl) as (-> & -> & ->).
    destruct (@DevNinja_streamed (withFetch env (streams cs' e)) st
                (JS.lit "OK") cs' e Hg eq_refl) as (-> & -> & ->).
    unfold assistantMessageId, opened, userMessage, assistantMessage,
      assistantMessageId.
    cbn [withFetch now_user now_assistant now_error]. now rewrite H.
Qed.

Lemma OllamaChat_same_lines (env : Env) (st : State)
    (cs cs' : list TextDecoder.chunk) (e : StreamEnd) :
  (forall aid r, fold_left (onLine aid) (handledByOllamaChat cs') r =
                 fold_left (onLine aid) (handledByOllamaChat cs) r) ->
  let run := OllamaChat.handleSendMessage (withFetch env (streams cs e)) st in
  let run' := OllamaChat.handleSendMessage (withFetch env (streams cs' e)) st in
  final run' = final run /\ outcome run' = outcome run
  /\ created run' = created run.
Proof.
  intros H run run'. subst run run'.
  destruct (guard st) eqn:Hg.
  - unfold OllamaChat.handleSendMessage. now rewrite Hg.
  - destruct (@OllamaChat_streamed (withFetch env (streams cs e)) st
                (JS.lit "OK") cs e Hg eq_refl) as (-> & -> & ->).
    destruct (@OllamaChat_streamed (withFetch env (streams cs' e)) st
                (JS.lit "OK") cs' e Hg eq_refl) as (-> & -> & ->).
    unfold assistantMessageId, opened, userMessage, assistantMessage,
      assistantMessageId.
    cbn [withFetch now_user now_assistant now_error]. now rewrite H.
Qed.

(** C6 fails in "Ollama Chat".  The line [{'response':'X'}garbage] (with
    double quotes) is not valid JSON.  It is inserted between the frames
    with [Hi] and [!], and the stream delivers it in two chunks, cut after
    the closing brace.  "Ollama Chat" splits each chunk on its own: the
    first piece of the line is a frame to [JSON.parse] and its [X] is
    added, so the placeholder ends with [HiX!], where the stream without
    the line ends with [Hi!].  "Dev Ninja AI", which keeps the unfinished
    line in [buffer], ends with [Hi!] for the same chunks, and so does
    "Ollama Chat" when the line arrives inside one chunk. *)
Theorem OllamaChat_handles_piece_of_malformed_line :
  let first := JS.lit (quoted "{'response':'Hi','done':false}") ++ [JS.LF] in
  let second := JS.lit (quoted "{'response':'!','done':true}") ++ [JS.LF] in
  let bad := JS.lit (quoted "{'response':'X'}garbage") in
  let plain := [bytes (quoted "{'response':'Hi','done':false}") ++ bytes LF;
                bytes (quoted "{'response':'!','done':true}") ++ bytes LF] in
  let cut := [bytes (quoted "{'response':'Hi','done':false}") ++ bytes LF
              ++ bytes (quoted "{'response':'X'}");
              bytes "garbage" ++ bytes LF
              ++ bytes (quoted "{'response':'!','done':true}") ++ bytes LF] in
  let uncut := [bytes (quoted "{'response':'Hi','done':false}") ++ bytes LF;
                bytes (quoted "{'response':'X'}garbage") ++ bytes LF
                ++ bytes (quoted "{'response':'!','done':true}")
                ++ bytes LF] in
  let env := {| now_user := 1700000000000; now_assistant := 1700000000000;
                fetch := FetchRejects OtherValue;
                now_error := 1700000000500 |} in
  let st := {| messages := []; input := JS.lit "Hello";
               isLoading := false |} in
  let ollama cs :=
    OllamaChat.handleSendMessage (withFetch env (streams cs Done)) st in
  let devNinja cs :=
    DevNinja.handleSendMessage (withFetch env (streams cs Done)) st in
  JSON.parse bad = None
  /\ decoded plain = first ++ second
  /\ decoded cut = first ++ bad ++ JS.LF :: second
  /\ decoded uncut = decoded cut
  /\ lastContent (messages (final (ollama plain))) = JS.lit "Hi!"
  /\ lastContent (messages (final (ollama cut))) = JS.lit "HiX!"
  /\ outcome (ollama cut) = Completed
  /\ lastContent (messages (final (ollama uncut))) = JS.lit "Hi!"
  /\ lastContent (messages (final (devNinja plain))) = JS.lit "Hi!"
  /\ lastContent (messages (final (devNinja cut))) = JS.lit "Hi!".
Proof. vm_compute. repeat split. Qed.

(** ** The [done] flag *)

Lemma split_LF_unlines_all (ls : list jsstring) :
  Forall (fun l => ~ In JS.LF l) ls -> JS.split_LF (unlines ls) = ls ++ [[]].
Proof.
  intros H. rewrite <- (app_nil_r (unlines ls)).
  now rewrite split_LF_unlines.
Qed.

Lemma handledByDevNinja_unlines (cs : list TextDecoder.chunk)
    (ls : list jsstring) :
  Forall (fun l => ~ In JS.LF l) ls -> decoded cs = unlines ls ->
  handledByDevNinja cs = filter (fun line => JS.truthy (JS.trim line)) ls.
Proof.
  intros H E. unfold handledByDevNinja.
  now rewrite E, split_LF_unlines_all, removelast_last.
Qed.

Lemma handledByOllamaChat_unlines (cs : list TextDecoder.chunk)
    (lss : list (list jsstring)) :
  Forall (Forall (fun l => ~ In JS.LF l)) lss ->
  texts TextDecoder.create cs = List.map unlines lss ->
  handledByOllamaChat cs =
  filter (fun line => JS.truthy (JS.trim line)) (concat lss).
Proof.
  intros H E. unfold handledByOllamaChat. rewrite E, map_map.
  rewrite <- concat_filter_map. f_equal. clear E.
  induction H as [|ls lss Hls _ IH]; [reflexivity|].
  cbn [List.map]. rewrite IH, split_LF_unlines_all by exact Hls.
  rewrite filter_app. cbn [filter JS.trim JS.trimStart JS.trimEnd rev app
                             JS.truthy].
  now rewrite app_nil_r.
Qed.

(** C4, as the code has it.  The [done] member of a frame is not read and
    the loop stops only when [reader.read()] reports the end of the stream:
    when the body delivers the lines [ls], each ended by a line feed, every
    one of them takes part in the final content of the placeholder, in
    order, those after a frame with [done = true] like the others.  For
    "Dev Ninja AI" with any cut of the bytes into chunks, for "Ollama Chat"
    when every chunk holds whole lines. *)
Theorem every_delivered_line_is_processed (env : Env) (st : State)
    (ls : list jsstring) (lss : list (list jsstring))
    (csA csB : list TextDecoder.chunk) :
  guard st = false ->
  Forall (fun l => ~ In JS.LF l) ls ->
  decoded csA = unlines ls ->
  Forall (Forall (fun l => ~ In JS.LF l)) lss ->
  texts TextDecoder.create csB = List.map unlines lss ->
  lastContent
    (messages (final (DevNinja.handleSendMessage
                        (withFetch env (streams csA Done)) st))) =
    deltas (filter (fun line => JS.truthy (JS.trim line)) ls)
  /\ lastContent
       (messages (final (OllamaChat.handleSendMessage
                           (withFetch env (streams csB Done)) st))) =
       deltas (filter (fun line => JS.truthy (JS.trim line)) (concat lss)).
Proof.
  intros Hg Hls EA Hlss EB. split.
  - destruct (@DevNinja_streamed (withFetch env (streams csA Done)) st
                (JS.lit "OK") csA Done Hg eq_refl) as (-> & _).
    cbn [messages].
    rewrite <- (handledByDevNinja_unlines csA Hls EA).
    apply stream_done_completes, opened_shows.
  - destruct (@OllamaChat_streamed (withFetch env (streams csB Done)) st
                (JS.lit "OK") csB Done Hg eq_refl) as (-> & _).
    cbn [messages].
    rewrite <- (handledByOllamaChat_unlines csB Hlss EB).
    apply stream_done_completes, opened_shows.
Qed.

Lemma every_delivered_line_is_processed_witness :
  let terminal := JS.lit (quoted "{'response':'a','done':true}") in
  let later := JS.lit (quoted "{'response':'b','done':false}") in
  let csA := [bytes (quoted "{'response':'a','do");
              bytes (quoted "ne':true}") ++ bytes LF ++ bytes (quoted "{'response':'b',");
              bytes (quoted "'done':false}") ++ bytes LF] in
  let csB := [bytes (quoted "{'response':'a','done':true}") ++ bytes LF;
              bytes (quoted "{'response':'b','done':false}") ++ bytes LF] in
  let env := {| now_user := 1700000000000; now_assistant := 1700000000000;
                fetch := FetchRejects OtherValue;
                now_error := 1700000000500 |} in
  let st := {| messages := []; input := JS.lit "Hello";
               isLoading := false |} in
  (guard st = false
   /\ Forall (fun l => ~ In JS.LF l) [terminal; later]
   /\ decoded csA = unlines [terminal; later]
   /\ Forall (Forall (fun l => ~ In JS.LF l)) [[terminal]; [later]]
   /\ texts TextDecoder.create csB =
        List.map unlines [[terminal]; [later]])
  /\ lastContent
       (messages (final (DevNinja.handleSendMessage
                           (withFetch env (streams csA Done)) st))) =
       JS.lit "ab"
  /\ lastContent
       (messages (final (OllamaChat.handleSendMessage
                           (withFetch env (streams csB Done)) st))) =
       JS.lit "ab".
Proof.
  intros terminal later csA csB env st.
  assert (Ht : ~ In JS.LF terminal)
    by (intros H; vm_compute in H; intuition discriminate).
  assert (Hl : ~ In JS.LF later)
    by (intros H; vm_compute in H; intuition discriminate).
  assert (Hg : guard st = false) by reflexivity.
  assert (Hls : Forall (fun l => ~ In JS.LF l) [terminal; later])
    by (repeat constructor; assumption).
  assert (EA : decoded csA = unlines [terminal; later])
    by (vm_compute; reflexivity).
  assert (Hlss : Forall (Forall (fun l => ~ In JS.LF l))
                        [[terminal]; [later]])
    by (repeat constructor; assumption).
  assert (EB : texts TextDecoder.create csB =
               List.map unlines [[terminal]; [later]])
    by (vm_compute; reflexivity).
  destruct (@every_delivered_line_is_processed env st [terminal; later]
              [[terminal]; [later]] csA csB Hg Hls EA Hlss EB) as [HA HB].
  split; [tauto|]. split.
  - rewrite HA. vm_compute; reflexivity.
  - rewrite HB. vm_compute; reflexivity.
Defined.

(** C4, as the specification states it, fails: a frame delivered after the
    frame with [done = true] is processed and changes the placeholder.  The
    conversation at the [await] after the first chunk shows [a]; the
    second chunk, read after the terminal frame, makes it [ab]. *)
Lemma frame_after_done_is_processed :
  let cs := [bytes (quoted "{'response':'a','done':true}") ++ bytes LF;
             bytes (quoted "{'response':'b','done':false}") ++ bytes LF] in
  let env := {| now_user := 1700000000000; now_assistant := 1700000000000;
                fetch := streams cs Done; now_error := 1700000000500 |} in
  let st := {| messages := []; input := JS.lit "Hello";
               isLoading := false |} in
  List.map (fun s => lastContent (messages s))
           (awaits (DevNinja.handleSendMessage env st)) =
    [[]; []; JS.lit "a"; JS.lit "ab"]
  /\ lastContent (messages (final (DevNinja.handleSendMessage env st))) =
     JS.lit "ab"
  /\ List.map (fun s => lastContent (messages s))
              (awaits (OllamaChat.handleSendMessage env st)) =
     [[]; []; JS.lit "a"; JS.lit "ab"]
  /\ lastContent (messages (final (OllamaChat.handleSendMessage env st))) =
     JS.lit "ab".
Proof. vm_compute. repeat split. Qed.

(** ** The field a delta is read from *)

(** C5, as the code has it.  The delta is read from the [response] member
    of the frame and from nothing else: a frame whose [response] is the
    non-empty string [d] appends [d] to [fullResponse], and a frame without
    a [response] member changes nothing, whatever its [message] member
    holds. *)
Theorem delta_is_read_from_response (aid : jsstring) (r : Reply)
    (line line' d : jsstring) (ms ms' : list (jsstring * JSON.value)) :
  JSON.parse line = Some (JSON.Obj ms) ->
  JSON.lookup (JS.lit "response") ms = Some (JSON.Str d) ->
  d <> [] ->
  JSON.parse line' = Some (JSON.Obj ms') ->
  JSON.lookup (JS.lit "response") ms' = None ->
  fullResponse (onLine aid r line) = fullResponse r ++ d
  /\ onLine aid r line' = r.
Proof.
  intros Hp Hl Hd Hp' Hl'. unfold onLine, delta.
  rewrite Hp, Hp'. cbn [JSON.response]. rewrite Hl, Hl'.
  cbn [JSON.ToBoolean JSON.ToString].
  destruct d as [|c d]; [contradiction|]. split; reflexivity.
Qed.

Lemma delta_is_read_from_response_witness :
  let line := JS.lit
    (quoted "{'message':{'role':'assistant','content':'Hi'},'response':'Yo','done':false}") in
  let line' := JS.lit
    (quoted "{'message':{'role':'assistant','content':'Hi'},'done':false}") in
  let r := {| fullResponse := JS.lit "So: "; shown := [] |} in
  (exists ms ms',
     JSON.parse line = Some (JSON.Obj ms)
     /\ JSON.lookup (JS.lit "response") ms = Some (JSON.Str (JS.lit "Yo"))
     /\ JS.lit "Yo" <> []
     /\ JSON.parse line' = Some (JSON.Obj ms')
     /\ JSON.lookup (JS.lit "response") ms' = None)
  /\ fullResponse (onLine (JS.lit "1700000000001") r line) = JS.lit "So: Yo"
  /\ onLine (JS.lit "1700000000001") r line' = r.
Proof.
  intros line line' r.
  destruct (JSON.parse line) as [[| | | | |ms]|] eqn:Hp;
    try (vm_compute in Hp; discriminate).
  destruct (JSON.parse line') as [[| | | | |ms']|] eqn:Hp';
    try (vm_compute in Hp'; discriminate).
  assert (Hl : JSON.lookup (JS.lit "response") ms
               = Some (JSON.Str (JS.lit "Yo")))
    by (vm_compute in Hp; injection Hp as <-; vm_compute; reflexivity).
  assert (Hl' : JSON.lookup (JS.lit "response") ms' = None)
    by (vm_compute in Hp'; injection Hp' as <-; vm_compute; reflexivity).
  assert (Hd : JS.lit "Yo" <> []) by discriminate.
  destruct (@delta_is_read_from_response (JS.lit "1700000000001") r
              line line' (JS.lit "Yo") ms ms' Hp Hl Hd Hp' Hl') as [H1 H2].
  split; [exists ms, ms'; auto|]. split; assumption.
Defined.

(** C5, as the specification states it, fails: for a frame that carries
    its text in [message.content] and has no [response] member the
    placeholder stays empty in both components, where the specification
    has it show [Hi]. *)
Lemma message_content_is_not_read :
  let cs := [bytes
    (quoted "{'model':'ninja-ai','message':{'role':'assistant','content':'Hi'},'done':true}")
    ++ bytes LF] in
  let env := {| now_user := 1700000000000; now_assistant := 1700000000000;
                fetch := streams cs Done; now_error := 1700000000500 |} in
  let st := {| messages := []; input := JS.lit "Hello";
               isLoading := false |} in
  delta (decoded cs) = None
  /\ lastContent (messages (final (DevNinja.handleSendMessage env st))) = []
  /\ lastContent (messages (final (OllamaChat.handleSendMessage env st))) = [].
Proof. vm_compute. repeat split. Qed.

(** ** Identifiers *)

Lemma digits_of_uint_inj (d d' : Decimal.uint) :
  JS.digits_of_uint d = JS.digits_of_uint d' -> d = d'.
Proof.
  revert d'; induction d; intros [] H; cbn [JS.digits_of_uint] in H;
    try discriminate; try reflexivity;
    injection H as H; f_equal; auto.
Qed.

(** Distinct time values print as distinct identifiers. *)
Lemma toString_inj : Injective JS.toString.
Proof.
  intros n m H. apply digits_of_uint_inj in H.
  rewrite <- (Unsigned.of_to n), <- (Unsigned.of_to m). now rewrite H.
Qed.

Lemma attempt_thrown {L : Type} (start : list Message -> L)
    (onChunk : L -> TextDecoder.chunk -> L) (reply : L -> Reply)
    (f : Fetch) (prev : list Message) :
  snd (attempt start onChunk reply f prev) = thrown f.
Proof. destruct f as [e|[|] sT [body|]]; reflexivity. Qed.

(** The identifiers an accepted call of "Dev Ninja AI" makes. *)
Lemma DevNinja_created (e : Env) (st : State) :
  guard st = false ->
  List.map id (created (DevNinja.handleSendMessage e st)) =
    List.map JS.toString
      (now_user e :: (now_assistant e + 1)%N
       :: match thrown (fetch e) with
          | Some _ => [now_error e]
          | None => []
          end)
  /\ isLoading (final (DevNinja.handleSendMessage e st)) = false.
Proof.
  intros Hg. unfold DevNinja.handleSendMessage. rewrite Hg.
  pose proof (attempt_thrown DevNinja.start
                (DevNinja.onChunk (assistantMessageId e)) DevNinja.reply
                (fetch e) (opened e st)) as H.
  destruct (attempt _ _ _ _ _) as [[seen msgs] th]. cbn [snd] in H.
  rewrite <- H. now destruct th.
Qed.

(** The identifiers an accepted call of "Ollama Chat" makes. *)
Lemma OllamaChat_created (e : Env) (st : State) :
  guard st = false ->
  List.map id (created (OllamaChat.handleSendMessage e st)) =
    List.map JS.toString
      (now_user e :: (now_assistant e + 1)%N
       :: match thrown (fetch e) with
          | Some _ => [(now_error e + 2)%N]
          | None => []
          end)
  /\ isLoading (final (OllamaChat.handleSendMessage e st)) = false.
Proof.
  intros Hg. unfold OllamaChat.handleSendMessage. rewrite Hg.
  pose proof (attempt_thrown OllamaChat.start
                (OllamaChat.onChunk (assistantMessageId e)) OllamaChat.reply
                (fetch e) (opened e st)) as H.
  destruct (attempt _ _ _ _ _) as [[seen msgs] th]. cbn [snd] in H.
  rewrite <- H. now destruct th.
Qed.

Lemma StronglySorted_lt_NoDup (ns : list N) :
  StronglySorted N.lt ns -> NoDup ns.
Proof.
  induction 1 as [|n ns _ IH Hn]; constructor; [|exact IH].
  intros Hin. rewrite Forall_forall in Hn. specialize (Hn n Hin). lia.
Qed.

Lemma sorted_from_cons (floor n next : N) (ns : list N) :
  next = (n + 1)%N ->
  StronglySorted N.lt (n :: ns) /\ Forall (fun m => (floor <= m)%N) (n :: ns)
  <-> (floor <= n)%N
      /\ StronglySorted N.lt ns /\ Forall (fun m => (next <= m)%N) ns.
Proof.
  intros ->. rewrite !Forall_forall. split.
  - intros [Hs Hf]. apply StronglySorted_inv in Hs as [Hs Hn].
    rewrite Forall_forall in Hn. split; [apply Hf; now left|].
    split; [exact Hs|]. intros m Hm. specialize (Hn m Hm). lia.
  - intros (H1 & Hs & Hn). split.
    + constructor; [exact Hs|]. rewrite Forall_forall.
      intros m Hm. specialize (Hn m Hm). lia.
    + intros m [<-|Hm]; [exact H1|]. specialize (Hn m Hm). lia.
Qed.

(** The identifiers a session appends are the decimal digits of numbers
    that grow, from [floor] on, exactly when its clock readings are
    spaced: for a handler that returns at the guard without appending, and
    whose accepted calls make their identifiers of the clock as both
    components do, the one of the [catch] block counting when [catch] is
    set. *)
Lemma session_numbers (handle : Env -> State -> Run) (catch : bool) :
  (forall e st, guard st = true ->
     created (handle e st) = [] /\ final (handle e st) = st) ->
  (forall e st, guard st = false ->
     List.map id (created (handle e st)) =
       List.map JS.toString
         (now_user e :: (now_assistant e + 1)%N
          :: match thrown (fetch e) with
             | Some _ => if catch then [(now_error e + 2)%N] else []
             | None => []
             end)
     /\ isLoading (final (handle e st)) = false) ->
  forall xs st floor,
    isLoading st = false ->
    exists ns,
      List.map id (snd (session handle st xs)) = List.map JS.toString ns
      /\ (StronglySorted N.lt ns /\ Forall (fun n => (floor <= n)%N) ns
          <-> spaced catch floor xs).
Proof.
  intros Hrej Hacc xs.
  induction xs as [|x xs IH]; intros st floor Hl.
  - exists []. split; [reflexivity|]. cbn [spaced].
    split; [constructor|]. intros _. split; constructor.
  - cbn [session spaced].
    set (st' := {| messages := messages st; input := typed x;
                   isLoading := isLoading st |}).
    assert (Hg : guard st' = blank (typed x)).
    { unfold guard, blank. cbn [input isLoading st']. rewrite Hl.
      apply orb_false_r. }
    destruct (blank (typed x)) eqn:Hb.
    + destruct (Hrej (env x) st' Hg) as [Hc Hf]. rewrite Hc, Hf.
      destruct (IH st' floor Hl) as (ns & E & Hiff).
      destruct (session handle st' xs) as [st'' log]. cbn [snd app] in *.
      now exists ns.
    + destruct (Hacc (env x) st' Hg) as [Hc Hl'].
      set (e := env x) in *.
      destruct (thrown (fetch e)) as [t|]; [destruct catch|].
      * destruct (IH (final (handle e st')) (now_error e + 3)%N Hl')
          as (ns & E & Hiff).
        destruct (session handle (final (handle e st')) xs) as [st'' log].
        cbn [snd] in *.
        exists (now_user e :: (now_assistant e + 1)%N
                :: (now_error e + 2)%N :: ns).
        split; [rewrite map_app, Hc, E; reflexivity|].
        rewrite (@sorted_from_cons floor (now_user e) (now_user e + 1)%N
                   _ eq_refl).
        rewrite (@sorted_from_cons (now_user e + 1)%N (now_assistant e + 1)%N
                   (now_assistant e + 2)%N _ ltac:(lia)).
        rewrite (@sorted_from_cons (now_assistant e + 2)%N (now_error e + 2)%N
                   (now_error e + 3)%N _ ltac:(lia)).
        rewrite Hiff. intuition lia.
      * destruct (IH (final (handle e st')) (now_assistant e + 2)%N Hl')
          as (ns & E & Hiff).
        destruct (session handle (final (handle e st')) xs) as [st'' log].
        cbn [snd] in *.
        exists (now_user e :: (now_assistant e + 1)%N :: ns).
        split; [rewrite map_app, Hc, E; reflexivity|].
        rewrite (@sorted_from_cons floor (now_user e) (now_user e + 1)%N
                   _ eq_refl).
        rewrite (@sorted_from_cons (now_user e + 1)%N (now_assistant e + 1)%N
                   (now_assistant e + 2)%N _ ltac:(lia)).
        rewrite Hiff. intuition lia.
      * destruct (IH (final (handle e st')) (now_assistant e + 2)%N Hl')
          as (ns & E & Hiff).
        destruct (session handle (final (handle e st')) xs) as [st'' log].
        cbn [snd] in *.
        exists (now_user e :: (now_assistant e + 1)%N :: ns).
        split; [rewrite map_app, Hc, E; reflexivity|].
        rewrite (@sorted_from_cons floor (now_user e) (now_user e + 1)%N
                   _ eq_refl).
        rewrite (@sorted_from_cons (now_user e + 1)%N (now_assistant e + 1)%N
                   (now_assistant e + 2)%N _ ltac:(lia)).
        rewrite Hiff. intuition lia.
Qed.

Lemma rejected_call (e : Env) (st : State) :
  guard st = true ->
  (created (DevNinja.handleSendMessage e st) = []
   /\ final (DevNinja.handleSendMessage e st) = st)
  /\ (created (OllamaChat.handleSendMessage e st) = []
      /\ final (OllamaChat.handleSendMessage e st) = st).
Proof.
  intros Hg. unfold DevNinja.handleSendMessage, OllamaChat.handleSendMessage.
  rewrite Hg. repeat split.
Qed.

(** C9, as the code has it.  Identifiers are time values: [Date.now()]
    for a user message, [Date.now() + 1] for a placeholder and, in
    "Ollama Chat", [Date.now() + 2] for an error message.  Over any run of
    submissions from an idle state, the identifiers of the messages
    appended are the digits of numbers that grow strictly in the order of
    creation exactly when the clock readings are spaced: no reading of a
    call is below the one before it, and every call starts at a reading
    above the last identifier made before it.  Then the identifiers are
    pairwise distinct, none is used twice.  For "Dev Ninja AI" this is
    about its user messages and placeholders; the identifier of its error
    message is left out. *)
Theorem identifiers_increase_when_calls_are_spaced (st : State)
    (xs : list Exchange) :
  isLoading st = false ->
  (exists ns,
     List.map id (snd (session OllamaChat.handleSendMessage st xs)) =
       List.map JS.toString ns
     /\ (StronglySorted N.lt ns <-> spaced true 0 xs))
  /\ (spaced true 0 xs ->
      NoDup (List.map id (snd (session OllamaChat.handleSendMessage st xs))))
  /\ (exists ns,
        List.map id
          (snd (session (withoutCatch DevNinja.handleSendMessage) st xs)) =
          List.map JS.toString ns
        /\ (StronglySorted N.lt ns <-> spaced false 0 xs))
  /\ (spaced false 0 xs ->
      NoDup (List.map id
               (snd (session (withoutCatch DevNinja.handleSendMessage)
                             st xs)))).
Proof.
  intros Hl.
  assert (H0 : forall ns : list N, Forall (fun n => (0 <= n)%N) ns).
  { intros ns. rewrite Forall_forall. intros n _. lia. }
  assert (HB : exists ns,
             List.map id (snd (session OllamaChat.handleSendMessage st xs)) =
               List.map JS.toString ns
             /\ (StronglySorted N.lt ns <-> spaced true 0 xs)).
  { destruct (@session_numbers OllamaChat.handleSendMessage true
                (fun e s Hg => proj2 (@rejected_call e s Hg))
                (fun e s Hg => @OllamaChat_created e s Hg)
                xs st 0%N Hl) as (ns & E & Hiff).
    exists ns. split; [exact E|]. rewrite <- Hiff. specialize (H0 ns).
    tauto. }
  assert (HA : exists ns,
             List.map id
               (snd (session (withoutCatch DevNinja.handleSendMessage)
                             st xs)) =
               List.map JS.toString ns
             /\ (StronglySorted N.lt ns <-> spaced false 0 xs)).
  { destruct (@session_numbers (withoutCatch DevNinja.handleSendMessage)
                false) with (xs := xs) (st := st) (floor := 0%N)
      as (ns & E & Hiff).
    - intros e s Hg. destruct (@rejected_call e s Hg) as [[Hc Hf] _].
      unfold withoutCatch. cbn [created final]. now rewrite Hc.
    - intros e s Hg. destruct (@DevNinja_created e s Hg) as [Hc Hf].
      unfold withoutCatch. cbn [created final]. split; [|exact Hf].
      rewrite <- firstn_map, Hc.
      destruct (thrown (fetch e)); reflexivity.
    - exact Hl.
    - exists ns. split; [exact E|]. rewrite <- Hiff. specialize (H0 ns).
      tauto. }
  split; [exact HB|]. split; [|split; [exact HA|]].
  - destruct HB as (ns & -> & Hiff). intros Hs.
    apply (Injective_map_NoDup toString_inj), StronglySorted_lt_NoDup.
    now apply Hiff.
  - destruct HA as (ns & -> & Hiff). intros Hs.
    apply (Injective_map_NoDup toString_inj), StronglySorted_lt_NoDup.
    now apply Hiff.
Qed.

Lemma identifiers_increase_when_calls_are_spaced_witness :
  let failing :=
    {| typed := JS.lit "Hello";
       env := {| now_user := 1700000000000; now_assistant := 1700000000000;
                 fetch := Response false (JS.lit "Internal Server Error")
                                   None;
                 now_error := 1700000000000 |} |} in
  let empty :=
    {| typed := JS.lit "  ";
       env := {| now_user := 0; now_assistant := 0;
                 fetch := FetchRejects OtherValue; now_error := 0 |} |} in
  let answered :=
    {| typed := JS.lit "Again";
       env := {| now_user := 1700000000003; now_assistant := 1700000000003;
                 fetch := streams [bytes (quoted "{'response':'Hi','done':true}")
                                   ++ bytes LF] Done;
                 now_error := 0 |} |} in
  let st := {| messages := []; input := []; isLoading := false |} in
  (isLoading st = false
   /\ spaced true 0 [failing; empty; answered]
   /\ spaced false 0 [failing; empty; answered])
  /\ NoDup (List.map id (snd (session OllamaChat.handleSendMessage st
                                      [failing; empty; answered])))
  /\ NoDup (List.map id
              (snd (session (withoutCatch DevNinja.handleSendMessage) st
                            [failing; empty; answered])))
  /\ List.map id (snd (session OllamaChat.handleSendMessage st
                               [failing; empty; answered])) =
     [JS.lit "1700000000000"; JS.lit "1700000000001";
      JS.lit "1700000000002"; JS.lit "1700000000003";
      JS.lit "1700000000004"].
Proof.
  intros failing empty answered st.
  assert (Hl : isLoading st = false) by reflexivity.
  assert (HB : spaced true 0 [failing; empty; answered])
    by (vm_compute; repeat split; discriminate).
  assert (HA : spaced false 0 [failing; empty; answered])
    by (vm_compute; repeat split; discriminate).
  destruct (@identifiers_increase_when_calls_are_spaced
              st [failing; empty; answered] Hl) as (_ & NB & _ & NA).
  split; [tauto|]. split; [exact (NB HB)|]. split; [exact (NA HA)|].
  vm_compute. reflexivity.
Defined.

(** C9, as the specification states it, fails.  When the clock reads one
    millisecond more at the start of a second exchange than at the start of
    the first, the second user message gets the identifier that
    [Date.now() + 1] gave to the first placeholder, and both messages are
    in the conversation (both components).  In "Dev Ninja AI" a [fetch]
    that fails within the millisecond of the submission gives the error
    message the identifier of the user message. *)
Lemma identifiers_collide_on_close_readings :
  let first :=
    {| typed := JS.lit "Hello";
       env := {| now_user := 1700000000000; now_assistant := 1700000000000;
                 fetch := streams [bytes (quoted "{'response':'Hi','done':true}")
                                   ++ bytes LF] Done;
                 now_error := 1700000000000 |} |} in
  let second :=
    {| typed := JS.lit "Again";
       env := {| now_user := 1700000000001; now_assistant := 1700000000001;
                 fetch := streams [bytes (quoted "{'response':'Yes','done':true}")
                                   ++ bytes LF] Done;
                 now_error := 1700000000001 |} |} in
  let failing :=
    {| typed := JS.lit "Hello";
       env := {| now_user := 1700000000000; now_assistant := 1700000000000;
                 fetch := FetchRejects (ErrorObject (JS.lit "Failed to fetch"));
                 now_error := 1700000000000 |} |} in
  let st := {| messages := []; input := []; isLoading := false |} in
  List.map id (messages (fst (session DevNinja.handleSendMessage st
                                      [first; second]))) =
    [JS.lit "1700000000000"; JS.lit "1700000000001";
     JS.lit "1700000000001"; JS.lit "1700000000002"]
  /\ ~ NoDup (List.map id (snd (session DevNinja.handleSendMessage st
                                        [first; second])))
  /\ List.map id (messages (fst (session OllamaChat.handleSendMessage st
                                         [first; second]))) =
     [JS.lit "1700000000000"; JS.lit "1700000000001";
      JS.lit "1700000000001"; JS.lit "1700000000002"]
  /\ ~ NoDup (List.map id (snd (session OllamaChat.handleSendMessage st
                                        [first; second])))
  /\ List.map id (messages (fst (session DevNinja.handleSendMessage st
                                         [failing]))) =
     [JS.lit "1700000000000"; JS.lit "1700000000000"].
Proof.
  intros first second failing st.
  assert (H : forall a b c : jsstring, ~ NoDup [a; b; b; c]).
  { intros a b c Hn. inversion Hn as [|? ? _ Hn']; subst.
    inversion Hn' as [|? ? Hb _]; subst. apply Hb. now left. }
  split; [vm_compute; reflexivity|]. split.
  - replace (List.map id (snd (session DevNinja.handleSendMessage st
                                       [first; second])))
      with [JS.lit "1700000000000"; JS.lit "1700000000001";
            JS.lit "1700000000001"; JS.lit "1700000000002"]
      by (vm_compute; reflexivity).
    apply H.
  - split; [vm_compute; reflexivity|]. split; [|vm_compute; reflexivity].
    replace (List.map id (snd (session OllamaChat.handleSendMessage st
                                       [first; second])))
      with [JS.lit "1700000000000"; JS.lit "1700000000001";
            JS.lit "1700000000001"; JS.lit "1700000000002"]
      by (vm_compute; reflexivity).
    apply H.
Qed.

(** ** Failures *)

Lemma opened_removelast (e : Env) (st : State) :
  removelast (opened e st) = messages st ++ [userMessage e st].
Proof. unfold opened. apply removelast_last. Qed.

Lemma Forall2_framed_removelast (aid : jsstring) (a : list Message)
    (m : Message) (b : list Message) :
  Forall2 (framed aid) (a ++ [m]) b ->
  Forall2 (framed aid) a (removelast b).
Proof.
  intros H. apply Forall2_app_inv_l in H as (b1 & b2 & H1 & H2 & ->).
  inversion H2 as [|? m' ? ? _ H3]; subst. inversion H3; subst.
  now rewrite removelast_last.
Qed.

(** X3. In "Dev Ninja AI" a call that ends in the [catch] block leaves the
    messages before the placeholder, with their identifiers and roles, and
    the error message in the placeholder's place. *)
Lemma DevNinja_error_replaces_placeholder (e : Env) (st : State) :
  guard st = false ->
  outcome (DevNinja.handleSendMessage e st) = Errored ->
  exists before x,
    Forall2 (framed (assistantMessageId e))
            (messages st ++ [userMessage e st]) before
    /\ messages (final (DevNinja.handleSendMessage e st)) =
       before ++ [DevNinja.errorMessage (now_error e) x]
    /\ role (DevNinja.errorMessage (now_error e) x) = assistant.
Proof.
  intros Hg. destruct (fetch e) as [x|ok sT body] eqn:Hf;
    [|destruct ok; [destruct body as [[cs [|x]]|]|]].
  - unfold DevNinja.handleSendMessage. rewrite Hg, Hf. cbn. intros _.
    exists (messages st ++ [userMessage e st]), x.
    rewrite opened_removelast. repeat split. apply framed_refl.
  - destruct (@DevNinja_streamed e st sT cs Done Hg Hf) as (_ & -> & _).
    discriminate.
  - destruct (@DevNinja_streamed e st sT cs (ReadRejects x) Hg Hf)
      as (-> & _ & _).
    intros _. cbn [messages]. eexists; exists x.
    split; [|split; reflexivity].
    eapply Forall2_framed_removelast.
    apply (fold_framed (onLine (assistantMessageId e))
             (onLine_framed (assistantMessageId e))
             (handledByDevNinja cs)
             {| fullResponse := []; shown := opened e st |}).
  - unfold DevNinja.handleSendMessage. rewrite Hg, Hf. cbn. discriminate.
  - unfold DevNinja.handleSendMessage. rewrite Hg, Hf. cbn. intros _.
    exists (messages st ++ [userMessage e st]),
           (ErrorObject (JS.lit "API error: " ++ sT)).
    rewrite opened_removelast. repeat split. apply framed_refl.
Qed.

(** C3 holds for "Dev Ninja AI" and fails for "Ollama Chat": on HTTP 500
    the first leaves the user message and the error message, the second
    leaves three messages, the empty placeholder between them. *)
Theorem OllamaChat_error_leaves_empty_placeholder :
  let env := {| now_user := 1700000000000; now_assistant := 1700000000000;
                fetch := Response false (JS.lit "Internal Server Error") None;
                now_error := 1700000000120 |} in
  let st := {| messages := []; input := JS.lit "Hello";
               isLoading := false |} in
  outcome (OllamaChat.handleSendMessage env st) = Errored
  /\ messages (final (OllamaChat.handleSendMessage env st)) =
     [{| id := JS.lit "1700000000000"; role := user;
         content := JS.lit "Hello" |};
      {| id := JS.lit "1700000000001"; role := assistant; content := [] |};
      {| id := JS.lit "1700000000122"; role := assistant;
         content := JS.lit "Error: API error: Internal Server Error" |}]
  /\ outcome (DevNinja.handleSendMessage env st) = Errored
  /\ messages (final (DevNinja.handleSendMessage env st)) =
     [{| id := JS.lit "1700000000000"; role := user;
         content := JS.lit "Hello" |};
      {| id := JS.lit "1700000000120"; role := assistant;
         content := [226; 338; 32]%N
                    ++ JS.lit "Error: API error: Internal Server Error" |}].
Proof. vm_compute. repeat split. Qed.

(** ** Chunk boundaries *)

(** X2. In "Dev Ninja AI" only the bytes of the stream count, not their
    cut into chunks: two streams of the same bytes have the same lines
    handled and end the call the same way. *)
Lemma DevNinja_chunking_invariant (e : Env) (st : State)
    (cs cs' : list TextDecoder.chunk) (ending : StreamEnd) :
  concat cs = concat cs' ->
  let run := DevNinja.handleSendMessage (withFetch e (streams cs ending)) st in
  let run' :=
    DevNinja.handleSendMessage (withFetch e (streams cs' ending)) st in
  handledByDevNinja cs' = handledByDevNinja cs
  /\ final run' = final run /\ outcome run' = outcome run
  /\ created run' = created run.
Proof.
  intros H.
  assert (E : handledByDevNinja cs' = handledByDevNinja cs)
    by (unfold handledByDevNinja, decoded; now rewrite H).
  split; [exact E|].
  apply DevNinja_same_lines. intros aid r. now rewrite E.
Qed.

(** A chunk boundary inside the three bytes of the euro sign, and inside
    the line: "Dev Ninja AI" shows the sign, U+20AC. *)
Lemma DevNinja_character_cut_by_chunk :
  let cs := [bytes (quoted "{'response':'") ++ [xe2; x82];
             [xac] ++ bytes (quoted " 5','done':true}") ++ bytes LF] in
  let env := {| now_user := 1700000000000; now_assistant := 1700000000000;
                fetch := streams cs Done; now_error := 1700000000500 |} in
  let st := {| messages := []; input := JS.lit "Hello";
               isLoading := false |} in
  lastContent (messages (final (DevNinja.handleSendMessage env st))) =
    8364%N :: JS.lit " 5".
Proof. vm_compute. reflexivity. Qed.

(** X1. In "Dev Ninja AI" the placeholder ends with the deltas of the
    frames, concatenated in order, however the bytes are cut. *)
Lemma DevNinja_concatenates (e : Env) (st : State)
    (cs : list TextDecoder.chunk) (ls ds : list jsstring) :
  guard st = false ->
  Forall2 (fun l d => ~ In JS.LF l /\ blank l = false /\ delta l = Some d)
          ls ds ->
  decoded cs = unlines ls ->
  lastContent
    (messages (final (DevNinja.handleSendMessage
                        (withFetch e (streams cs Done)) st))) = concat ds.
Proof.
  intros Hg H E.
  destruct (@DevNinja_streamed (withFetch e (streams cs Done)) st
              (JS.lit "OK") cs Done Hg eq_refl) as (-> & _).
  cbn [messages].
  destruct (@stream_done_completes _ _ (handledByDevNinja cs)
              (opened_shows (withFetch e (streams cs Done)) st)) as [_ ->].
  rewrite (@handledByDevNinja_unlines cs ls); [|
    clear E; induction H as [|? ? ? ? (? & _) _ IH]; constructor; auto | exact E].
  clear E. unfold deltas.
  induction H as [|l d ls ds (_ & Hb & Hd) _ IH]; [reflexivity|].
  cbn [filter]. unfold blank in Hb. apply negb_false_iff in Hb. rewrite Hb.
  cbn [List.map concat]. now rewrite Hd, IH.
Qed.

(** C1 holds for "Dev Ninja AI" and fails for "Ollama Chat": when a chunk
    ends inside the second of the frames [Hi], [ there], [!], the first
    ends with [Hi there!], the second drops the cut frame and ends with
    [Hi!]. *)
Theorem OllamaChat_loses_delta_cut_by_chunk :
  let cs := [bytes (quoted "{'response':'Hi','done':false}") ++ bytes LF
             ++ bytes (quoted "{'response':' th");
             bytes (quoted "ere','done':false}") ++ bytes LF
             ++ bytes (quoted "{'response':'!','done':true}") ++ bytes LF] in
  let env := {| now_user := 1700000000000; now_assistant := 1700000000000;
                fetch := streams cs Done; now_error := 1700000000500 |} in
  let st := {| messages := []; input := JS.lit "Hello";
               isLoading := false |} in
  decoded cs = unlines [JS.lit (quoted "{'response':'Hi','done':false}");
                        JS.lit (quoted "{'response':' there','done':false}");
                        JS.lit (quoted "{'response':'!','done':true}")]
  /\ lastContent (messages (final (OllamaChat.handleSendMessage env st))) =
     JS.lit "Hi!"
  /\ lastContent (messages (final (DevNinja.handleSendMessage env st))) =
     JS.lit "Hi there!".
Proof. vm_compute. repeat split. Qed.

(** C2 holds for "Dev Ninja AI" and fails for "Ollama Chat": the same
    bytes, delivered in one chunk or cut inside the first line, give the
    contents [foobar] and [bar]; the two pieces of the cut line are each
    rejected by [JSON.parse]. *)
Theorem OllamaChat_depends_on_chunk_boundaries :
  let whole := [bytes (quoted "{'response':'foo','done':false}") ++ bytes LF
                ++ bytes (quoted "{'response':'bar','done':true}") ++ bytes LF] in
  let cut := [bytes (quoted "{'response':'foo'");
              bytes (quoted ",'done':false}") ++ bytes LF
              ++ bytes (quoted "{'response':'bar','done':true}") ++ bytes LF] in
  let env := {| now_user := 1700000000000; now_assistant := 1700000000000;
                fetch := FetchRejects OtherValue;
                now_error := 1700000000500 |} in
  let st := {| messages := []; input := JS.lit "Hello";
               isLoading := false |} in
  concat whole = concat cut
  /\ handledByOllamaChat whole =
     [JS.lit (quoted "{'response':'foo','done':false}");
      JS.lit (quoted "{'response':'bar','done':true}")]
  /\ handledByOllamaChat cut =
     [JS.lit (quoted "{'response':'foo'");
      JS.lit (quoted ",'done':false}");
      JS.lit (quoted "{'response':'bar','done':true}")]
  /\ lastContent
       (messages (final (OllamaChat.handleSendMessage
                           (withFetch env (streams whole Done)) st))) =
     JS.lit "foobar"
  /\ lastContent
       (messages (final (OllamaChat.handleSendMessage
                           (withFetch env (streams cut Done)) st))) =
     JS.lit "bar"
  /\ lastContent
       (messages (final (DevNinja.handleSendMessage
                           (withFetch env (streams cut Done)) st))) =
     JS.lit "foobar".
Proof. vm_compute. repeat split. Qed.

Unset Implicit Arguments.

(** ** Calls with any outcome of [fetch] *)

Lemma DevNinja_attempt (aid : jsstring) (f : Fetch) (prev : list Message) :
  snd (fst (attempt DevNinja.start (DevNinja.onChunk aid) DevNinja.reply
                    f prev)) =
  shown (fold_left (onLine aid) (handledOf handledByDevNinja f)
                   {| fullResponse := []; shown := prev |}).
Proof.
  destruct f as [x|ok sT body]; [reflexivity|].
  destruct ok; [|reflexivity]. destruct body as [[cs en]|]; [|reflexivity].
  destruct (@attempt_streams _ DevNinja.start (DevNinja.onChunk aid)
              DevNinja.reply sT cs en prev eq_refl) as [-> _].
  now rewrite DevNinja_reply.
Qed.

Lemma OllamaChat_attempt (aid : jsstring) (f : Fetch) (prev : list Message) :
  snd (fst (attempt OllamaChat.start (OllamaChat.onChunk aid)
                    OllamaChat.reply f prev)) =
  shown (fold_left (onLine aid) (handledOf handledByOllamaChat f)
                   {| fullResponse := []; shown := prev |}).
Proof.
  destruct f as [x|ok sT body]; [reflexivity|].
  destruct ok; [|reflexivity]. destruct body as [[cs en]|]; [|reflexivity].
  destruct (@attempt_streams _ OllamaChat.start (OllamaChat.onChunk aid)
              OllamaChat.reply sT cs en prev eq_refl) as [-> _].
  now rewrite OllamaChat_reply.
Qed.

(** An accepted call of "Dev Ninja AI", whatever [fetch] does. *)
Lemma DevNinja_run (env : Env) (st : State) :
  guard st = false ->
  let r := fold_left (onLine (assistantMessageId env))
                     (handledOf handledByDevNinja (fetch env))
                     {| fullResponse := []; shown := opened env st |} in
  final (DevNinja.handleSendMessage env st) =
    {| messages := match thrown (fetch env) with
                   | None => shown r
                   | Some x =>
                       removelast (shown r)
                       ++ [DevNinja.errorMessage (now_error env) x]
                   end;
       input := []; isLoading := false |}
  /\ outcome (DevNinja.handleSendMessage env st) =
     match thrown (fetch env) with None => Completed | Some _ => Errored end.
Proof.
  intros Hg r. unfold DevNinja.handleSendMessage. rewrite Hg.
  pose proof (DevNinja_attempt (assistantMessageId env) (fetch env)
                (opened env st)) as H1.
  pose proof (attempt_thrown DevNinja.start
                (DevNinja.onChunk (assistantMessageId env)) DevNinja.reply
                (fetch env) (opened env st)) as H2.
  destruct (attempt _ _ _ _ _) as [[seen msgs] th].
  cbn [fst snd] in H1, H2. subst msgs th. fold r.
  now destruct (thrown (fetch env)).
Qed.

(** An accepted call of "Ollama Chat", whatever [fetch] does. *)
Lemma OllamaChat_run (env : Env) (st : State) :
  guard st = false ->
  let r := fold_left (onLine (assistantMessageId env))
                     (handledOf handledByOllamaChat (fetch env))
                     {| fullResponse := []; shown := opened env st |} in
  final (OllamaChat.handleSendMessage env st) =
    {| messages := match thrown (fetch env) with
                   | None => shown r
                   | Some x =>
                       shown r ++ [OllamaChat.errorMessage (now_error env) x]
                   end;
       input := []; isLoading := false |}
  /\ outcome (OllamaChat.handleSendMessage env st) =
     match thrown (fetch env) with None => Completed | Some _ => Errored end.
Proof.
  intros Hg r. unfold OllamaChat.handleSendMessage. rewrite Hg.
  pose proof (OllamaChat_attempt (assistantMessageId env) (fetch env)
                (opened env st)) as H1.
  pose proof (attempt_thrown OllamaChat.start
                (OllamaChat.onChunk (assistantMessageId env)) OllamaChat.reply
                (fetch env) (opened env st)) as H2.
  destruct (attempt _ _ _ _ _) as [[seen msgs] th].
  cbn [fst snd] in H1, H2. subst msgs th. fold r.
  now destruct (thrown (fetch env)).
Qed.

(** The conversation the line loop leaves: the messages of before, framed,
    then the placeholder with what the lines have added. *)
Lemma reply_shape (env : Env) (st : State) (ls : list jsstring) :
  let r := fold_left (onLine (assistantMessageId env)) ls
                     {| fullResponse := []; shown := opened env st |} in
  exists before,
    shown r = before ++ [{| id := assistantMessageId env; role := assistant;
                            content := deltas ls |}]
    /\ Forall2 (framed (assistantMessageId env))
               (messages st ++ [userMessage env st]) before.
Proof.
  intros r.
  destruct (fold_onLine_shows ls (opened_shows env st)) as (before & Hs).
  fold r in Hs.
  pose proof (fold_onLine_full (assistantMessageId env) ls
                {| fullResponse := []; shown := opened env st |}) as Hf.
  fold r in Hf. cbn [fullResponse app] in Hf. rewrite Hf in Hs.
  exists before. split; [exact Hs|].
  pose proof (fold_framed (onLine (assistantMessageId env))
                (onLine_framed (assistantMessageId env)) ls
                {| fullResponse := []; shown := opened env st |}) as HF.
  fold r in HF. cbn [shown] in HF. rewrite Hs in HF. unfold opened in HF.
  apply Forall2_app_inv_l in HF as (b1 & b2 & H1 & H2 & E).
  inversion H2 as [|? m' ? ? _ H3]; subst. inversion H3; subst.
  apply app_inj_tail in E as [-> _]. exact H1.
Qed.

Lemma Forall2_framed_length (aid : jsstring) (a b : list Message) :
  Forall2 (framed aid) a b -> List.length b = List.length a.
Proof. induction 1; cbn [List.length]; congruence. Qed.

(** Messages whose identifier is not the placeholder's come out of the
    streaming updates as they went in. *)
Lemma Forall2_framed_eq (aid : jsstring) (a b : list Message) :
  Forall2 (framed aid) a b -> Forall (fun m => id m <> aid) a -> b = a.
Proof.
  induction 1 as [|x y a b (Hi & Hr & Hc) _ IH]; intros Ha; [reflexivity|].
  inversion Ha as [|? ? Hx Ha']; subst. rewrite (IH Ha'). f_equal.
  specialize (Hc Hx). destruct x, y. cbn in *. congruence.
Qed.

(** ** Submissions while a call is in flight *)

(** Once [isLoading] is set, submissions do not change it: every call
    returns at the guard, which is placed before the [try] block, so that
    the [finally] block does not run for it. *)
Lemma locked_session (handle : Env -> State -> Run) :
  (forall e st, guard st = true ->
     created (handle e st) = [] /\ final (handle e st) = st) ->
  forall xs s,
    isLoading s = true ->
    messages (fst (session handle s xs)) = messages s
    /\ isLoading (fst (session handle s xs)) = true
    /\ snd (session handle s xs) = [].
Proof.
  intros Hrej xs. induction xs as [|x xs IH]; intros s Hl.
  - cbn. auto.
  - cbn [session].
    set (s' := {| messages := messages s; input := typed x;
                  isLoading := isLoading s |}).
    assert (Hg : guard s' = true).
    { unfold guard. cbn [input isLoading s']. rewrite Hl.
      apply orb_true_r. }
    destruct (Hrej (env x) s' Hg) as [-> ->].
    destruct (IH s' Hl) as (H1 & H2 & H3).
    destruct (session handle s' xs) as [s'' log]. cbn [fst snd app] in *.
    auto.
Qed.

(** X4. A call in flight locks its component against submissions, and
    submissions cannot unlock it: from the state at any [await] of an
    accepted call, every run of submissions, whatever is typed, leaves the
    conversation as it is and [isLoading] set, and appends no message.
    The handler sets no timeout and passes no abort signal to [fetch], so
    [isLoading] is reset by the [finally] block of the call in flight
    only. *)
Theorem call_in_flight_locks_submissions (env : Env) (st s s' : State)
    (xs : list Exchange) :
  In s (awaits (DevNinja.handleSendMessage env st)) ->
  In s' (awaits (OllamaChat.handleSendMessage env st)) ->
  (messages (fst (session DevNinja.handleSendMessage s xs)) = messages s
   /\ isLoading (fst (session DevNinja.handleSendMessage s xs)) = true
   /\ snd (session DevNinja.handleSendMessage s xs) = [])
  /\ (messages (fst (session OllamaChat.handleSendMessage s' xs)) =
        messages s'
      /\ isLoading (fst (session OllamaChat.handleSendMessage s' xs)) = true
      /\ snd (session OllamaChat.handleSendMessage s' xs) = []).
Proof.
  intros Hs Hs'. split.
  - apply (locked_session DevNinja.handleSendMessage
             (fun e t Hg => proj1 (@rejected_call e t Hg))).
    apply (@awaits_are_loading env st s). now left.
  - apply (locked_session OllamaChat.handleSendMessage
             (fun e t Hg => proj2 (@rejected_call e t Hg))).
    apply (@awaits_are_loading env st s'). now right.
Qed.

Lemma call_in_flight_locks_submissions_witness :
  let cs := [bytes (quoted "{'response':'Hi'}") ++ bytes LF;
             bytes (quoted "{'response':'!'}") ++ bytes LF] in
  let env := {| now_user := 1700000000000; now_assistant := 1700000000000;
                fetch := streams cs Done; now_error := 1700000000500 |} in
  let st := {| messages := []; input := JS.lit "Hello";
               isLoading := false |} in
  let s := inFlight [userMessage env st;
                     {| id := assistantMessageId env; role := assistant;
                        content := JS.lit "Hi" |}] in
  let again := {| typed := JS.lit "Are you there?";
                  env := {| now_user := 1700000009000;
                            now_assistant := 1700000009000;
                            fetch := streams cs Done;
                            now_error := 1700000009500 |} |} in
  (In s (awaits (DevNinja.handleSendMessage env st))
   /\ In s (awaits (OllamaChat.handleSendMessage env st)))
  /\ session DevNinja.handleSendMessage s [again; again] =
     ({| messages := messages s; input := JS.lit "Are you there?";
         isLoading := true |}, [])
  /\ session OllamaChat.handleSendMessage s [again; again] =
     ({| messages := messages s; input := JS.lit "Are you there?";
         isLoading := true |}, []).
Proof.
  intros cs env st s again.
  assert (Hs : In s (awaits (DevNinja.handleSendMessage env st)))
    by (vm_compute; right; right; left; reflexivity).
  assert (Hs' : In s (awaits (OllamaChat.handleSendMessage env st)))
    by (vm_compute; right; right; left; reflexivity).
  destruct (call_in_flight_locks_submissions env st s s [again; again]
              Hs Hs') as [(A1 & A2 & A3) (B1 & B2 & B3)].
  split; [split; assumption|].
  split; vm_compute; reflexivity.
Defined.

(** ** History *)

Lemma userMessage_id (env : Env) (st : State) :
  (now_user env <= now_assistant env)%N ->
  id (userMessage env st) <> assistantMessageId env.
Proof.
  intros H E. apply toString_inj in E. lia.
Qed.

(** X5. An exchange only appends: when no earlier message has the
    identifier of the new placeholder and the clock has not run backwards
    between the two readings, the conversation after an accepted call is
    the conversation before it, unchanged, followed by the user message
    with the input as typed and then the assistant's part: one message in
    "Dev Ninja AI" (the reply or the error), one or two in "Ollama Chat"
    (the reply, and the error after it). *)
Theorem exchange_appends_to_history (env : Env) (st : State) :
  guard st = false ->
  Forall (fun m => id m <> assistantMessageId env) (messages st) ->
  (now_user env <= now_assistant env)%N ->
  (exists reply,
     messages (final (DevNinja.handleSendMessage env st)) =
       messages st ++ [userMessage env st; reply]
     /\ role reply = assistant)
  /\ (exists replies,
        messages (final (OllamaChat.handleSendMessage env st)) =
          messages st ++ userMessage env st :: replies
        /\ Forall (fun m => role m = assistant) replies
        /\ 1 <= List.length replies <= 2).
Proof.
  intros Hg Hh Hc.
  assert (Hall : Forall (fun m => id m <> assistantMessageId env)
                        (messages st ++ [userMessage env st])).
  { apply Forall_app. split; [exact Hh|].
    constructor; [now apply userMessage_id | constructor]. }
  split.
  - destruct (@DevNinja_run env st Hg) as [-> _].
    destruct (reply_shape env st
                (handledOf handledByDevNinja (fetch env)))
      as (before & -> & HF).
    apply Forall2_framed_eq in HF; [|exact Hall]. subst before.
    cbn [messages]. destruct (thrown (fetch env)) as [x|].
    + rewrite removelast_last, <- app_assoc. eexists; split; reflexivity.
    + rewrite <- app_assoc. eexists; split; reflexivity.
  - destruct (@OllamaChat_run env st Hg) as [-> _].
    destruct (reply_shape env st
                (handledOf handledByOllamaChat (fetch env)))
      as (before & -> & HF).
    apply Forall2_framed_eq in HF; [|exact Hall]. subst before.
    cbn [messages]. destruct (thrown (fetch env)) as [x|].
    + rewrite <- !app_assoc. cbn [app]. eexists; split; [reflexivity|].
      split; [repeat constructor | cbn [List.length]; lia].
    + rewrite <- !app_assoc. cbn [app]. eexists; split; [reflexivity|].
      split; [repeat constructor | cbn [List.length]; lia].
Qed.

Lemma exchange_appends_to_history_witness :
  let earlier := [{| id := JS.lit "1699999990000"; role := user;
                     content := JS.lit "Hello" |};
                  {| id := JS.lit "1699999990001"; role := assistant;
                     content := JS.lit "Hi" |}] in
  let env := {| now_user := 1700000000000; now_assistant := 1700000000000;
                fetch := streams [bytes (quoted "{'response':'Fine'}")
                                  ++ bytes LF] Done;
                now_error := 1700000000500 |} in
  let st := {| messages := earlier; input := JS.lit "  How are you? ";
               isLoading := false |} in
  (guard st = false
   /\ Forall (fun m => id m <> assistantMessageId env) (messages st)
   /\ (now_user env <= now_assistant env)%N)
  /\ exists reply,
       messages (final (DevNinja.handleSendMessage env st)) =
         earlier ++ [{| id := JS.lit "1700000000000"; role := user;
                        content := JS.lit "  How are you? " |}; reply]
       /\ role reply = assistant.
Proof.
  intros earlier env st.
  assert (Hg : guard st = false) by reflexivity.
  assert (Hh : Forall (fun m => id m <> assistantMessageId env)
                      (messages st))
    by (repeat constructor; discriminate).
  assert (Hc : (now_user env <= now_assistant env)%N) by (cbn; lia).
  destruct (@exchange_appends_to_history env st Hg Hh Hc) as [HA _].
  split; [auto|]. exact HA.
Defined.

(** ** The placeholder while the stream is read *)

Lemma DevNinja_onChunk_lines (aid : jsstring) (l : DevNinja.Loop)
    (c : TextDecoder.chunk) :
  exists ls,
    DevNinja.reply (DevNinja.onChunk aid l c) =
    fold_left (onLine aid) ls (DevNinja.reply l).
Proof.
  unfold DevNinja.onChunk. destruct (TextDecoder.decode _ c) as [d t].
  cbn [DevNinja.reply]. rewrite forLines_filter. now eexists.
Qed.

Lemma OllamaChat_onChunk_lines (aid : jsstring) (l : OllamaChat.Loop)
    (c : TextDecoder.chunk) :
  exists ls,
    OllamaChat.reply (OllamaChat.onChunk aid l c) =
    fold_left (onLine aid) ls (OllamaChat.reply l).
Proof.
  unfold OllamaChat.onChunk. destruct (TextDecoder.decode _ c) as [d t].
  cbn [OllamaChat.reply]. now eexists.
Qed.

Lemma startsWith_refl (a : jsstring) : startsWith a a.
Proof. exists []. now rewrite app_nil_r. Qed.

(** In a read loop whose iterations hand lines to [onLine], the content of
    the placeholder at one [await] starts with its content at the [await]
    before, and every conversation seen is the first one, framed, with the
    placeholder last. *)
Lemma scan_grows {L : Type} (onChunk : L -> TextDecoder.chunk -> L)
    (reply : L -> Reply) (aid : jsstring) :
  (forall l c, exists ls,
      reply (onChunk l c) = fold_left (onLine aid) ls (reply l)) ->
  forall cs l,
    showsReply aid (reply l) ->
    Sorted startsWith
      (lastContent (shown (reply l))
       :: List.map (fun l' => lastContent (shown (reply l')))
                   (scan onChunk l cs))
    /\ Forall (fun l' => showsReply aid (reply l')
                         /\ Forall2 (framed aid) (shown (reply l))
                                    (shown (reply l')))
              (scan onChunk l cs).
Proof.
  intros Hstep cs; induction cs as [|c cs IH]; intros l Hl.
  - split; repeat constructor.
  - cbn [scan List.map].
    destruct (Hstep l c) as (ls & E).
    assert (Hl' : showsReply aid (reply (onChunk l c)))
      by (rewrite E; now apply fold_onLine_shows).
    assert (HF : Forall2 (framed aid) (shown (reply l))
                         (shown (reply (onChunk l c))))
      by (rewrite E; apply (fold_framed (onLine aid) (onLine_framed aid))).
    destruct (IH (onChunk l c) Hl') as [IH1 IH2]. split.
    + constructor; [exact IH1|]. constructor.
      rewrite (showsReply_last Hl), (showsReply_last Hl'), E.
      rewrite fold_onLine_full. now eexists.
    + constructor; [now split|].
      eapply Forall_impl; [|exact IH2]. cbn beta. intros l' [H1 H2].
      split; [exact H1|]. eapply framed_trans; eassumption.
Qed.

Lemma attempt_seen {L : Type} (start : list Message -> L)
    (onChunk : L -> TextDecoder.chunk -> L) (reply : L -> Reply)
    (aid : jsstring) (f : Fetch) (prev : list Message) :
  (forall l c, exists ls,
      reply (onChunk l c) = fold_left (onLine aid) ls (reply l)) ->
  reply (start prev) = {| fullResponse := []; shown := prev |} ->
  showsReply aid {| fullResponse := []; shown := prev |} ->
  Sorted startsWith
    (List.map lastContent (fst (fst (attempt start onChunk reply f prev))))
  /\ Forall (fun msgs => Forall2 (framed aid) prev msgs)
            (fst (fst (attempt start onChunk reply f prev))).
Proof.
  intros Hstep Hs Hp.
  assert (One : Sorted startsWith (List.map lastContent [prev])
                /\ Forall (fun msgs => Forall2 (framed aid) prev msgs) [prev])
    by (split; repeat constructor; apply framed_refl).
  destruct f as [x|ok sT body]; [exact One|].
  destruct ok; [|exact One]. destruct body as [[cs en]|]; [|exact One].
  cbn [attempt fst chunks].
  assert (Hp' : showsReply aid (reply (start prev))) by now rewrite Hs.
  destruct (@scan_grows _ onChunk reply aid Hstep cs (start prev) Hp')
    as [H1 H2].
  rewrite Hs in H1, H2. cbn [shown] in H1, H2. split.
  - cbn [List.map]. rewrite map_map. constructor; [exact H1|].
    constructor. apply startsWith_refl.
  - constructor; [apply framed_refl|]. constructor; [apply framed_refl|].
    rewrite Forall_map. eapply Forall_impl; [|exact H2].
    cbn beta. now intros l' [_ H].
Qed.

Lemma DevNinja_awaits (env : Env) (st : State) :
  guard st = false ->
  awaits (DevNinja.handleSendMessage env st) =
  List.map inFlight
    (fst (fst (attempt DevNinja.start
                       (DevNinja.onChunk (assistantMessageId env))
                       DevNinja.reply (fetch env) (opened env st)))).
Proof.
  intros Hg. unfold DevNinja.handleSendMessage. rewrite Hg.
  now destruct (attempt _ _ _ _ _) as [[seen msgs] [x|]].
Qed.

Lemma OllamaChat_awaits (env : Env) (st : State) :
  guard st = false ->
  awaits (OllamaChat.handleSendMessage env st) =
  List.map inFlight
    (fst (fst (attempt OllamaChat.start
                       (OllamaChat.onChunk (assistantMessageId env))
                       OllamaChat.reply (fetch env) (opened env st)))).
Proof.
  intros Hg. unfold OllamaChat.handleSendMessage. rewrite Hg.
  now destruct (attempt _ _ _ _ _) as [[seen msgs] [x|]].
Qed.

(** X6. While a reply streams in, its text only grows: from one [await]
    of a call to the next, the content of the last message starts with
    the content it had before; no update shortens or rewrites what was
    shown.  Both components, for every outcome of [fetch] and every cut of
    the bytes into chunks. *)
Theorem streamed_content_only_grows (env : Env) (st : State) :
  Sorted startsWith
    (List.map (fun s => lastContent (messages s))
              (awaits (DevNinja.handleSendMessage env st)))
  /\ Sorted startsWith
       (List.map (fun s => lastContent (messages s))
                 (awaits (OllamaChat.handleSendMessage env st))).
Proof.
  destruct (guard st) eqn:Hg.
  - unfold DevNinja.handleSendMessage, OllamaChat.handleSendMessage.
    rewrite Hg. split; constructor.
  - rewrite (@DevNinja_awaits env st Hg), (@OllamaChat_awaits env st Hg).
    rewrite !map_map. cbn [inFlight messages]. split.
    + apply (@attempt_seen _ DevNinja.start
               (DevNinja.onChunk (assistantMessageId env)) DevNinja.reply
               (assistantMessageId env) (fetch env) (opened env st)
               (DevNinja_onChunk_lines (assistantMessageId env))
               eq_refl (opened_shows env st)).
    + apply (@attempt_seen _ OllamaChat.start
               (OllamaChat.onChunk (assistantMessageId env)) OllamaChat.reply
               (assistantMessageId env) (fetch env) (opened env st)
               (OllamaChat_onChunk_lines (assistantMessageId env))
               eq_refl (opened_shows env st)).
Qed.

(** ** The end of the text and the cut into chunks *)

Lemma split_LF_whole (s : jsstring) :
  ~ In JS.LF s -> JS.split_LF s = [s].
Proof.
  induction s as [|c s IH]; intros H; [reflexivity|].
  cbn [JS.split_LF]. destruct (c =? JS.LF)%N eqn:Hc.
  - apply N.eqb_eq in Hc. exfalso. apply H. now left.
  - rewrite IH; [reflexivity|]. intros Hin. apply H. now right.
Qed.

Lemma last_split_LF_clean (a : jsstring) :
  ~ In JS.LF (last (JS.split_LF a) []).
Proof.
  induction a as [|x a IH]; [intros []|].
  cbn [JS.split_LF].
  destruct (split_LF_cons a) as (l & ls & Ea). rewrite Ea in *.
  destruct (x =? JS.LF)%N eqn:Hx; [exact IH|].
  destruct ls as [|l2 ls]; [|exact IH].
  cbn [last] in *. intros [E|Hin]; [|now apply IH].
  subst x. now rewrite N.eqb_refl in Hx.
Qed.

Lemma handledByDevNinja_tail (cs cs' : list TextDecoder.chunk)
    (tail : jsstring) :
  ~ In JS.LF tail -> decoded cs' = decoded cs ++ tail ->
  handledByDevNinja cs' = handledByDevNinja cs.
Proof.
  intros Ht E. unfold handledByDevNinja. rewrite E, removelast_split_LF_app.
  rewrite (@split_LF_whole (last (JS.split_LF (decoded cs)) [] ++ tail)).
  - cbn [removelast]. now rewrite app_nil_r.
  - intros Hin. apply in_app_or in Hin as [Hin|Hin]; [|now apply Ht].
    now apply (last_split_LF_clean (decoded cs)).
Qed.

(** X7. "Dev Ninja AI" handles a line only once its line feed has
    arrived, and the loop does not look at [buffer] when the stream ends:
    text after the last line feed of the stream, be it a complete frame,
    has no effect on the conversation, the outcome or the messages
    appended. *)
Theorem DevNinja_ignores_unterminated_tail (env : Env) (st : State)
    (cs cs' : list TextDecoder.chunk) (tail : jsstring) (en : StreamEnd) :
  ~ In JS.LF tail ->
  decoded cs' = decoded cs ++ tail ->
  final (DevNinja.handleSendMessage (withFetch env (streams cs' en)) st) =
    final (DevNinja.handleSendMessage (withFetch env (streams cs en)) st)
  /\ outcome (DevNinja.handleSendMessage (withFetch env (streams cs' en)) st) =
     outcome (DevNinja.handleSendMessage (withFetch env (streams cs en)) st)
  /\ created (DevNinja.handleSendMessage (withFetch env (streams cs' en)) st) =
     created (DevNinja.handleSendMessage (withFetch env (streams cs en)) st).
Proof.
  intros Ht E. apply (@DevNinja_same_lines env st cs cs' en).
  intros aid r. now rewrite (handledByDevNinja_tail cs cs' tail Ht E).
Qed.

Lemma DevNinja_ignores_unterminated_tail_witness :
  let cs := [bytes (quoted "{'response':'Hi','done':false}") ++ bytes LF] in
  let cs' := [bytes (quoted "{'response':'Hi','done':false}") ++ bytes LF;
              bytes (quoted "{'response':' there','done':true}")] in
  let tail := JS.lit (quoted "{'response':' there','done':true}") in
  let env := {| now_user := 1700000000000; now_assistant := 1700000000000;
                fetch := FetchRejects OtherValue;
                now_error := 1700000000500 |} in
  let st := {| messages := []; input := JS.lit "Hello";
               isLoading := false |} in
  (~ In JS.LF tail /\ decoded cs' = decoded cs ++ tail
   /\ delta tail = Some (JS.lit " there"))
  /\ lastContent
       (messages (final (DevNinja.handleSendMessage
                           (withFetch env (streams cs' Done)) st))) =
     JS.lit "Hi"
  /\ lastContent
       (messages (final (OllamaChat.handleSendMessage
                           (withFetch env (streams cs' Done)) st))) =
     JS.lit "Hi there".
Proof.
  intros cs cs' tail env st.
  assert (Ht : ~ In JS.LF tail)
    by (intros H; vm_compute in H; intuition discriminate).
  assert (E : decoded cs' = decoded cs ++ tail) by (vm_compute; reflexivity).
  destruct (@DevNinja_ignores_unterminated_tail env st cs cs' tail Done Ht E)
    as [H _].
  split; [split; [exact Ht | split; [exact E | vm_compute; reflexivity]]|].
  split; [rewrite H|]; vm_compute; reflexivity.
Defined.

Lemma decoded_texts (d : TextDecoder.t) (cs : list TextDecoder.chunk) :
  snd (TextDecoder.decode d (concat cs)) = concat (texts d cs).
Proof.
  revert d; induction cs as [|c cs IH]; intros d; cbn [concat texts].
  - now rewrite decode_nil.
  - rewrite decode_app. destruct (TextDecoder.decode d c) as [d1 t1].
    specialize (IH d1).
    destruct (TextDecoder.decode d1 (concat cs)) as [d2 t2].
    cbn [snd concat] in *. now rewrite IH.
Qed.

Lemma whole_line_pieces (t : jsstring) :
  endsLine t = true ->
  filter (fun line => JS.truthy (JS.trim line)) (JS.split_LF t) =
  filter (fun line => JS.truthy (JS.trim line)) (removelast (JS.split_LF t)).
Proof.
  intros H. destruct (split_LF_cons t) as (l & ls & E).
  rewrite (@app_removelast_last _ (JS.split_LF t) []) at 1
    by (rewrite E; discriminate).
  rewrite (endsLine_last t H), filter_app. cbn. now rewrite app_nil_r.
Qed.

Lemma whole_line_chunks (ts : list jsstring) :
  Forall (fun t => endsLine t = true) ts ->
  filter (fun line => JS.truthy (JS.trim line))
         (removelast (JS.split_LF (concat ts))) =
  concat (List.map (fun t => filter (fun line => JS.truthy (JS.trim line))
                                    (JS.split_LF t)) ts).
Proof.
  induction 1 as [|t ts Ht _ IH]; [reflexivity|].
  cbn [concat List.map]. rewrite (@split_LF_after_line t (concat ts) Ht).
  destruct (split_LF_cons (concat ts)) as (k & ks & Ek).
  rewrite removelast_app by (rewrite Ek; discriminate).
  now rewrite filter_app, IH, (whole_line_pieces t Ht).
Qed.

(** X8. When every chunk ends where a line ends, the two read loops
    handle the same lines in the same order, and a stream that ends
    normally leaves the same state in both components: the buffer of
    "Dev Ninja AI" makes a difference only for lines cut by a chunk
    boundary. *)
Theorem components_agree_on_whole_line_chunks (env : Env) (st : State)
    (cs : list TextDecoder.chunk) :
  Forall (fun t => endsLine t = true) (texts TextDecoder.create cs) ->
  handledByOllamaChat cs = handledByDevNinja cs
  /\ final (OllamaChat.handleSendMessage (withFetch env (streams cs Done)) st) =
     final (DevNinja.handleSendMessage (withFetch env (streams cs Done)) st).
Proof.
  intros H.
  assert (E : handledByOllamaChat cs = handledByDevNinja cs).
  { unfold handledByOllamaChat, handledByDevNinja, decoded.
    now rewrite decoded_texts, whole_line_chunks. }
  split; [exact E|].
  destruct (guard st) eqn:Hg.
  - unfold OllamaChat.handleSendMessage, DevNinja.handleSendMessage.
    now rewrite Hg.
  - destruct (@OllamaChat_streamed (withFetch env (streams cs Done)) st
                (JS.lit "OK") cs Done Hg eq_refl) as (-> & _).
    destruct (@DevNinja_streamed (withFetch env (streams cs Done)) st
                (JS.lit "OK") cs Done Hg eq_refl) as (-> & _).
    now rewrite E.
Qed.

Lemma components_agree_on_whole_line_chunks_witness :
  let cs := [bytes (quoted "{'response':'Hi'}") ++ bytes LF
             ++ bytes (quoted "{'response':' there'}") ++ bytes LF;
             bytes LF;
             bytes (quoted "{'response':'!','done':true}") ++ bytes LF] in
  let env := {| now_user := 1700000000000; now_assistant := 1700000000000;
                fetch := FetchRejects OtherValue;
                now_error := 1700000000500 |} in
  let st := {| messages := []; input := JS.lit "Hello";
               isLoading := false |} in
  Forall (fun t => endsLine t = true) (texts TextDecoder.create cs)
  /\ final (OllamaChat.handleSendMessage (withFetch env (streams cs Done)) st) =
     final (DevNinja.handleSendMessage (withFetch env (streams cs Done)) st)
  /\ lastContent
       (messages (final (DevNinja.handleSendMessage
                           (withFetch env (streams cs Done)) st))) =
     JS.lit "Hi there!".
Proof.
  intros cs env st.
  assert (H : Forall (fun t => endsLine t = true)
                     (texts TextDecoder.create cs))
    by (vm_compute; repeat constructor).
  destruct (@components_agree_on_whole_line_chunks env st cs H) as [_ E].
  split; [exact H|]. split; [exact E|]. vm_compute; reflexivity.
Defined.

(** ** The updater *)

Lemma eqb_neq (a b : jsstring) : a <> b -> JS.eqb a b = false.
Proof.
  intros H. destruct (JS.eqb a b) eqn:E; [|reflexivity].
  apply eqb_eq in E. contradiction.
Qed.

(** X9. A streaming update for an identifier that no message of the
    conversation carries changes nothing: the conversation comes back as
    it was. *)
Theorem setContent_absent_id (aid full : jsstring) (prev : list Message) :
  Forall (fun m => id m <> aid) prev ->
  setContent aid full prev = prev.
Proof.
  induction 1 as [|m prev Hm _ IH]; [reflexivity|].
  cbn [setContent List.map]. fold (setContent aid full prev).
  now rewrite IH, (eqb_neq _ _ Hm).
Qed.

Lemma setContent_absent_id_witness :
  let prev := [{| id := JS.lit "1700000000000"; role := user;
                  content := JS.lit "Hello" |};
               {| id := JS.lit "1700000000001"; role := assistant;
                  content := JS.lit "Hi" |}] in
  Forall (fun m => id m <> JS.lit "1700000000002") prev
  /\ setContent (JS.lit "1700000000002") (JS.lit "lost") prev = prev.
Proof.
  intros prev.
  assert (H : Forall (fun m => id m <> JS.lit "1700000000002") prev)
    by (repeat constructor; discriminate).
  split; [exact H|].
  exact (@setContent_absent_id (JS.lit "1700000000002") (JS.lit "lost")
           prev H).
Defined.

(** X10. Of two streaming updates for the same identifier the later one
    decides: the content of the first is overwritten in every message it
    had reached, and no other message is touched by either. *)
Theorem setContent_overrides (aid a b : jsstring) (prev : list Message) :
  setContent aid b (setContent aid a prev) = setContent aid b prev.
Proof.
  unfold setContent. rewrite map_map. apply map_ext. intros m.
  destruct (JS.eqb (id m) aid) eqn:E; cbn [id role]; now rewrite E.
Qed.

(** ** After a failure *)

(** X11. After a call that ended in the [catch] block the last message of
    the conversation is the error message, in both components: an
    assistant message whose content is the prefix of the component and
    then the [message] of the thrown [Error] (for a status that is not
    [ok], the words [API error: ] and the status text) or, for a thrown
    value that is no [Error], the words [Failed to get response]. *)
Theorem errored_call_ends_with_error_message (env : Env) (st : State)
    (e : Thrown) :
  guard st = false ->
  thrown (fetch env) = Some e ->
  last (messages (final (DevNinja.handleSendMessage env st)))
       (userMessage env st) =
    {| id := JS.toString (now_error env); role := assistant;
       content := [226; 338; 32]%N ++ JS.lit "Error: " ++ describe e |}
  /\ last (messages (final (OllamaChat.handleSendMessage env st)))
          (userMessage env st) =
     {| id := JS.toString (now_error env + 2); role := assistant;
        content := JS.lit "Error: " ++ describe e |}.
Proof.
  intros Hg Ht. split.
  - destruct (DevNinja_run env st Hg) as [-> _]. rewrite Ht.
    cbn [messages]. now rewrite last_last.
  - destruct (OllamaChat_run env st Hg) as [-> _]. rewrite Ht.
    cbn [messages]. now rewrite last_last.
Qed.

Lemma errored_call_ends_with_error_message_witness :
  let env := {| now_user := 1700000000000; now_assistant := 1700000000000;
                fetch := Response false (JS.lit "Not Found")
                           (Some {| chunks := [bytes "ignored"];
                                    ending := Done |});
                now_error := 1700000000040 |} in
  let st := {| messages := []; input := JS.lit "Hello";
               isLoading := false |} in
  (guard st = false
   /\ thrown (fetch env) =
        Some (ErrorObject (JS.lit "API error: " ++ JS.lit "Not Found")))
  /\ content (last (messages (final (OllamaChat.handleSendMessage env st)))
                   (userMessage env st)) =
     JS.lit "Error: API error: Not Found"
  /\ content (last (messages (final (DevNinja.handleSendMessage env st)))
                   (userMessage env st)) =
     [226; 338; 32]%N ++ JS.lit "Error: API error: Not Found".
Proof.
  intros env st.
  assert (Hg : guard st = false) by reflexivity.
  assert (Ht : thrown (fetch env) =
               Some (ErrorObject (JS.lit "API error: " ++ JS.lit "Not Found")))
    by reflexivity.
  destruct (errored_call_ends_with_error_message env st _ Hg Ht) as [HA HB].
  split; [split; assumption|]. split; [rewrite HB | rewrite HA]; reflexivity.
Defined.

(** X12. In "Ollama Chat" a failure does not take back what was shown:
    after a call that ended in the [catch] block the placeholder is still
    in the conversation, with everything the lines handled before the
    failure have added, and the error message follows it. *)
Theorem OllamaChat_error_keeps_partial_reply (env : Env) (st : State)
    (e : Thrown) :
  guard st = false ->
  thrown (fetch env) = Some e ->
  exists before,
    Forall2 (framed (assistantMessageId env))
            (messages st ++ [userMessage env st]) before
    /\ messages (final (OllamaChat.handleSendMessage env st)) =
       before
       ++ [{| id := assistantMessageId env; role := assistant;
              content := deltas (handledOf handledByOllamaChat (fetch env)) |};
           OllamaChat.errorMessage (now_error env) e].
Proof.
  intros Hg Ht.
  destruct (OllamaChat_run env st Hg) as [-> _]. rewrite Ht.
  destruct (reply_shape env st (handledOf handledByOllamaChat (fetch env)))
    as (before & -> & HF).
  exists before. split; [exact HF|]. cbn [messages].
  now rewrite <- app_assoc.
Qed.

Lemma OllamaChat_error_keeps_partial_reply_witness :
  let cs := [bytes (quoted "{'response':'Once upon'}") ++ bytes LF;
             bytes (quoted "{'response':' a time'}") ++ bytes LF] in
  let e := ErrorObject (JS.lit "network error") in
  let env := {| now_user := 1700000000000; now_assistant := 1700000000000;
                fetch := streams cs (ReadRejects e);
                now_error := 1700000000900 |} in
  let st := {| messages := []; input := JS.lit "Tell me a story";
               isLoading := false |} in
  (guard st = false /\ thrown (fetch env) = Some e)
  /\ List.map content (messages (final (OllamaChat.handleSendMessage env st))) =
     [JS.lit "Tell me a story"; JS.lit "Once upon a time";
      JS.lit "Error: network error"]
  /\ List.map content (messages (final (DevNinja.handleSendMessage env st))) =
     [JS.lit "Tell me a story";
      [226; 338; 32]%N ++ JS.lit "Error: network error"].
Proof.
  intros cs e env st.
  assert (Hg : guard st = false) by reflexivity.
  assert (Ht : thrown (fetch env) = Some e) by reflexivity.
  destruct (OllamaChat_error_keeps_partial_reply env st e Hg Ht)
    as (before & _ & H).
  split; [split; assumption|]. split; vm_compute; reflexivity.
Defined.

(** ** Turns *)

Lemma framed_roles (aid : jsstring) (a b : list Message) :
  Forall2 (framed aid) a b -> List.map role b = List.map role a.
Proof.
  induction 1 as [|x y a b (_ & Hr & _) _ IH]; [reflexivity|].
  cbn [List.map]. now rewrite Hr, IH.
Qed.

Lemma framed_ids (aid : jsstring) (a b : list Message) :
  Forall2 (framed aid) a b -> List.map id b = List.map id a.
Proof.
  induction 1 as [|x y a b (Hi & _) _ IH]; [reflexivity|].
  cbn [List.map]. now rewrite Hi, IH.
Qed.

Lemma DevNinja_roles (env : Env) (st : State) :
  guard st = false ->
  List.map role (messages (final (DevNinja.handleSendMessage env st))) =
  List.map role (messages st) ++ [user; assistant].
Proof.
  intros Hg. destruct (DevNinja_run env st Hg) as [-> _].
  destruct (reply_shape env st (handledOf handledByDevNinja (fetch env)))
    as (before & -> & HF).
  apply framed_roles in HF. rewrite map_app in HF. cbn [List.map] in HF.
  cbn [messages]. destruct (thrown (fetch env)).
  - rewrite removelast_last, map_app, HF, <- app_assoc. reflexivity.
  - rewrite map_app, HF, <- app_assoc. reflexivity.
Qed.

Lemma alternating_app (n : nat) :
  forall rs, List.length rs <= n -> alternating rs = true ->
             alternating (rs ++ [user; assistant]) = true.
Proof.
  induction n as [|n IH]; intros rs Hn H.
  - destruct rs; [reflexivity | cbn [List.length] in Hn; lia].
  - destruct rs as [|[] [|[] rs]]; try discriminate; [reflexivity|].
    cbn [app alternating] in *. apply IH; [cbn [List.length] in Hn; lia|].
    exact H.
Qed.

(** X13. In "Dev Ninja AI" the conversation keeps the shape of a
    dialogue: from a conversation in which user and assistant alternate
    (the empty one, to begin with), any run of submissions, accepted or
    rejected, answered or failed, leaves a conversation in which they
    alternate, and leaves [isLoading] reset. *)
Theorem DevNinja_turns_alternate (xs : list Exchange) (st : State) :
  isLoading st = false ->
  alternating (List.map role (messages st)) = true ->
  alternating
    (List.map role
       (messages (fst (session DevNinja.handleSendMessage st xs)))) = true
  /\ isLoading (fst (session DevNinja.handleSendMessage st xs)) = false.
Proof.
  revert st; induction xs as [|x xs IH]; intros st Hl Ha; [now split|].
  cbn [session].
  set (st' := {| messages := messages st; input := typed x;
                 isLoading := isLoading st |}).
  assert (H : isLoading (final (DevNinja.handleSendMessage (env x) st'))
              = false
              /\ alternating
                   (List.map role
                      (messages (final (DevNinja.handleSendMessage
                                          (env x) st')))) = true).
  { destruct (guard st') eqn:Hg.
    - unfold DevNinja.handleSendMessage. rewrite Hg. cbn. now split.
    - rewrite (DevNinja_roles (env x) st' Hg).
      destruct (DevNinja_run (env x) st' Hg) as [-> _]. split; [reflexivity|].
      now apply (alternating_app (List.length (List.map role (messages st')))). }
  destruct H as [Hl' Ha'].
  specialize (IH (final (DevNinja.handleSendMessage (env x) st')) Hl' Ha').
  now destruct (session DevNinja.handleSendMessage
                  (final (DevNinja.handleSendMessage (env x) st')) xs).
Qed.

Lemma DevNinja_turns_alternate_witness :
  let failing :=
    {| typed := JS.lit "Hello";
       env := {| now_user := 1700000000000; now_assistant := 1700000000000;
                 fetch := FetchRejects (ErrorObject (JS.lit "Failed to fetch"));
                 now_error := 1700000000120 |} |} in
  let blankInput :=
    {| typed := [32; 32]%N;
       env := {| now_user := 1700000002000; now_assistant := 1700000002000;
                 fetch := FetchRejects OtherValue;
                 now_error := 1700000002000 |} |} in
  let answered :=
    {| typed := JS.lit "Again";
       env := {| now_user := 1700000004000; now_assistant := 1700000004000;
                 fetch := streams [bytes (quoted "{'response':'Hi','done':true}")
                                   ++ bytes LF] Done;
                 now_error := 0 |} |} in
  let st := {| messages := []; input := []; isLoading := false |} in
  (isLoading st = false /\ alternating (List.map role (messages st)) = true)
  /\ List.map role
       (messages (fst (session DevNinja.handleSendMessage st
                               [failing; blankInput; answered]))) =
     [user; assistant; user; assistant]
  /\ List.map role
       (messages (fst (session OllamaChat.handleSendMessage st
                               [failing; blankInput; answered]))) =
     [user; assistant; assistant; user; assistant].
Proof.
  intros failing blankInput answered st.
  assert (Hl : isLoading st = false) by reflexivity.
  assert (Ha : alternating (List.map role (messages st)) = true)
    by reflexivity.
  destruct (DevNinja_turns_alternate [failing; blankInput; answered] st Hl Ha)
    as [H _].
  split; [split; assumption|]. split; vm_compute; reflexivity.
Defined.

(** ** The view *)

Lemma sendDisabled_guard (st : State) :
  sendDisabled (DevNinjaView.render st) = guard st
  /\ sendDisabled (OllamaChatView.render st) = guard st.
Proof.
  unfold guard. cbn [DevNinjaView.render OllamaChatView.render sendDisabled].
  split; apply orb_comm.
Qed.

Lemma outcome_rejected (env : Env) (st : State) :
  (outcome (DevNinja.handleSendMessage env st) = Rejected <-> guard st = true)
  /\ (outcome (OllamaChat.handleSendMessage env st) = Rejected <->
      guard st = true).
Proof.
  destruct (guard st) eqn:Hg.
  - unfold DevNinja.handleSendMessage, OllamaChat.handleSendMessage.
    rewrite Hg. now split.
  - destruct (DevNinja_run env st Hg) as [_ ->].
    destruct (OllamaChat_run env st Hg) as [_ ->].
    destruct (thrown (fetch env)); split; split; discriminate.
Qed.

(** X14. The send button and the handler agree, in both components: the
    button is disabled in exactly the states in which a call of
    [handleSendMessage] returns at its guard, so an enabled button never
    leads to a call without effect, and a disabled one never hides a
    submission that would go through. *)
Theorem send_button_matches_guard (env : Env) (st : State) :
  (sendDisabled (DevNinjaView.render st) = true <->
   outcome (DevNinja.handleSendMessage env st) = Rejected)
  /\ (sendDisabled (OllamaChatView.render st) = true <->
      outcome (OllamaChat.handleSendMessage env st) = Rejected).
Proof.
  destruct (sendDisabled_guard st) as [-> ->].
  destruct (outcome_rejected env st) as [HA HB]. now rewrite HA, HB.
Qed.

Lemma awaits_framed (env : Env) (st s : State) :
  In s (awaits (DevNinja.handleSendMessage env st))
  \/ In s (awaits (OllamaChat.handleSendMessage env st)) ->
  isLoading s = true /\ input s = []
  /\ Forall2 (framed (assistantMessageId env)) (opened env st) (messages s).
Proof.
  destruct (guard st) eqn:Hg.
  - unfold DevNinja.handleSendMessage, OllamaChat.handleSendMessage.
    rewrite Hg. intros [[]|[]].
  - rewrite (DevNinja_awaits env st Hg), (OllamaChat_awaits env st Hg).
    rewrite !in_map_iff.
    intros [(msgs & <- & Hin)|(msgs & <- & Hin)]; cbn [inFlight isLoading
      input messages]; (split; [reflexivity|]); (split; [reflexivity|]).
    + destruct (@attempt_seen _ DevNinja.start
                  (DevNinja.onChunk (assistantMessageId env)) DevNinja.reply
                  (assistantMessageId env) (fetch env) (opened env st)
                  (DevNinja_onChunk_lines (assistantMessageId env))
                  eq_refl (opened_shows env st)) as [_ H].
      rewrite Forall_forall in H. now apply H.
    + destruct (@attempt_seen _ OllamaChat.start
                  (OllamaChat.onChunk (assistantMessageId env))
                  OllamaChat.reply
                  (assistantMessageId env) (fetch env) (opened env st)
                  (OllamaChat_onChunk_lines (assistantMessageId env))
                  eq_refl (opened_shows env st)) as [_ H].
      rewrite Forall_forall in H. now apply H.
Qed.

Lemma opened_length (env : Env) (st : State) :
  List.length (opened env st) = List.length (messages st) + 2.
Proof. unfold opened. rewrite !length_app. cbn [List.length]. lia. Qed.

(** X15. While a call is in flight the view is locked and stable, in both
    components: at every [await] the list of bubbles is shown, not the
    start screen; the loading indicator is on; the input field and the
    send button are disabled; and the bubbles have the keys of the earlier
    messages, of the user message and of the placeholder, in this order,
    so streaming never adds, drops or reorders a bubble. *)
Theorem view_in_flight (env : Env) (st s s' : State) :
  In s (awaits (DevNinja.handleSendMessage env st)) ->
  In s' (awaits (OllamaChat.handleSendMessage env st)) ->
  (startScreen (DevNinjaView.render s) = false
   /\ loader (DevNinjaView.render s) = true
   /\ inputDisabled (DevNinjaView.render s) = true
   /\ sendDisabled (DevNinjaView.render s) = true
   /\ List.map fst (bubbles (DevNinjaView.render s)) =
      List.map id (opened env st))
  /\ (startScreen (OllamaChatView.render s') = false
      /\ loader (OllamaChatView.render s') = true
      /\ inputDisabled (OllamaChatView.render s') = true
      /\ sendDisabled (OllamaChatView.render s') = true
      /\ List.map fst (bubbles (OllamaChatView.render s')) =
         List.map id (opened env st)).
Proof.
  intros Hs Hs'.
  destruct (awaits_framed env st s (or_introl Hs)) as (Hl & _ & HF).
  destruct (awaits_framed env st s' (or_intror Hs')) as (Hl' & _ & HF').
  pose proof (Forall2_framed_length _ _ _ HF) as L.
  pose proof (Forall2_framed_length _ _ _ HF') as L'.
  rewrite opened_length in L, L'.
  apply framed_ids in HF. apply framed_ids in HF'.
  unfold DevNinjaView.render, OllamaChatView.render.
  cbn [startScreen loader inputDisabled sendDisabled bubbles].
  rewrite Hl, Hl'.
  destruct (messages s) as [|m ms] eqn:E; [cbn [List.length] in L; lia|].
  destruct (messages s') as [|m' ms'] eqn:E'; [cbn [List.length] in L'; lia|].
  cbn [List.length Nat.eqb orb]. rewrite !map_map. cbn [fst].
  repeat split; assumption.
Qed.

Lemma view_in_flight_witness :
  let cs := [bytes (quoted "{'response':'Hi'}") ++ bytes LF;
             bytes (quoted "{'response':'!'}") ++ bytes LF] in
  let env := {| now_user := 1700000000000; now_assistant := 1700000000000;
                fetch := streams cs Done; now_error := 1700000000500 |} in
  let st := {| messages := []; input := JS.lit "Hello";
               isLoading := false |} in
  let s := inFlight [userMessage env st;
                     {| id := assistantMessageId env; role := assistant;
                        content := JS.lit "Hi" |}] in
  (In s (awaits (DevNinja.handleSendMessage env st))
   /\ In s (awaits (OllamaChat.handleSendMessage env st)))
  /\ loader (DevNinjaView.render s) = true
  /\ List.map fst (bubbles (DevNinjaView.render s)) =
     [JS.lit "1700000000000"; JS.lit "1700000000001"].
Proof.
  intros cs env st s.
  assert (Hs : In s (awaits (DevNinja.handleSendMessage env st)))
    by (vm_compute; right; right; left; reflexivity).
  assert (Hs' : In s (awaits (OllamaChat.handleSendMessage env st)))
    by (vm_compute; right; right; left; reflexivity).
  destruct (view_in_flight env st s s Hs Hs') as [(_ & H1 & _ & _ & H2) _].
  split; [split; assumption|]. split; [exact H1|].
  rewrite H2. vm_compute. reflexivity.
Defined.

(** X16. What the reply bubble shows once a call has completed.  In
    "Dev Ninja AI" it is the Markdown of what the handled lines have
    added, or, when they have added nothing (no body, no line, only lines
    without text), the words [Thinking...], which then stay although the
    loading indicator is off.  In "Ollama Chat" it is a paragraph with
    that text, empty when nothing was added. *)
Theorem reply_bubble_after_completion (env : Env) (st : State) :
  guard st = false ->
  thrown (fetch env) = None ->
  (nth_error (bubbles (DevNinjaView.render
                         (final (DevNinja.handleSendMessage env st))))
             (List.length (messages st) + 1) =
     Some (assistantMessageId env,
           {| isUser := false;
              body := match deltas (handledOf handledByDevNinja (fetch env))
                      with
                      | [] => Thinking
                      | c :: t => Markdown (c :: t)
                      end |})
   /\ loader (DevNinjaView.render
                (final (DevNinja.handleSendMessage env st))) = false)
  /\ (nth_error (bubbles (OllamaChatView.render
                            (final (OllamaChat.handleSendMessage env st))))
                (List.length (messages st) + 1) =
        Some (assistantMessageId env,
              {| isUser := false;
                 body := Paragraph
                           (deltas (handledOf handledByOllamaChat
                                              (fetch env))) |})
      /\ loader (OllamaChatView.render
                   (final (OllamaChat.handleSendMessage env st))) = false).
Proof.
  intros Hg Ht.
  assert (Nth : forall (f : Message -> jsstring * Bubble) before x,
             Forall2 (framed (assistantMessageId env))
                     (messages st ++ [userMessage env st]) before ->
             nth_error (List.map f (before ++ [x]))
                       (List.length (messages st) + 1) = Some (f x)).
  { intros f before x HF. apply Forall2_framed_length in HF.
    rewrite length_app in HF. cbn [List.length] in HF.
    rewrite map_app, nth_error_app2 by (rewrite length_map; lia).
    rewrite length_map, HF, Nat.sub_diag. reflexivity. }
  split.
  - destruct (DevNinja_run env st Hg) as [-> _]. rewrite Ht.
    destruct (reply_shape env st (handledOf handledByDevNinja (fetch env)))
      as (before & -> & HF).
    unfold DevNinjaView.render. cbn [messages isLoading bubbles loader].
    rewrite length_app. cbn [List.length].
    replace (List.length before + 1 =? 0)%nat with false
      by (symmetry; apply Nat.eqb_neq; lia).
    split; [|reflexivity]. rewrite (Nth _ before _ HF).
    unfold DevNinjaView.ChatMessage. cbn [id role content isUserRole].
    now destruct (deltas _).
  - destruct (OllamaChat_run env st Hg) as [-> _]. rewrite Ht.
    destruct (reply_shape env st (handledOf handledByOllamaChat (fetch env)))
      as (before & -> & HF).
    unfold OllamaChatView.render. cbn [messages isLoading bubbles loader].
    rewrite length_app. cbn [List.length].
    replace (List.length before + 1 =? 0)%nat with false
      by (symmetry; apply Nat.eqb_neq; lia).
    split; [|reflexivity]. now rewrite (Nth _ before _ HF).
Qed.

Lemma reply_bubble_after_completion_witness :
  let env := {| now_user := 1700000000000; now_assistant := 1700000000000;
                fetch := Response true (JS.lit "OK") None;
                now_error := 1700000000500 |} in
  let st := {| messages := []; input := JS.lit "Hello";
               isLoading := false |} in
  (guard st = false /\ thrown (fetch env) = None)
  /\ List.map snd (bubbles (DevNinjaView.render
                             (final (DevNinja.handleSendMessage env st)))) =
     [{| isUser := true; body := Paragraph (JS.lit "Hello") |};
      {| isUser := false; body := Thinking |}]
  /\ loader (DevNinjaView.render
               (final (DevNinja.handleSendMessage env st))) = false.
Proof.
  intros env st.
  assert (Hg : guard st = false) by reflexivity.
  assert (Ht : thrown (fetch env) = None) by reflexivity.
  destruct (reply_bubble_after_completion env st Hg Ht) as [[_ H] _].
  split; [split; assumption|]. split; [vm_compute; reflexivity | exact H].
Defined.

(** ** Key presses *)

(** X17. A key press in the input field of "Dev Ninja AI" starts an
    exchange exactly when the key is Enter, Shift is not held, the input
    holds a character that is not white space and no call is in flight;
    and the default action of the key is prevented exactly when the key is
    Enter without Shift, also when the call then returns at its guard. *)
Theorem key_press_sends_on_enter (e : KeyboardEvent) (env : Env)
    (st : State) :
  (fst (DevNinjaView.handleKeyPress e env st) = true <->
   key e = JS.lit "Enter" /\ shiftKey e = false)
  /\ ((exists r, snd (DevNinjaView.handleKeyPress e env st) = Some r
                 /\ outcome r <> Rejected) <->
      key e = JS.lit "Enter" /\ shiftKey e = false
      /\ forallb JS.isWhiteSpace (input st) = false
      /\ isLoading st = false).
Proof.
  unfold DevNinjaView.handleKeyPress.
  destruct (outcome_rejected env st) as [HR _].
  assert (G : guard st = false <->
              forallb JS.isWhiteSpace (input st) = false
              /\ isLoading st = false).
  { pose proof (guard_iff st) as Gi.
    destruct (guard st), (forallb JS.isWhiteSpace (input st)),
      (isLoading st); intuition discriminate. }
  destruct (JS.eqb (key e) (JS.lit "Enter")) eqn:Ek.
  - apply eqb_eq in Ek. destruct (shiftKey e); cbn [negb andb fst snd].
    + split; [intuition discriminate|]. split.
      * intros (r & Hr & _). discriminate.
      * intuition discriminate.
    + split; [intuition|]. split.
      * intros (r & [= <-] & Hn).
        assert (Hgf : guard st = false).
        { destruct (guard st) eqn:Hg'; [|reflexivity].
          exfalso. apply Hn, HR. reflexivity. }
        apply G in Hgf as [H1 H2]. auto.
      * intros (_ & _ & H1 & H2). eexists. split; [reflexivity|].
        intros Ho. apply HR in Ho. destruct G as [_ G].
        rewrite G in Ho by (split; assumption). discriminate.
  - cbn [andb fst snd].
    assert (Hk : key e <> JS.lit "Enter")
      by (intros E; apply eqb_eq in E; congruence).
    split; [split; [discriminate | intros [E _]; contradiction]|].
    split.
    + intros (r & Hr & _). discriminate.
    + intros (E & _). contradiction.
Qed.

(** ** The log of "Ollama Chat" *)

Lemma OllamaChat_call_ids (e : Env) (st : State) :
  List.map id (messages (final (OllamaChat.handleSendMessage e st))) =
  List.map id (messages st)
  ++ List.map id (created (OllamaChat.handleSendMessage e st)).
Proof.
  destruct (guard st) eqn:Hg.
  - unfold OllamaChat.handleSendMessage. rewrite Hg. cbn.
    now rewrite app_nil_r.
  - destruct (@OllamaChat_created e st Hg) as [-> _].
    destruct (OllamaChat_run e st Hg) as [-> _].
    destruct (reply_shape e st (handledOf handledByOllamaChat (fetch e)))
      as (before & -> & HF).
    apply framed_ids in HF. rewrite map_app in HF. cbn [List.map] in HF.
    cbn [messages]. destruct (thrown (fetch e)).
    + rewrite !map_app, HF, <- !app_assoc. reflexivity.
    + rewrite !map_app, HF, <- !app_assoc. reflexivity.
Qed.

(** X18. "Ollama Chat" never takes a message out of the conversation:
    over any run of submissions, the identifiers in the conversation are
    those it started with, followed by the identifier of every message
    appended since, in the order of creation.  (In "Dev Ninja AI" a failed
    call removes its placeholder.) *)
Theorem OllamaChat_conversation_is_append_only (xs : list Exchange)
    (st : State) :
  List.map id (messages (fst (session OllamaChat.handleSendMessage st xs))) =
  List.map id (messages st)
  ++ List.map id (snd (session OllamaChat.handleSendMessage st xs)).
Proof.
  revert st; induction xs as [|x xs IH]; intros st.
  - cbn. now rewrite app_nil_r.
  - cbn [session].
    set (st' := {| messages := messages st; input := typed x;
                   isLoading := isLoading st |}).
    specialize (IH (final (OllamaChat.handleSendMessage (env x) st'))).
    destruct (session OllamaChat.handleSendMessage
                (final (OllamaChat.handleSendMessage (env x) st')) xs)
      as [st'' log].
    cbn [fst snd] in *.
    now rewrite IH, (OllamaChat_call_ids (env x) st'), map_app, app_assoc.
Qed.

(** ** The buffered component on examples of its properties *)

Lemma DevNinja_concatenates_witness :
  let ls := [JS.lit (quoted "{'response':'Hi','done':false}");
             JS.lit (quoted "{'response':' there','done':false}");
             JS.lit (quoted "{'response':'!','done':true}")] in
  let ds := [JS.lit "Hi"; JS.lit " there"; JS.lit "!"] in
  let cs := [bytes (quoted "{'response':'Hi','done':false}") ++ bytes LF
             ++ bytes (quoted "{'response':' th");
             bytes (quoted "ere','done':false}") ++ bytes LF
             ++ bytes (quoted "{'response':'!','done':true}") ++ bytes LF] in
  let env := {| now_user := 1700000000000; now_assistant := 1700000000000;
                fetch := FetchRejects OtherValue;
                now_error := 1700000000500 |} in
  let st := {| messages := []; input := JS.lit "Hello";
               isLoading := false |} in
  (guard st = false
   /\ Forall2 (fun l d => ~ In JS.LF l /\ blank l = false
                          /\ delta l = Some d) ls ds
   /\ decoded cs = unlines ls)
  /\ lastContent
       (messages (final (DevNinja.handleSendMessage
                           (withFetch env (streams cs Done)) st))) =
     JS.lit "Hi there!".
Proof.
  intros ls ds cs env st.
  assert (Hg : guard st = false) by reflexivity.
  assert (H : Forall2 (fun l d => ~ In JS.LF l /\ blank l = false
                                  /\ delta l = Some d) ls ds).
  { repeat constructor;
      try (intros Hin; vm_compute in Hin; intuition discriminate);
      vm_compute; reflexivity. }
  assert (E : decoded cs = unlines ls) by (vm_compute; reflexivity).
  pose proof (@DevNinja_concatenates env st cs ls ds Hg H E) as Hc.
  split; [auto|]. rewrite Hc. reflexivity.
Defined.

Lemma DevNinja_chunking_invariant_witness :
  let whole := [bytes (quoted "{'response':'foo','done':false}") ++ bytes LF
                ++ bytes (quoted "{'response':'bar','done':true}")
                ++ bytes LF] in
  let cut := [bytes (quoted "{'response':'foo'");
              bytes (quoted ",'done':false}") ++ bytes LF
              ++ bytes (quoted "{'response':'b");
              bytes (quoted "ar','done':true}") ++ bytes LF] in
  let env := {| now_user := 1700000000000; now_assistant := 1700000000000;
                fetch := FetchRejects OtherValue;
                now_error := 1700000000500 |} in
  let st := {| messages := []; input := JS.lit "Hello";
               isLoading := false |} in
  concat whole = concat cut
  /\ final (DevNinja.handleSendMessage (withFetch env (streams cut Done)) st) =
     final (DevNinja.handleSendMessage (withFetch env (streams whole Done)) st)
  /\ lastContent
       (messages (final (DevNinja.handleSendMessage
                           (withFetch env (streams cut Done)) st))) =
     JS.lit "foobar".
Proof.
  intros whole cut env st.
  assert (E : concat whole = concat cut) by (vm_compute; reflexivity).
  destruct (@DevNinja_chunking_invariant env st whole cut Done E)
    as (_ & H & _).
  split; [exact E|]. split; [exact H|]. vm_compute; reflexivity.
Defined.

Lemma DevNinja_error_replaces_placeholder_witness :
  let cs := [bytes (quoted "{'response':'Once upon'}") ++ bytes LF] in
  let env := {| now_user := 1700000000000; now_assistant := 1700000000000;
                fetch := streams cs (ReadRejects
                                       (ErrorObject (JS.lit "network error")));
                now_error := 1700000000900 |} in
  let st := {| messages := []; input := JS.lit "Tell me a story";
               isLoading := false |} in
  (guard st = false
   /\ outcome (DevNinja.handleSendMessage env st) = Errored)
  /\ exists x,
       messages (final (DevNinja.handleSendMessage env st)) =
         [userMessage env st; DevNinja.errorMessage (now_error env) x].
Proof.
  intros cs env st.
  assert (Hg : guard st = false) by reflexivity.
  assert (Ho : outcome (DevNinja.handleSendMessage env st) = Errored)
    by (vm_compute; reflexivity).
  destruct (@DevNinja_error_replaces_placeholder env st Hg Ho)
    as (before & x & _ & _ & _).
  split; [split; assumption|].
  exists (ErrorObject (JS.lit "network error")). vm_compute. reflexivity.
Defined.

(** ** Lines that are not valid JSON, in general *)

(** X19. "Dev Ninja AI" skips a line that [JSON.parse] rejects, however
    the bytes are cut into chunks: when the decoded text of a stream is
    that of another with the line and its line feed inserted where a line
    starts, the call ends the same way, with the same conversation and the
    same appended messages, and after a normal end the placeholder shows
    what the lines of the stream without the inserted line add, those
    after it included. *)
Theorem DevNinja_skips_malformed_line (env : Env) (st : State)
    (e : StreamEnd) (bad T1 T2 : jsstring)
    (cs cs' : list TextDecoder.chunk) :
  guard st = false ->
  JSON.parse bad = None ->
  ~ In JS.LF bad ->
  endsLine T1 = true ->
  decoded cs = T1 ++ T2 ->
  decoded cs' = T1 ++ bad ++ JS.LF :: T2 ->
  (final (DevNinja.handleSendMessage (withFetch env (streams cs' e)) st) =
     final (DevNinja.handleSendMessage (withFetch env (streams cs e)) st)
   /\ outcome (DevNinja.handleSendMessage (withFetch env (streams cs' e)) st) =
      outcome (DevNinja.handleSendMessage (withFetch env (streams cs e)) st)
   /\ created (DevNinja.handleSendMessage (withFetch env (streams cs' e)) st) =
      created (DevNinja.handleSendMessage (withFetch env (streams cs e)) st))
  /\ lastContent
       (messages (final (DevNinja.handleSendMessage
                           (withFetch env (streams cs' Done)) st))) =
     deltas (handledByDevNinja cs).
Proof.
  intros Hg Hp Hbad HT1 E E'.
  assert (Hs : forall aid r,
             fold_left (onLine aid) (handledByDevNinja cs') r =
             fold_left (onLine aid) (handledByDevNinja cs) r).
  { intros aid r.
    destruct (@handledByDevNinja_inserted cs cs' bad T1 T2 Hbad HT1 E E')
      as (a & b & -> & ->).
    now apply fold_onLine_skip. }
  split; [apply (@DevNinja_same_lines env st cs cs' e Hs)|].
  destruct (@DevNinja_same_lines env st cs cs' Done Hs) as [-> _].
  destruct (@DevNinja_streamed (withFetch env (streams cs Done)) st
              (JS.lit "OK") cs Done Hg eq_refl) as (-> & _).
  cbn [messages].
  apply (@stream_done_completes _ _ (handledByDevNinja cs)
           (opened_shows (withFetch env (streams cs Done)) st)).
Qed.

Lemma DevNinja_skips_malformed_line_witness :
  let first := JS.lit (quoted "{'response':'Hi','done':false}") ++ [JS.LF] in
  let second := JS.lit (quoted "{'response':'!','done':true}") ++ [JS.LF] in
  let bad := JS.lit (quoted "{'response':'X'}garbage") in
  let cs := [bytes (quoted "{'response':'Hi','done':false}") ++ bytes LF;
             bytes (quoted "{'response':'!','done':true}") ++ bytes LF] in
  let cs' := [bytes (quoted "{'response':'Hi','done':false}") ++ bytes LF
              ++ bytes (quoted "{'response':'X'}");
              bytes "garbage" ++ bytes LF
              ++ bytes (quoted "{'response':'!','done':true}") ++ bytes LF] in
  let env := {| now_user := 1700000000000; now_assistant := 1700000000000;
                fetch := FetchRejects OtherValue;
                now_error := 1700000000500 |} in
  let st := {| messages := []; input := JS.lit "Hello";
               isLoading := false |} in
  (guard st = false /\ JSON.parse bad = None /\ ~ In JS.LF bad
   /\ endsLine first = true /\ decoded cs = first ++ second
   /\ decoded cs' = first ++ bad ++ JS.LF :: second)
  /\ final (DevNinja.handleSendMessage (withFetch env (streams cs' Done)) st)
     = final (DevNinja.handleSendMessage (withFetch env (streams cs Done)) st)
  /\ lastContent
       (messages (final (DevNinja.handleSendMessage
                           (withFetch env (streams cs' Done)) st))) =
     JS.lit "Hi!".
Proof.
  intros first second bad cs cs' env st.
  assert (Hg : guard st = false) by reflexivity.
  assert (Hp : JSON.parse bad = None) by (vm_compute; reflexivity).
  assert (Hbad : ~ In JS.LF bad)
    by (intros H; vm_compute in H; intuition discriminate).
  assert (Hf : endsLine first = true) by (vm_compute; reflexivity).
  assert (E : decoded cs = first ++ second) by (vm_compute; reflexivity).
  assert (E' : decoded cs' = first ++ bad ++ JS.LF :: second)
    by (vm_compute; reflexivity).
  destruct (DevNinja_skips_malformed_line env st Done bad first second
              cs cs' Hg Hp Hbad Hf E E') as [(HA & _) HC].
  split; [tauto|]. split; [exact HA|].
  rewrite HC. vm_compute. reflexivity.
Defined.

(** X20. "Ollama Chat" skips a line that [JSON.parse] rejects when the
    line arrives whole: when the text of one chunk is that of a chunk of
    another stream with the line and its line feed inserted where a line
    of the chunk starts, the other chunks being the same, the call ends
    the same way, with the same conversation and the same appended
    messages, and after a normal end the placeholder shows what the pieces
    of the stream without the inserted line add. *)
Theorem OllamaChat_skips_malformed_line_in_chunk (env : Env) (st : State)
    (e : StreamEnd) (bad t1 t2 : jsstring) (ts1 ts2 : list jsstring)
    (cs cs' : list TextDecoder.chunk) :
  guard st = false ->
  JSON.parse bad = None ->
  ~ In JS.LF bad ->
  endsLine t1 = true ->
  texts TextDecoder.create cs = ts1 ++ (t1 ++ t2) :: ts2 ->
  texts TextDecoder.create cs' = ts1 ++ (t1 ++ bad ++ JS.LF :: t2) :: ts2 ->
  (final (OllamaChat.handleSendMessage (withFetch env (streams cs' e)) st) =
     final (OllamaChat.handleSendMessage (withFetch env (streams cs e)) st)
   /\ outcome (OllamaChat.handleSendMessage
                 (withFetch env (streams cs' e)) st) =
      outcome (OllamaChat.handleSendMessage (withFetch env (streams cs e)) st)
   /\ created (OllamaChat.handleSendMessage
                 (withFetch env (streams cs' e)) st) =
      created (OllamaChat.handleSendMessage (withFetch env (streams cs e)) st))
  /\ lastContent
       (messages (final (OllamaChat.handleSendMessage
                           (withFetch env (streams cs' Done)) st))) =
     deltas (handledByOllamaChat cs).
Proof.
  intros Hg Hp Hbad Ht1 E E'.
  assert (Hs : forall aid r,
             fold_left (onLine aid) (handledByOllamaChat cs') r =
             fold_left (onLine aid) (handledByOllamaChat cs) r).
  { intros aid r.
    destruct (@handledByOllamaChat_inserted cs cs' bad t1 t2 ts1 ts2
                Hbad Ht1 E E') as (a & b & -> & ->).
    now apply fold_onLine_skip. }
  split; [apply (@OllamaChat_same_lines env st cs cs' e Hs)|].
  destruct (@OllamaChat_same_lines env st cs cs' Done Hs) as [-> _].
  destruct (@OllamaChat_streamed (withFetch env (streams cs Done)) st
              (JS.lit "OK") cs Done Hg eq_refl) as (-> & _).
  cbn [messages].
  apply (@stream_done_completes _ _ (handledByOllamaChat cs)
           (opened_shows (withFetch env (streams cs Done)) st)).
Qed.

Lemma OllamaChat_skips_malformed_line_in_chunk_witness :
  let first := JS.lit (quoted "{'response':'Hi','done':false}") ++ [JS.LF] in
  let second := JS.lit (quoted "{'response':'!','done':true}") ++ [JS.LF] in
  let bad := JS.lit (quoted "{'response':'X'}garbage") in
  let cs := [bytes (quoted "{'response':'Hi','done':false}") ++ bytes LF;
             bytes (quoted "{'response':'!','done':true}") ++ bytes LF] in
  let cs' := [bytes (quoted "{'response':'Hi','done':false}") ++ bytes LF;
              bytes (quoted "{'response':'X'}garbage") ++ bytes LF
              ++ bytes (quoted "{'response':'!','done':true}") ++ bytes LF] in
  let env := {| now_user := 1700000000000; now_assistant := 1700000000000;
                fetch := FetchRejects OtherValue;
                now_error := 1700000000500 |} in
  let st := {| messages := []; input := JS.lit "Hello";
               isLoading := false |} in
  (guard st = false /\ JSON.parse bad = None /\ ~ In JS.LF bad
   /\ endsLine [] = true
   /\ texts TextDecoder.create cs = [first] ++ ([] ++ second) :: []
   /\ texts TextDecoder.create cs' =
        [first] ++ ([] ++ bad ++ JS.LF :: second) :: [])
  /\ final (OllamaChat.handleSendMessage (withFetch env (streams cs' Done)) st)
     = final (OllamaChat.handleSendMessage (withFetch env (streams cs Done)) st)
  /\ lastContent
       (messages (final (OllamaChat.handleSendMessage
                           (withFetch env (streams cs' Done)) st))) =
     JS.lit "Hi!".
Proof.
  intros first second bad cs cs' env st.
  assert (Hg : guard st = false) by reflexivity.
  assert (Hp : JSON.parse bad = None) by (vm_compute; reflexivity).
  assert (Hbad : ~ In JS.LF bad)
    by (intros H; vm_compute in H; intuition discriminate).
  assert (Hf : endsLine [] = true) by reflexivity.
  assert (E : texts TextDecoder.create cs = [first] ++ ([] ++ second) :: [])
    by (vm_compute; reflexivity).
  assert (E' : texts TextDecoder.create cs' =
               [first] ++ ([] ++ bad ++ JS.LF :: second) :: [])
    by (vm_compute; reflexivity).
  destruct (OllamaChat_skips_malformed_line_in_chunk env st Done bad [] second
              [first] [] cs cs' Hg Hp Hbad Hf E E') as [(HA & _) HC].
  split; [tauto|]. split; [exact HA|].
  rewrite HC. vm_compute. reflexivity.
Defined.
